(** * Link-resolution core of the URL shortener

    A shallow embedding of the Django application under [shortener/]:
    the [URL] and [Click] models (models.py), the redirect view
    (views.py), the creation and password forms (forms.py), the
    user-agent parser (utils.py) and the statistics endpoint
    (api/views.py), with the properties of the specification stated
    and settled against them.

    Conventions of the embedding.
    - A Python [str] is a Rocq [string]; a character is a code point
      below 256.  The character tables ([isalnum], [isspace], [lower])
      are Python's for that range.
    - A [datetime] is a number of seconds ([Z]); [timezone.now()] reads
      the [now] field of the environment, the same reading for every
      call made while one request is served.
    - A database table is the list of its rows in insertion order.
      Every [save()] and [create()] is committed when it returns
      (Django's autocommit), so the rows written before an exception
      stay written.
    - An uncaught exception is a [Raise] outcome; Django answers it with
      status 500, except [Http404], which it answers with 404. *)

From Stdlib Require Import ZArith NArith List Ascii String Bool Lia.
From Stdlib Require Import Permutation Sorted DecimalString DecimalN.
From stdpp Require Import base option list sorting strings gmap.

Local Open Scope string_scope.
Local Open Scope list_scope.
Local Open Scope stdpp_scope.

(** ** Python strings *)

Module PyStr.

Definition ord (c : ascii) : N := N_of_ascii c.

Definition in_range (lo hi : N) (c : ascii) : bool :=
  ((lo <=? ord c) && (ord c <=? hi))%N.

Definition is_ascii_lower : ascii -> bool := in_range 97 122.
Definition is_ascii_upper : ascii -> bool := in_range 65 90.
Definition is_ascii_digit : ascii -> bool := in_range 48 57.

(** [str.isalnum] of one character.  Beyond ASCII it holds for the
    Latin-1 letters, the ordinal indicators, the micro sign, the
    superscript digits and the vulgar fractions. *)
Definition isalnum (c : ascii) : bool :=
  is_ascii_digit c || is_ascii_upper c || is_ascii_lower c
  || existsb (N.eqb (ord c)) [170; 178; 179; 181; 185; 186; 188; 189; 190]%N
  || in_range 192 214 c || in_range 216 246 c || in_range 248 255 c.

(** The characters [A-Za-z0-9]. *)
Definition ascii_alnum (c : ascii) : bool :=
  is_ascii_digit c || is_ascii_upper c || is_ascii_lower c.

(** [str.isspace] of one character. *)
Definition isspace (c : ascii) : bool :=
  in_range 9 13 c || in_range 28 32 c
  || existsb (N.eqb (ord c)) [133; 160]%N.

(** [str.lower] of one character: A-Z and the Latin-1 capitals
    (all of 192..222 but the multiplication sign 215) move up by 32. *)
Definition lower_char (c : ascii) : ascii :=
  if is_ascii_upper c || (in_range 192 222 c && negb (N.eqb (ord c) 215))
  then ascii_of_N (ord c + 32) else c.

Fixpoint lower (s : string) : string :=
  match s with
  | EmptyString => EmptyString
  | String c s' => String (lower_char c) (lower s')
  end.

(** [all(p(c) for c in s)] *)
Fixpoint all (p : ascii -> bool) (s : string) : bool :=
  match s with
  | EmptyString => true
  | String c s' => p c && all p s'
  end.

(** [needle in hay] *)
Fixpoint contains (needle hay : string) : bool :=
  String.prefix needle hay
  || match hay with
     | EmptyString => false
     | String _ hay' => contains needle hay'
     end.

(** [s.lstrip()], [s.rstrip()] and [s.strip()] *)
Fixpoint lstrip (s : string) : string :=
  match s with
  | EmptyString => EmptyString
  | String c s' => if isspace c then lstrip s' else s
  end.

Fixpoint rstrip (s : string) : string :=
  match s with
  | EmptyString => EmptyString
  | String c s' =>
      match rstrip s' with
      | EmptyString => if isspace c then EmptyString else String c EmptyString
      | r => String c r
      end
  end.

Definition strip (s : string) : string := rstrip (lstrip s).

(** [s.split(',')[0]]: the part before the first comma. *)
Fixpoint split_comma_head (s : string) : string :=
  match s with
  | EmptyString => EmptyString
  | String c s' =>
      if Ascii.eqb c ","%char then EmptyString
      else String c (split_comma_head s')
  end.

(** [str(n)] for a non-negative integer. *)
Definition str_of_N (n : N) : string := NilEmpty.string_of_uint (N.to_uint n).

(** Truthiness of a string: [if s:] holds when [s] is not empty. *)
Definition truthy (s : string) : bool :=
  match s with EmptyString => false | _ => true end.

(** ['\x00' in s] *)
Definition has_null (s : string) : bool :=
  contains (String Ascii.zero EmptyString) s.

End PyStr.

(** ** models.py *)

(** [class URL(models.Model)].  The fields no modelled function reads
    (title, description, tags, is_custom, updated_at) are left out.
    The class declares no [is_one_time] field. *)
Module URL.

Record t := mk {
  id : N;
  original_url : string;
  short_code : string;
  created_at : Z;
  expires_at : option Z;
  created_by : option N;
  is_active : bool;
  password : string;
  click_count : N;
  last_clicked : option Z;
}.

Definition set_clicks (n : N) (at_ : option Z) (u : t) : t :=
  mk (id u) (original_url u) (short_code u) (created_at u) (expires_at u)
     (created_by u) (is_active u) (password u) n at_.

Definition set_is_active (b : bool) (u : t) : t :=
  mk (id u) (original_url u) (short_code u) (created_at u) (expires_at u)
     (created_by u) b (password u) (click_count u) (last_clicked u).

(** [def is_expired(self)]:
    [if not self.expires_at: return False]
    [return timezone.now() > self.expires_at] *)
Definition is_expired (now : Z) (u : t) : bool :=
  match expires_at u with
  | None => false
  | Some e => (now >? e)%Z
  end.

(** Attribute lookup [self.is_one_time].  The attributes of a model
    instance are the fields of its class, and [URL] has no such field:
    the lookup raises AttributeError, rendered as [None]. *)
Definition getattr_is_one_time (u : t) : option bool := None.

End URL.

(** [class Click(models.Model)] *)
Module Click.

Record t := mk {
  url : N;                      (* foreign key: URL.id *)
  clicked_at : Z;               (* auto_now_add *)
  ip_address : option string;   (* null=True *)
  referrer : string;
  user_agent : string;
  country : string;
  city : string;
  device_type : string;
  browser : string;
  os : string;
}.

Definition set_ip_address (ip : option string) (c : t) : t :=
  mk (url c) (clicked_at c) ip (referrer c) (user_agent c) (country c)
     (city c) (device_type c) (browser c) (os c).

End Click.

(** The two tables. *)
Record DB := mkDB {
  urls : list URL.t;
  clicks : list Click.t;
}.

(** The request: the [META] and [session] dictionaries. *)
Record HttpRequest := mkRequest {
  META : gmap string string;
  session : gmap string bool;
}.

(** What a request handler reads from outside the two tables: the
    clock; the GeoIP2 city lookup ([None] when [GeoIP2()] or
    [g.city(ip)] raises), which returns the values under
    ['country_name'] and ['city']; Django's [clean_ipv6_address] ([None]
    when it raises ValidationError); and the highest key the link table
    has handed out so far (the AUTOINCREMENT sequence of the table). *)
Record Env := mkEnv {
  now : Z;
  geoip_city : option string -> option (string * string);
  clean_ipv6_address : string -> option string;
  url_id_sequence : N;
}.

Module ORM.

(** Result of [Model.objects.get(...)]. *)
Inductive get_result (A : Type) : Type :=
| Found (a : A)
| DoesNotExist
| MultipleObjectsReturned.
Arguments Found {A} a.
Arguments DoesNotExist {A}.
Arguments MultipleObjectsReturned {A}.

(** [Model.objects.get(cond)] *)
Definition get {A : Type} (cond : A -> bool) (rows : list A) : get_result A :=
  match List.filter cond rows with
  | [] => DoesNotExist
  | [a] => Found a
  | _ :: _ :: _ => MultipleObjectsReturned
  end.

(** [Model.objects.filter(cond).exists()] *)
Definition exists_ {A : Type} (cond : A -> bool) (rows : list A) : bool :=
  existsb cond rows.

(** [URL.objects.filter(short_code=code).exists()] *)
Definition code_exists (db : DB) (code : string) : bool :=
  exists_ (fun u => String.eqb (URL.short_code u) code) (urls db).

(** [instance.save(update_fields=['click_count', 'last_clicked'])]:
    UPDATE of the two columns of the row with the instance's key. *)
Definition save_clicks (u : URL.t) (db : DB) : DB :=
  mkDB (map (fun r => if N.eqb (URL.id r) (URL.id u)
                      then URL.set_clicks (URL.click_count u) (URL.last_clicked u) r
                      else r) (urls db))
       (clicks db).

(** [instance.save()] of an instance read from the table: UPDATE of
    every column of the row with the instance's key. *)
Definition save (u : URL.t) (db : DB) : DB :=
  mkDB (map (fun r => if N.eqb (URL.id r) (URL.id u) then u else r) (urls db))
       (clicks db).

(** [Click.objects.create(...)]: the new row goes last. *)
Definition create_click (c : Click.t) (db : DB) : DB :=
  mkDB (urls db) (clicks db ++ [c]).

End ORM.

Module ClickRecorder.

(** The device rule of [Click.create_from_request]:
    [device_type = 'Desktop'], then ['Mobile' in user_agent], else
    ['Tablet' in user_agent or 'iPad' in user_agent]. *)
Definition device_type_of (user_agent : string) : string :=
  if PyStr.contains "Mobile" user_agent then "Mobile"
  else if PyStr.contains "Tablet" user_agent || PyStr.contains "iPad" user_agent
       then "Tablet"
       else "Desktop".

(** The client address: the head of [HTTP_X_FORWARDED_FOR] when that
    header is set and not empty, [REMOTE_ADDR] otherwise. *)
Definition client_ip (request : HttpRequest) : option string :=
  match META request !! "HTTP_X_FORWARDED_FOR" with
  | Some x => if PyStr.truthy x then Some (PyStr.split_comma_head x)
              else META request !! "REMOTE_ADDR"
  | None => META request !! "REMOTE_ADDR"
  end.

(** What the column [ip_address = GenericIPAddressField(null=True)]
    holds for a value handed to [create].  The field's [get_prep_value]
    rewrites a text with a colon by [clean_ipv6_address], unless that
    raises, and [adapt_ipaddressfield_value] of the backend
    ([value or None]) stores the empty text as NULL.  The column is a
    text column that takes any text, as SQLite has it. *)
Definition stored_ip_address (env : Env) (value : option string)
    : option string :=
  match value with
  | None => None
  | Some s =>
      let prepared :=
        if PyStr.truthy s && PyStr.contains ":" s
        then default s (clean_ipv6_address env s)
        else s in
      if PyStr.truthy prepared then Some prepared else None
  end.

(** [Click.create_from_request(url, request)]; [browser] and [os] are
    assigned [''] and never changed.  The import of [GeoIP2] at the head
    of the method is taken to succeed.  The result is the table with the
    new row and the instance [create] returns: the instance keeps the
    address it was given, the row holds the address as the column
    stores it. *)
Definition create_from_request (env : Env) (u : URL.t) (request : HttpRequest)
    (db : DB) : DB * Click.t :=
  let ip := client_ip request in
  let '(country, city) :=
    match geoip_city env ip with
    | Some loc => loc
    | None => ("", "")
    end in
  let user_agent := default "" (META request !! "HTTP_USER_AGENT") in
  let click :=
    Click.mk (URL.id u) (now env) ip
             (default "" (META request !! "HTTP_REFERER"))
             user_agent country city (device_type_of user_agent) "" "" in
  (ORM.create_click (Click.set_ip_address (stored_ip_address env ip) click) db,
   click).

End ClickRecorder.

(** [URL.increment_click_count]: add one to the instance's counter, stamp
    it, and save the two fields.  The instance was selected by its
    non-empty short code, so the code-generating branch of [URL.save]
    is not entered. *)
Definition increment_click_count (env : Env) (u : URL.t) (db : DB) : DB * URL.t :=
  let u' := URL.set_clicks (URL.click_count u + 1)%N (Some (now env)) u in
  (ORM.save_clicks u' db, u').

(** ** views.py: the redirect view *)

Inductive HttpResponse :=
| HttpResponsePermanentRedirect (location : string)
    (* status 301, Location: the argument *)
| render (template : string) (context_url : URL.t) (status : N)
| redirect (view_name : string) (short_code : string).
    (* status 302 to the route of that name, with that keyword argument *)

Inductive Exception :=
| Http404 (message : string)
| AttributeError (attribute : string)
| MultipleObjectsReturned
| NoReverseMatch (view_name : string).

Inductive Outcome :=
| Return (r : HttpResponse)
| Raise (e : Exception).

(** The HTTP status the client sees. *)
Definition status_code (o : Outcome) : N :=
  match o with
  | Return (HttpResponsePermanentRedirect _) => 301
  | Return (render _ _ status) => status
  | Return (redirect _ _) => 302
  | Raise (Http404 _) => 404
  | Raise _ => 500
  end.

(** The session key [f'url_{url.id}_authenticated']. *)
Definition session_key (u : URL.t) : string :=
  "url_" +:+ PyStr.str_of_N (URL.id u) +:+ "_authenticated".

(** [request.session.get(key, False)] *)
Definition session_authenticated (request : HttpRequest) (u : URL.t) : bool :=
  default false (session request !! session_key u).

(** The expiry test of the view:
    [url.expires_at and url.expires_at < timezone.now()]. *)
Definition expires_at_passed (env : Env) (u : URL.t) : bool :=
  match URL.expires_at u with
  | None => false
  | Some e => (e <? now env)%Z
  end.

(** The condition of [URL.objects.get(short_code=short_code, is_active=True)]. *)
Definition active_with_code (code : string) (u : URL.t) : bool :=
  String.eqb (URL.short_code u) code && URL.is_active u.

(** The names shortener/urls.py gives its routes; the URLconf of the
    project includes them under the namespace [shortener], and no other
    URLconf has that namespace. *)
Definition shortener_url_names : list string :=
  [ "dashboard"; "create_short_url"; "edit_short_url"; "delete_short_url";
    "url_list"; "url_analytics"; "url_clicks"; "export_clicks";
    "generate_qr_code"; "api_url_list_create";
    "api_url_retrieve_update_destroy"; "api_url_clicks" ].

(** [redirect('shortener:<name>', short_code=code)]: the response, or
    the NoReverseMatch of [reverse] for a name without a route. *)
Definition redirect_to_shortener (name : string) (short_code : string) : Outcome :=
  if existsb (String.eqb name) shortener_url_names
  then Return (redirect ("shortener:" +:+ name) short_code)
  else Raise (NoReverseMatch ("shortener:" +:+ name)).


(** [def redirect_short_url(request, short_code)].  The route
    [^(?P<short_code>[\w-]+)/?$] hands over a code that is not empty. *)
Definition redirect_short_url (env : Env) (request : HttpRequest)
    (short_code : string) (db : DB) : DB * Outcome :=
  match ORM.get (active_with_code short_code) (urls db) with
  | ORM.DoesNotExist => (db, Raise (Http404 "Short URL not found"))
  | ORM.MultipleObjectsReturned => (db, Raise MultipleObjectsReturned)
  | ORM.Found url =>
      (* if url.expires_at and url.expires_at < timezone.now() *)
      if expires_at_passed env url then
        (db, Return (render "shortener/url_expired.html" url 410))
      (* if url.password and not request.session.get(..., False) *)
      else if PyStr.truthy (URL.password url)
              && negb (session_authenticated request url) then
        (db, redirect_to_shortener "url_password" (URL.short_code url))
      else
        let '(db1, _) := ClickRecorder.create_from_request env url request db in
        let '(db2, url) := increment_click_count env url db1 in
        (* if url.is_one_time: url.is_active = False; url.save() *)
        match URL.getattr_is_one_time url with
        | None => (db2, Raise (AttributeError "is_one_time"))
        | Some one_time =>
            let '(db3, url) :=
              if one_time
              then (ORM.save (URL.set_is_active false url) db2,
                    URL.set_is_active false url)
              else (db2, url) in
            (db3, Return (HttpResponsePermanentRedirect (URL.original_url url)))
        end
  end.

(** ** forms.py: the password form *)

(** Result of a [clean_<field>] method: the cleaned value, or the
    message of the [ValidationError] it raises. *)
Inductive Cleaned (A : Type) : Type :=
| Valid (value : A)
| ValidationError (message : string).
Arguments Valid {A} value.
Arguments ValidationError {A} message.

(** What a form makes of one field: the cleaned value, or the errors it
    lists for the field, each the code of a validator's error or the
    message of the [clean_<field>] method's. *)
Inductive FormField (A : Type) : Type :=
| Accepted (value : A)
| Rejected (errors : list string).
Arguments Accepted {A} value.
Arguments Rejected {A} errors.

Module PasswordForm.

(** [def clean_password(self)].  [url] is [self.url] ([None] when the
    form was built without one; a model instance is always truthy) and
    [password] is [self.cleaned_data.get('password')].
    [if self.url and self.url.password != password: raise ...] *)
Definition clean_password (url : option URL.t) (password : option string)
    : Cleaned (option string) :=
  match url with
  | Some u =>
      if bool_decide (Some (URL.password u) ≠ password)
      then ValidationError "Incorrect password. Please try again."
      else Valid password
  | None => Valid password
  end.

(** The field [password = forms.CharField(widget=forms.PasswordInput(...),
    label=...)], on the text posted under its name ([''] when there is
    none): [to_python] strips the text, an empty value fails the
    [required] test, and [ProhibitNullCharactersValidator], which every
    [CharField] has, refuses a null character. *)
Definition password_field (raw : string) : FormField string :=
  let value := PyStr.strip raw in
  if negb (PyStr.truthy value) then Rejected ["required"]
  else if PyStr.has_null value then Rejected ["null_characters_not_allowed"]
  else Accepted value.

(** Cleaning of the field as the form runs it: the field's own [clean],
    then, when that raised nothing, [clean_password]. *)
Definition cleaned_password (url : option URL.t) (raw : string)
    : FormField (option string) :=
  match password_field raw with
  | Rejected errors => Rejected errors
  | Accepted value =>
      match clean_password url (Some value) with
      | Valid password => Accepted password
      | ValidationError message => Rejected [message]
      end
  end.

End PasswordForm.

(** ** Code generation *)

(** Python's [random] module: an endless supply of indices, of which
    [pos] have been consumed.  [random.choices(population, k=k)] takes
    the next [k] of them, each reduced modulo the size of the
    population. *)
Module Random.

Record t := mk { draws : nat -> nat; pos : nat }.

Definition pick (population : string) (i : nat) : ascii :=
  match String.get (i mod String.length population) population with
  | Some c => c
  | None => " "%char
  end.

(** [''.join(random.choices(population, k=k))] *)
Fixpoint choices (population : string) (k : nat) (g : t) : string * t :=
  match k with
  | O => (EmptyString, g)
  | S k' =>
      let c := pick population (draws g (pos g)) in
      let '(s, g') := choices population k' (mk (draws g) (S (pos g))) in
      (String c s, g')
  end.

End Random.

(** [string.ascii_letters + string.digits] *)
Definition chars : string :=
  "abcdefghijklmnopqrstuvwxyzABCDEFGHIJKLMNOPQRSTUVWXYZ0123456789".

Module URLMethods.

(** [URL.generate_short_code(self, length=6)]: [while True] at one
    length.  [fuel] bounds the number of turns of the loop; [None] is
    a loop still running when the fuel is spent. *)
Fixpoint generate_short_code (fuel : nat) (length : nat) (db : DB)
    (g : Random.t) : option (string * Random.t) :=
  match fuel with
  | O => None
  | S fuel' =>
      let '(code, g') := Random.choices chars length g in
      if negb (ORM.code_exists db code) then Some (code, g')
      else generate_short_code fuel' length db g'
  end.

End URLMethods.

Module URLForm.

(** The loop [for _ in range(n)] of [_generate_short_code], [n = 10]
    in the source: the first code not in the table, or [None] when
    all [n] codes are taken. *)
Fixpoint attempts (n : nat) (length : nat) (db : DB) (g : Random.t)
    : option string * Random.t :=
  match n with
  | O => (None, g)
  | S n' =>
      let '(code, g') := Random.choices chars length g in
      if negb (ORM.code_exists db code) then (Some code, g')
      else attempts n' length db g'
  end.

(** [URLForm._generate_short_code(self, length=6)]: ten attempts, then
    [return self._generate_short_code(length + 1)].  [fuel] bounds the
    depth of the recursion; [None] is the depth being spent (in
    Python, RecursionError at the interpreter's limit). *)
Fixpoint _generate_short_code (fuel : nat) (length : nat) (db : DB)
    (g : Random.t) : option (string * Random.t) :=
  match fuel with
  | O => None
  | S fuel' =>
      match attempts 10 length db g with
      | (Some code, g') => Some (code, g')
      | (None, g') => _generate_short_code fuel' (length + 1) db g'
      end
  end.

(** The validators of the form field [custom_short_code =
    forms.CharField(required=False, max_length=20)], in their order:
    [MaxLengthValidator(20)], then the [ProhibitNullCharactersValidator]
    every [CharField] has.  [run_validators] collects the errors of
    both, here by their codes. *)
Definition custom_short_code_errors (value : string) : list string :=
  (if (20 <? String.length value)%nat then ["max_length"] else [])
  ++ (if PyStr.has_null value then ["null_characters_not_allowed"] else []).

(** The field's [clean]: [to_python] strips the value, and the
    validators run on a value that is not empty. *)
Definition custom_short_code_field (raw : string) : FormField string :=
  let value := PyStr.strip raw in
  match custom_short_code_errors value with
  | [] => Accepted value
  | errors => Rejected errors
  end.

(** [c.isalnum() or c in ('-', '_')] *)
Definition code_char (c : ascii) : bool :=
  PyStr.isalnum c || Ascii.eqb c "-"%char || Ascii.eqb c "_"%char.

(** [def clean_custom_short_code(self)], where [short_code] is
    [self.cleaned_data.get('custom_short_code')]. *)
Definition clean_custom_short_code (db : DB) (short_code : string)
    : Cleaned (option string) :=
  if negb (PyStr.truthy short_code) then Valid None
  else if negb (PyStr.all code_char short_code) then
    ValidationError
      "Short code can only contain letters, numbers, hyphens, and underscores."
  else if ORM.code_exists db short_code then
    ValidationError "This short code is already in use. Please choose another one."
  else Valid (Some short_code).

(** Cleaning of the field as the form runs it: the field's own
    [clean], then, when that raised nothing, [clean_custom_short_code]
    on its result. *)
Definition cleaned_custom_short_code (db : DB) (raw : string)
    : FormField (option string) :=
  match custom_short_code_field raw with
  | Rejected errors => Rejected errors
  | Accepted value =>
      match clean_custom_short_code db value with
      | Valid code => Accepted code
      | ValidationError message => Rejected [message]
      end
  end.

End URLForm.

(** The allocation of the specification, section 4.1, for the case
    without a requested code: batches of ten draws at lengths 6 to 10,
    then failure. *)
Module SpecAllocate.

Inductive Result :=
| Allocated (code : string)
| AllocationExhausted.

Fixpoint escalate (batches : nat) (length : nat) (db : DB) (g : Random.t)
    : Result :=
  match batches with
  | O => AllocationExhausted
  | S batches' =>
      match URLForm.attempts 10 length db g with
      | (Some code, _) => Allocated code
      | (None, g') => escalate batches' (length + 1) db g'
      end
  end.

(** Lengths 6, 7, 8, 9 and 10. *)
Definition Allocate (db : DB) (g : Random.t) : Result := escalate 5 6 db g.

End SpecAllocate.

(** The number of characters drawn by [k] exhausted batches of ten
    codes, the first of length [length_]. *)
Fixpoint batch_chars (k : nat) (length_ : nat) : nat :=
  match k with
  | O => 0
  | S k' => 10 * length_ + batch_chars k' (S length_)
  end.

(** The longest short code in the table. *)
Definition max_code_length (db : DB) : nat :=
  foldr (fun u m => Nat.max (String.length (URL.short_code u)) m) 0 (urls db).

(** The row and the tables written when a request passes every gate:
    the effect of [Click.create_from_request] followed by
    [url.increment_click_count()]. *)
Definition clicked (env : Env) (u : URL.t) : URL.t :=
  URL.set_clicks (URL.click_count u + 1)%N (Some (now env)) u.

Definition recorded (env : Env) (request : HttpRequest) (db : DB) (u : URL.t) : DB :=
  ORM.save_clicks (clicked env u)
    (ClickRecorder.create_from_request env u request db).1.

(** ** utils.py: the user-agent parser *)

Module Utils.

(** The dictionary [get_user_agent_info] returns. *)
Record UserAgentInfo := mkInfo {
  device_type : option string;
  browser : option string;
  os : option string;
}.

(** [def get_user_agent_info(user_agent_string)] *)
Definition get_user_agent_info (user_agent_string : string) : UserAgentInfo :=
  if negb (PyStr.truthy user_agent_string) then mkInfo None None None
  else
    let user_agent := PyStr.lower user_agent_string in
    let has needle := PyStr.contains needle user_agent in
    let device_type :=
      if has "mobile" then "mobile"
      else if has "tablet" || has "ipad" then "tablet"
      else "desktop" in
    let browser :=
      if has "chrome" then Some "Chrome"
      else if has "firefox" then Some "Firefox"
      else if has "safari" then Some "Safari"
      else if has "edge" then Some "Edge"
      else if has "opera" then Some "Opera"
      else if has "msie" || has "trident" then Some "Internet Explorer"
      else None in
    let os_info :=
      if has "windows" then Some "Windows"
      else if has "mac os" then Some "macOS"
      else if has "linux" && negb (has "android") then Some "Linux"
      else if has "android" then Some "Android"
      else if has "iphone" || has "ipad" || has "ipod" then Some "iOS"
      else None in
    mkInfo (Some device_type) browser os_info.

End Utils.

(** The derivation of the specification, section 4.4: one ordered table
    of rules per field; the first rule whose condition holds gives the
    value, and a field is unset when none does. *)
Module SpecUserAgent.

Definition Rule : Type := (string -> bool) * string.

Fixpoint first_match (table : list Rule) (user_agent : string) : option string :=
  match table with
  | [] => None
  | (condition, value) :: rest =>
      if condition user_agent then Some value else first_match rest user_agent
  end.

Definition has (needle : string) : string -> bool := PyStr.contains needle.

Definition device_table : list Rule :=
  [ (has "mobile", "mobile");
    (fun ua => has "tablet" ua || has "ipad" ua, "tablet") ].

Definition browser_table : list Rule :=
  [ (has "chrome", "Chrome");
    (has "firefox", "Firefox");
    (has "safari", "Safari");
    (has "edge", "Edge");
    (has "opera", "Opera");
    (fun ua => has "msie" ua || has "trident" ua, "Internet Explorer") ].

Definition os_table : list Rule :=
  [ (has "windows", "Windows");
    (has "mac os", "macOS");
    (fun ua => has "linux" ua && negb (has "android" ua), "Linux");
    (has "android", "Android");
    (fun ua => has "iphone" ua || has "ipad" ua || has "ipod" ua, "iOS") ].

(** The table of the click recorder: the case of the letters counts. *)
Definition recorder_device_table : list Rule :=
  [ (has "Mobile", "Mobile");
    (fun ua => has "Tablet" ua || has "iPad" ua, "Tablet") ].

(** All three fields by the tables alone. *)
Definition derive (user_agent_string : string) : Utils.UserAgentInfo :=
  let ua := PyStr.lower user_agent_string in
  Utils.mkInfo (first_match device_table ua)
               (first_match browser_table ua)
               (first_match os_table ua).

End SpecUserAgent.

(** ** api/views.py: the statistics endpoint *)

Module Stats.

(** [clicked_at__date]: the day a time stamp falls on. *)
Definition date_of (clicked_at : Z) : Z := (clicked_at / 86400)%Z.

(** [Click.objects.filter(url=url)] *)
Definition clicks_of (url : URL.t) (db : DB) : list Click.t :=
  List.filter (fun c => N.eqb (Click.url c) (URL.id url)) (clicks db).

Section Queries.

Context {A : Type} `{EqDecision A}.

Definition count_of (values : list A) (v : A) : nat :=
  count_occ (decide_rel (=)) values v.

(** [.values(field).distinct().count()]: NULL is one of the values. *)
Definition distinct_count (values : list A) : nat :=
  length (remove_dups values).

(** [.values(field).annotate(count=Count('id'))]: one row for each
    value, with the number of clicks that carry it. *)
Definition annotate_count (values : list A) : list (A * nat) :=
  map (fun v => (v, count_of values v)) (remove_dups values).

(** [.order_by('-count')[:n]].  ORDER BY count DESC fixes the order
    of two rows only when their counts differ; every arrangement of
    the rows by descending count is a possible answer of the
    database, and the slice keeps its first [n] rows. *)
Definition order_by_count_desc (rows ordered : list (A * nat)) : Prop :=
  rows ≡ₚ ordered /\ StronglySorted (fun a b => b.2 <= a.2) ordered.

Definition top_by_count (n : nat) (values : list A)
    (result : list (A * nat)) : Prop :=
  exists ordered,
    order_by_count_desc (annotate_count values) ordered
    /\ result = take n ordered.

End Queries.

(** [.values('clicked_at__date').annotate(count=Count('id'))
     .order_by('clicked_at__date')] *)
Definition by_date (cs : list Click.t) : list (Z * nat) :=
  let dates := map (fun c => date_of (Click.clicked_at c)) cs in
  map (fun d => (d, count_of dates d)) (merge_sort Z.le (remove_dups dates)).

(** [.filter(url=url, f__isnull=False).exclude(f='').values(f)]: the
    text columns are never NULL, the empty ones are dropped. *)
Definition non_empty (field : Click.t -> string) (cs : list Click.t)
    : list string :=
  List.filter PyStr.truthy (map field cs).

(** The body of the response (the serialized link is left out). *)
Record Response := mkResponse {
  total_clicks : nat;
  unique_visitors : nat;
  clicks_by_date : list (Z * nat);
  top_referrers : list (string * nat);
  top_user_agents : list (string * nat);
}.

(** [def url_stats(request, short_code)], after
    [url = get_object_or_404(URL, short_code=short_code,
    created_by=request.user)]: the responses the view can return for
    that link. *)
Definition url_stats (url : URL.t) (db : DB) (response : Response) : Prop :=
  let cs := clicks_of url db in
  total_clicks response = length cs
  /\ unique_visitors response = distinct_count (map Click.ip_address cs)
  /\ clicks_by_date response = by_date cs
  /\ top_by_count 10 (non_empty Click.referrer cs) (top_referrers response)
  /\ top_by_count 10 (non_empty Click.user_agent cs) (top_user_agents response).

End Stats.

(** ** views.py: the analytics page *)

Module Analytics.

(** [timedelta(days=30)] *)
Definition thirty_days : Z := 30 * 86400.

(** The order of [order_by('clicked_at')]. *)
Definition earlier (a b : Click.t) : Prop :=
  (Click.clicked_at a <= Click.clicked_at b)%Z.

#[export] Instance earlier_dec : RelDecision earlier :=
  fun a b => decide (Click.clicked_at a <= Click.clicked_at b)%Z.

(** [Click.objects.filter(url=url, clicked_at__gte=thirty_days_ago)
     .order_by('clicked_at')].  Clicks of one instant fall on one day,
    so their mutual order does not show in what follows. *)
Definition recent_clicks (env : Env) (url : URL.t) (db : DB) : list Click.t :=
  merge_sort earlier
    (List.filter (fun c => (now env - thirty_days <=? Click.clicked_at c)%Z)
                 (Stats.clicks_of url db)).

(** One turn of the loop over the clicks, on the dictionary
    [click_dates] kept as the list of its items in insertion order:
    [click_dates[date] += 1] when the key is there,
    [click_dates[date] = 1] otherwise. *)
Fixpoint bump (date : Z) (click_dates : list (Z * nat)) : list (Z * nat) :=
  match click_dates with
  | [] => [(date, 1)]
  | (d, k) :: rest =>
      if (d =? date)%Z then (d, S k) :: rest else (d, k) :: bump date rest
  end.

(** The items of [click_dates] after the loop: [chart_labels] are
    their keys and [chart_data] their values. *)
Definition click_dates (env : Env) (url : URL.t) (db : DB) : list (Z * nat) :=
  fold_left (fun acc c => bump (Stats.date_of (Click.clicked_at c)) acc)
            (recent_clicks env url db) [].

(** ['total_clicks': url.click_count] *)
Definition total_clicks (url : URL.t) : N := URL.click_count url.

End Analytics.

(** [result] holds the [n] most frequent of [values]: as many rows as
    there are distinct values, up to [n]; one row for a value, with the
    number of its occurrences; by descending count; and no value left
    out occurs more often than one that is listed. *)
Definition most_frequent (n : nat) (values : list string)
    (result : list (string * nat)) : Prop :=
  length result = Nat.min n (length (remove_dups values))
  /\ NoDup (map fst result)
  /\ StronglySorted (fun a b => b.2 <= a.2) result
  /\ (forall v k, (v, k) ∈ result -> v ∈ values /\ k = Stats.count_of values v)
  /\ (forall v, v ∈ values -> v ∉ map fst result ->
      forall w k, (w, k) ∈ result -> Stats.count_of values v <= k).

(** The top-N of the specification, section 4.5: by descending count,
    values with equal counts in the order in which they were first
    seen. *)
Module SpecStats.

(** The distinct values in the order of their first appearance. *)
Definition first_seen (values : list string) : list string :=
  reverse (remove_dups (reverse values)).

(** Insertion in front of the first row with a count that is not
    greater. *)
Fixpoint insert_desc (row : string * nat) (rows : list (string * nat))
    : list (string * nat) :=
  match rows with
  | [] => [row]
  | r :: rows' =>
      if (row.2 <? r.2)%nat then r :: insert_desc row rows'
      else row :: r :: rows'
  end.

Definition top_n (n : nat) (values : list string) : list (string * nat) :=
  take n (foldr insert_desc []
            (map (fun v => (v, Stats.count_of values v)) (first_seen values))).

End SpecStats.

(** ** Sample data *)

Module Sample.

(** A link as [create_short_url] stores it: active, never clicked. *)
Definition link (id : N) (target code : string) : URL.t :=
  URL.mk id target code 0 None (Some 1%N) true "" 0 None.

Definition example_link : URL.t := link 1 "https://example.com" "abc123".

Definition db0 : DB := mkDB [example_link] [].

Definition browser_request : HttpRequest :=
  mkRequest (<["REMOTE_ADDR" := "203.0.113.7"]>
             (<["HTTP_USER_AGENT" := "Mozilla/5.0 (X11; Linux x86_64)"]> ∅))
            ∅.

Definition env_at (t : Z) : Env := mkEnv t (fun _ => None) (fun _ => None) 0.

(** The same link after its owner unticked "Active" ([EditURLForm]). *)
Definition db_inactive : DB := mkDB [URL.set_is_active false example_link] [].

(** A link that expired at time 100 and was then deactivated. *)
Definition expired_inactive_link : URL.t :=
  URL.mk 2 "https://x.test" "gone42" 0 (Some 100%Z) (Some 1%N) false "" 0 None.

Definition db_expired_inactive : DB := mkDB [expired_inactive_link] [].

(** A link that expired at time 100 and is still active. *)
Definition expired_link : URL.t :=
  URL.mk 2 "https://x.test" "gone42" 0 (Some 100%Z) (Some 1%N) true "" 0 None.

Definition db_expired : DB := mkDB [expired_link] [].

(** A password-protected link. *)
Definition secret_link : URL.t :=
  URL.mk 3 "https://private.test/doc" "s3cret" 0 None (Some 1%N) true "hunter2" 0 None.

Definition db_secret : DB := mkDB [secret_link] [].



(** A table in which the codes "aaaaaa", "aaaaaaa", ... up to ten
    letters are taken, and a generator that always draws index 0. *)
Definition crowded_db : DB :=
  mkDB (map (fun n => link (N.of_nat n) "https://x.test"
                           (string_of_list_ascii (repeat "a"%char n)))
            [6; 7; 8; 9; 10]%nat)
       [].

Definition zero_generator : Random.t := Random.mk (fun _ => 0%nat) 0.

(** Clicks on [example_link]: the time and the referrer of each. *)
Definition click_at (t : Z) (ip : option string) (referrer : string) : Click.t :=
  Click.mk 1 t ip referrer "curl/8.4.0" "" "" "Desktop" "" "".

Definition db_two_referrers : DB :=
  mkDB [example_link]
       [ click_at 10 (Some "203.0.113.7") "https://a.test/";
         click_at 20 None "https://b.test/" ].

(** A response to the statistics request on [db_two_referrers]. *)
Definition stats_b_before_a : Stats.Response :=
  Stats.mkResponse 2 2 [(0%Z, 2)]
    [("https://b.test/", 1); ("https://a.test/", 1)]
    [("curl/8.4.0", 2)].

Definition db_history : DB :=
  mkDB [example_link]
       [ click_at 100000 (Some "203.0.113.7") "https://a.test/";
         click_at 20 None "https://b.test/";
         click_at 90000 None "https://b.test/";
         click_at 30 (Some "203.0.113.7") "";
         click_at 40 (Some "198.51.100.2") "https://b.test/" ].

End Sample.

(** ** Conditions on the tables *)

(** The primary key and the [unique=True] column [short_code]. *)
Definition unique_ids (db : DB) : Prop := NoDup (map URL.id (urls db)).

Definition unique_codes (db : DB) : Prop := NoDup (map URL.short_code (urls db)).

(** Every link's counter is the number of its click rows. *)
Definition counters_consistent (db : DB) : Prop :=
  forall u, In u (urls db) ->
            URL.click_count u = N.of_nat (length (Stats.clicks_of u db)).

(** The columns of a link that [increment_click_count] does not write. *)
Definition other_columns (u : URL.t) : URL.t := URL.set_clicks 0 None u.

(** ** models.py: saving a new link *)

(** The generator after [k] more indices have been consumed, and the
    [i]-th code of [length] characters it would draw from where it is. *)
Definition skip (k : nat) (g : Random.t) : Random.t :=
  Random.mk (Random.draws g) (Random.pos g + k).

Definition nth_code (length : nat) (g : Random.t) (i : nat) : string :=
  (Random.choices chars length (skip (i * length) g)).1.

Module URLSave.

(** The key an [AutoField] gives a new row: one above the highest key
    the table has handed out and every key in use, so that the key of a
    deleted row is not given again. *)
Definition next_id (env : Env) (db : DB) : N :=
  N.succ (N.max (url_id_sequence env)
                (foldr (fun u m => N.max (URL.id u) m) 0%N (urls db))).

Inductive Result :=
| Saved (db : DB) (url : URL.t) (g : Random.t)
| IntegrityError
| StillDrawing.

(** [URL.save(self)] on an instance that has no key yet:
    [if not self.short_code: self.short_code = self.generate_short_code()],
    then the INSERT of [super().save()], which the [unique=True] of
    [short_code] refuses for a code some row carries.  [created_at] is
    [auto_now_add].  [StillDrawing] is the loop of [generate_short_code]
    outliving the fuel. *)
Definition save (env : Env) (fuel : nat) (instance : URL.t) (db : DB)
    (g : Random.t) : Result :=
  let generated :=
    if negb (PyStr.truthy (URL.short_code instance))
    then URLMethods.generate_short_code fuel 6 db g
    else Some (URL.short_code instance, g) in
  match generated with
  | None => StillDrawing
  | Some (code, g') =>
      if ORM.code_exists db code then IntegrityError
      else
        let row :=
          URL.mk (next_id env db) (URL.original_url instance) code (now env)
                 (URL.expires_at instance) (URL.created_by instance)
                 (URL.is_active instance) (URL.password instance)
                 (URL.click_count instance) (URL.last_clicked instance) in
        Saved (mkDB (urls db ++ [row]) (clicks db)) row g'
  end.

End URLSave.

(** ** forms.py: [URLForm.clean] *)

Module URLFormClean.

(** [expiration_days = forms.IntegerField(required=False, min_value=1,
    max_value=365)], on the integer the input denotes ([None] for a
    field left blank).  The errors are Django's, of codes ['min_value']
    and ['max_value']. *)
Definition expiration_days_field (raw : option Z) : Cleaned (option Z) :=
  match raw with
  | None => Valid None
  | Some d =>
      if (d <? 1)%Z then ValidationError "min_value"
      else if (365 <? d)%Z then ValidationError "max_value"
      else Valid (Some d)
  end.

(** The keys [clean] sets in [cleaned_data]. *)
Record Data := mkData {
  short_code : string;
  expires_at : option Z;
  created_by : option N;
}.

(** [def clean(self)].  [custom_short_code] and [expiration_days] are
    [cleaned_data.get(...)] of those keys ([None] for a key that is
    missing or holds [None]); [user] is the key of [self.user] when
    there is one and it is authenticated. *)
Definition clean (env : Env) (user : option N)
    (custom_short_code : option string) (expiration_days : option Z)
    (fuel : nat) (db : DB) (g : Random.t) : option (Data * Random.t) :=
  let short_code :=
    match custom_short_code with
    | Some c =>
        if negb (PyStr.truthy c) then URLForm._generate_short_code fuel 6 db g
        else Some (c, g)
    | None => URLForm._generate_short_code fuel 6 db g
    end in
  let expires_at :=
    match expiration_days with
    | Some d => if (d =? 0)%Z then None else Some (now env + d * 86400)%Z
    | None => None
    end in
  match short_code with
  | None => None
  | Some (code, g') => Some (mkData code expires_at user, g')
  end.

End URLFormClean.

Module Sample2.

(** A table in which "abcdef" is taken, and a generator that draws the
    indices 0, 1, 2, ... in turn. *)
Definition db_abcdef : DB := mkDB [Sample.link 1 "https://x.test" "abcdef"] [].

Definition counting_generator : Random.t := Random.mk (fun i => i) 0.

End Sample2.

(** ** views.py: the management views *)

(** The rows of [accounts.models.UserActivity] the views create:
    [user], [activity_type] and the two entries of [details]. *)
Record UserActivity := mkActivity {
  activity_user : N;
  activity_type : string;
  details_url : string;
  details_short_code : string;
}.

(** The tables and the activity log. *)
Record Site := mkSite {
  tables : DB;
  activities : list UserActivity;
}.

(** What a management view reads of the request: [request.user] ([None]
    for an anonymous visitor) and [request.method]. *)
Record ManageRequest := mkManage {
  user : option N;
  method : string;
}.

Inductive ViewResult :=
| Page (template : string)            (* render(request, template, ...) *)
| RedirectTo (view_name : string)     (* redirect(view_name, ...) *)
| RedirectToLogin                     (* @login_required, anonymous *)
| NotFound                            (* Http404 of get_object_or_404 *)
| Forbidden                           (* PermissionDenied *)
| ServerError (exception : string)    (* an uncaught exception *)
| Png (text : string).                (* the QR image of [text] *)

Module Manage.

(** [url.delete()]: the row with the instance's key goes, and with it,
    by [on_delete=models.CASCADE], the clicks that point to it. *)
Definition delete (u : URL.t) (db : DB) : DB :=
  mkDB (List.filter (fun r => negb (N.eqb (URL.id r) (URL.id u))) (urls db))
       (List.filter (fun c => negb (N.eqb (Click.url c) (URL.id u))) (clicks db)).

(** The condition of [get_object_or_404(URL, pk=pk, created_by=request.user)]. *)
Definition owned_with_pk (uid pk : N) (u : URL.t) : bool :=
  N.eqb (URL.id u) pk && bool_decide (URL.created_by u = Some uid).

(** The condition of [get_object_or_404(URL, short_code=short_code,
    created_by=request.user)]. *)
Definition owned_with_code (uid : N) (code : string) (u : URL.t) : bool :=
  String.eqb (URL.short_code u) code && bool_decide (URL.created_by u = Some uid).

(** [@login_required def delete_short_url(request, pk)] *)
Definition delete_short_url (request : ManageRequest) (pk : N) (site : Site)
    : Site * ViewResult :=
  match user request with
  | None => (site, RedirectToLogin)
  | Some uid =>
      match ORM.get (owned_with_pk uid pk) (urls (tables site)) with
      | ORM.DoesNotExist => (site, NotFound)
      | ORM.MultipleObjectsReturned => (site, ServerError "MultipleObjectsReturned")
      | ORM.Found url =>
          if String.eqb (method request) "POST" then
            let activity :=
              mkActivity uid "url_deleted" (URL.original_url url)
                         (URL.short_code url) in
            (mkSite (delete url (tables site)) (activities site ++ [activity]),
             RedirectTo "shortener:dashboard")
          else (site, Page "shortener/url_confirm_delete.html")
      end
  end.

(** The data [EditURLForm] reads of [request.POST]: the title ([''] when
    the key is missing) and whether the [is_active] box is ticked. *)
Record EditPost := mkEditPost {
  post_title : string;
  post_is_active : bool;
}.

(** [EditURLForm.is_valid()]: [title] is the model's
    [CharField(max_length=200, blank=True)], stripped before its
    validators run: the length, and the null character every
    [CharField] refuses; a check box is always valid. *)
Definition edit_form_is_valid (post : EditPost) : bool :=
  (String.length (PyStr.strip (post_title post)) <=? 200)%nat
  && negb (PyStr.has_null (PyStr.strip (post_title post))).

(** [@login_required def edit_short_url(request, pk)].  [form.save()]
    writes the two fields of the form; of these the tables here hold
    [is_active] (the [title] column is not represented). *)
Definition edit_short_url (request : ManageRequest) (post : EditPost) (pk : N)
    (site : Site) : Site * ViewResult :=
  match user request with
  | None => (site, RedirectToLogin)
  | Some uid =>
      match ORM.get (owned_with_pk uid pk) (urls (tables site)) with
      | ORM.DoesNotExist => (site, NotFound)
      | ORM.MultipleObjectsReturned => (site, ServerError "MultipleObjectsReturned")
      | ORM.Found url =>
          if String.eqb (method request) "POST" && edit_form_is_valid post then
            let url := URL.set_is_active (post_is_active post) url in
            let activity :=
              mkActivity uid "url_updated" (URL.original_url url)
                         (URL.short_code url) in
            (mkSite (ORM.save url (tables site)) (activities site ++ [activity]),
             RedirectTo "shortener:url_analytics")
          else (site, Page "shortener/url_edit.html")
      end
  end.

(** The first lines of [url_analytics], [url_clicks] and
    [export_clicks]: [@login_required], then
    [url = get_object_or_404(URL, short_code=short_code,
    created_by=request.user)].  The answer that ends the view, or the
    link the view goes on with. *)
Definition owner_gate (request : ManageRequest) (short_code : string) (db : DB)
    : ViewResult + URL.t :=
  match user request with
  | None => inl RedirectToLogin
  | Some uid =>
      match ORM.get (owned_with_code uid short_code) (urls db) with
      | ORM.DoesNotExist => inl NotFound
      | ORM.MultipleObjectsReturned => inl (ServerError "MultipleObjectsReturned")
      | ORM.Found url => inr url
      end
  end.

(** [URL.get_absolute_url]: [f"{settings.BASE_URL}/{self.short_code}"] *)
Definition get_absolute_url (base_url : string) (u : URL.t) : string :=
  base_url +:+ "/" +:+ URL.short_code u.

(** [def generate_qr_code_view(request, short_code)]: the lookup by code
    alone, then the test
    [not request.user.is_authenticated or url.created_by != request.user]. *)
Definition generate_qr_code_view (base_url : string) (request : ManageRequest)
    (short_code : string) (db : DB) : ViewResult :=
  match ORM.get (fun u => String.eqb (URL.short_code u) short_code) (urls db) with
  | ORM.DoesNotExist => NotFound
  | ORM.MultipleObjectsReturned => ServerError "MultipleObjectsReturned"
  | ORM.Found url =>
      match user request with
      | None => Forbidden
      | Some uid =>
          if bool_decide (URL.created_by url <> Some uid) then Forbidden
          else Png (get_absolute_url base_url url)
      end
  end.

End Manage.

(** ** api/views.py: deleting through the API *)

Module Api.

(** Attribute lookup [instance.log_activity]: [URL] defines no such
    method, the lookup raises AttributeError, rendered as [None]. *)
Definition getattr_log_activity (u : URL.t) : option (string -> unit) := None.

(** [URLDetailView.perform_destroy(self, instance)]:
    [instance.log_activity('deleted', self.request)], then
    [instance.delete()]. *)
Definition perform_destroy (instance : URL.t) (db : DB) : DB * option string :=
  match getattr_log_activity instance with
  | None => (db, Some "AttributeError")
  | Some log_activity =>
      let _ := log_activity "deleted" in
      (Manage.delete instance db, None)
  end.

(** DELETE on [URLDetailView]: [permission_classes = [IsAuthenticated]],
    [get_object()] on [URL.objects.filter(created_by=self.request.user)]
    by [short_code], then [perform_destroy]; 204 when it returns. *)
Definition destroy (request : ManageRequest) (short_code : string) (db : DB)
    : DB * ViewResult :=
  match user request with
  | None => (db, Forbidden)
  | Some uid =>
      match ORM.get (Manage.owned_with_code uid short_code) (urls db) with
      | ORM.DoesNotExist => (db, NotFound)
      | ORM.MultipleObjectsReturned => (db, ServerError "MultipleObjectsReturned")
      | ORM.Found instance =>
          match perform_destroy instance db with
          | (db', Some exception) => (db', ServerError exception)
          | (db', None) => (db', Page "204")
          end
      end
  end.

End Api.

(** ** Ordered querysets *)

(** [.order_by('-<key>')]: the rows by descending key.  The database is
    free in the order of rows with equal keys. *)
Definition ordered_desc {A : Type} (key : A -> Z) (rows ordered : list A) : Prop :=
  rows ≡ₚ ordered /\ StronglySorted (fun a b => (key b <= key a)%Z) ordered.

(** ** models.py: the class methods of [URL] *)

Module URLQueries.

(** [URL.get_top_urls(limit)]:
    [cls.objects.filter(is_active=True).order_by('-click_count')[:limit]] *)
Definition get_top_urls (limit : nat) (db : DB) (result : list URL.t) : Prop :=
  exists ordered,
    ordered_desc (fun u => Z.of_N (URL.click_count u))
                 (List.filter URL.is_active (urls db)) ordered
    /\ result = take limit ordered.

(** [datetime.min] and [datetime.max], the first second of year 1 and
    the last of year 9999, in seconds from the epoch. *)
Definition datetime_min : Z := -62135596800.
Definition datetime_max : Z := 253402300799.

(** [timedelta(days=days)], in seconds: OverflowError ([None]) for more
    than 999999999 days either way. *)
Definition timedelta_days (days : Z) : option Z :=
  if (Z.abs days <=? 999999999)%Z then Some (days * 86400)%Z else None.

(** [timezone.now() - timedelta(days=days)]: OverflowError ([None]) when
    the difference is no [datetime]. *)
Definition cutoff_date (env : Env) (days : Z) : option Z :=
  match timedelta_days days with
  | None => None
  | Some delta =>
      let cutoff := (now env - delta)%Z in
      if (datetime_min <=? cutoff)%Z && (cutoff <=? datetime_max)%Z
      then Some cutoff
      else None
  end.

(** [URL.get_recent_urls(days)], for a whole number of days:
    [cls.objects.filter(created_at__gte=cutoff_date, is_active=True)]
    with [cutoff_date = timezone.now() - timedelta(days=days)], in the
    order of [Meta.ordering = ['-created_at']].  The result is [None]
    when the method raises OverflowError. *)
Definition get_recent_urls (env : Env) (days : Z) (db : DB)
    (result : option (list URL.t)) : Prop :=
  match cutoff_date env days with
  | None => result = None
  | Some cutoff =>
      exists rows,
        result = Some rows
        /\ ordered_desc URL.created_at
             (List.filter (fun u => (cutoff <=? URL.created_at u)%Z
                                    && URL.is_active u) (urls db))
             rows
  end.

End URLQueries.

(** ** views.py: the dashboard *)

Module Dashboard.

(** [URL.objects.filter(created_by=user)] *)
Definition user_urls (uid : N) (db : DB) : list URL.t :=
  List.filter (fun u => bool_decide (URL.created_by u = Some uid)) (urls db).

(** [Click.objects.filter(url__in=urls)] *)
Definition clicks_on (us : list URL.t) (db : DB) : list Click.t :=
  List.filter (fun c => existsb (fun u => N.eqb (Click.url c) (URL.id u)) us)
              (clicks db).

(** [sum(url.click_count for url in urls)] *)
Definition sum_click_count (us : list URL.t) : N :=
  fold_right (fun u acc => (URL.click_count u + acc)%N) 0%N us.

(** The entries of the template context. *)
Record Context := mkContext {
  urls_shown : list URL.t;         (* urls[:5] *)
  recent_clicks : list Click.t;    (* ...order_by('-clicked_at')[:10] *)
  total_urls : nat;
  total_clicks : N;
}.

(** [@login_required def dashboard(request)]: the answers the view can
    give, with the context of the page. *)
Definition dashboard (request : ManageRequest) (db : DB)
    (result : ViewResult) (context : option Context) : Prop :=
  match user request with
  | None => result = RedirectToLogin /\ context = None
  | Some uid =>
      exists us cs,
        ordered_desc URL.created_at (user_urls uid db) us
        /\ ordered_desc Click.clicked_at (clicks_on us db) cs
        /\ result = Page "shortener/dashboard.html"
        /\ context = Some (mkContext (take 5 us) (take 10 cs) (length us)
                                     (sum_click_count us))
  end.

End Dashboard.

(** ** serializers.py: the short-code validator *)

Module Serializers.

(** [value.isalnum()]: the string is not empty and every character is
    alphanumeric. *)
Definition str_isalnum (s : string) : bool :=
  PyStr.truthy s && PyStr.all PyStr.isalnum s.

(** [c in ('-', '_')] *)
Definition dash_char (c : ascii) : bool :=
  Ascii.eqb c "-"%char || Ascii.eqb c "_"%char.

(** [URLSerializer.validate_short_code(self, value)]:
    [if value and not value.isalnum() and not all(c in ('-', '_') for c
    in value): raise serializers.ValidationError(...)]; [return value] *)
Definition validate_short_code (value : string) : Cleaned string :=
  if PyStr.truthy value && negb (str_isalnum value)
     && negb (PyStr.all dash_char value)
  then ValidationError
         "Short code can only contain letters, numbers, hyphens, and underscores."
  else Valid value.

End Serializers.

(** ** utils.py: the hashed short code *)

Module HashedCode.

(** [s[:n]]: the first [n] characters for [n] not negative, all but the
    last [-n] for a negative [n]. *)
Definition slice_to (n : Z) (s : string) : string :=
  if (0 <=? n)%Z then String.substring 0 (Z.to_nat n) s
  else String.substring 0 (String.length s - Z.to_nat (- n)) s.

(** [def generate_short_code(url, length=6)].  [md5_hexdigest] is
    [hashlib.md5(...).hexdigest()] on the UTF-8 bytes of its argument,
    and [stamp] the text of [timezone.now().timestamp()]. *)
Definition generate_short_code (md5_hexdigest : string -> string)
    (stamp : string) (url : string) (length : Z) : string :=
  let hash_input := url +:+ stamp in
  let hash_digest := md5_hexdigest hash_input in
  slice_to length hash_digest.

End HashedCode.


(** ** views.py: the list of a user's links *)

Module UrlList.

Section Search.

(** The three [icontains] tests of the search, on [original_url],
    [short_code] and [description]; how letters are folded is the
    database's matter. *)
Variable search : string -> URL.t -> bool.

(** The queryset [urls] after the filters of the request. *)
Definition filtered (uid : N) (search_query status_filter : string)
    (db : DB) : list URL.t :=
  let urls := Dashboard.user_urls uid db in
  let urls :=
    if PyStr.truthy search_query then List.filter (search search_query) urls
    else urls in
  if String.eqb status_filter "active" then List.filter URL.is_active urls
  else if String.eqb status_filter "inactive"
       then List.filter (fun u => negb (URL.is_active u)) urls
  else urls.

(** The counters of the context. *)
Record Counters := mkCounters {
  total_urls : nat;     (* urls.count() *)
  active_urls : nat;    (* urls.filter(is_active=True).count() *)
}.

(** [def url_list(request)], with [q] and [status] of [request.GET]
    ([''] when absent): the answer and the two counters. *)
Definition url_list (request : ManageRequest) (q status : string) (db : DB)
    : ViewResult * option Counters :=
  match user request with
  | None => (RedirectTo "account_login", None)
  | Some uid =>
      let urls := filtered uid q status db in
      (Page "shortener/url_list.html",
       Some (mkCounters (length urls)
                        (length (List.filter URL.is_active urls))))
  end.

End Search.

End UrlList.

(** ** accounts/models.py *)

(** Python values as keyword arguments carry them. *)
Inductive PyVal :=
| PyNone
| PyBool (b : bool)
| PyInt (z : Z)
| PyText (s : string).

Module UserManager.

(** [d.setdefault(k, v)] *)
Definition setdefault (k : string) (v : PyVal) (d : gmap string PyVal)
    : gmap string PyVal :=
  match d !! k with
  | Some _ => d
  | None => <[k := v]> d
  end.

(** [d.get(k) is not True] *)
Definition is_not_True (v : option PyVal) : bool :=
  match v with
  | Some (PyBool true) => false
  | _ => true
  end.

(** [if not email], for an address that is a string or [None]. *)
Definition falsy (email : option string) : bool :=
  match email with
  | Some s => negb (PyStr.truthy s)
  | None => true
  end.

(** What a call of the manager comes to: a [ValueError], or the model
    built from an address and the keyword arguments, given the password
    and saved. *)
Inductive Created :=
| ValueError (message : string)
| NewUser (email : string) (password : option string)
          (fields : gmap string PyVal).

Section Manager.

(** [BaseUserManager.normalize_email] *)
Variable normalize_email : string -> string.

(** [def create_user(self, email, password=None, **extra_fields)] *)
Definition create_user (email : option string) (password : option string)
    (extra_fields : gmap string PyVal) : Created :=
  if falsy email then ValueError "The Email must be set"
  else NewUser (normalize_email (default "" email)) password extra_fields.

(** [def create_superuser(self, email, password=None, **extra_fields)] *)
Definition create_superuser (email : option string) (password : option string)
    (extra_fields : gmap string PyVal) : Created :=
  let extra_fields := setdefault "is_staff" (PyBool true) extra_fields in
  let extra_fields := setdefault "is_superuser" (PyBool true) extra_fields in
  let extra_fields := setdefault "is_active" (PyBool true) extra_fields in
  if is_not_True (extra_fields !! "is_staff")
  then ValueError "Superuser must have is_staff=True."
  else if is_not_True (extra_fields !! "is_superuser")
  then ValueError "Superuser must have is_superuser=True."
  else create_user email password extra_fields.

End Manager.

End UserManager.

(** [class User(AbstractUser)]: the columns the modelled code reads or
    writes. *)
Module User.

Record t := mk {
  id : N;
  email : string;
  first_name : string;
  last_name : string;
  is_active : bool;
  email_verification_key : option string;   (* null=True, blank=True *)
}.

Definition set_is_active (b : bool) (u : t) : t :=
  mk (id u) (email u) (first_name u) (last_name u) b
     (email_verification_key u).

Definition set_email_verification_key (k : option string) (u : t) : t :=
  mk (id u) (email u) (first_name u) (last_name u) (is_active u) k.

(** [full_name]: [f"{self.first_name} {self.last_name}".strip()] *)
Definition full_name (u : t) : string :=
  PyStr.strip (first_name u +:+ " " +:+ last_name u).

(** Truthiness of a nullable text column. *)
Definition key_set (k : option string) : bool :=
  match k with
  | Some s => PyStr.truthy s
  | None => false
  end.

(** [email_confirmed]:
    [self.is_active and not self.email_verification_key] *)
Definition email_confirmed (u : t) : bool :=
  is_active u && negb (key_set (email_verification_key u)).

(** [user.save()]: the row with the instance's key is overwritten, or
    the instance added when the table has no such row. *)
Definition save (u : t) (users : list t) : list t :=
  if existsb (fun r => N.eqb (id r) (id u)) users
  then map (fun r => if N.eqb (id r) (id u) then u else r) users
  else users ++ [u].

End User.

(** ** accounts/views.py: the verification of the address *)

Module Accounts.

Inductive Response :=
| Redirect (view_name : string)
| Render (template : string)
| NotAllowed                         (* 405 of require_http_methods *)
| Uncaught (exception : string).

(** What a view does besides changing the table: its response, the user
    [login] signs in, the flash message, and the key mailed to an
    address. *)
Record Answer := mkAnswer {
  response : Response;
  logged_in : option N;
  message : string;
  mailed : option (string * string);
}.

(** The condition of
    [User.objects.get(email_verification_key=key, is_active=False)]. *)
Definition awaits (key : string) (u : User.t) : bool :=
  bool_decide (User.email_verification_key u = Some key)
  && negb (User.is_active u).

(** [def verify_email(request, key)].  Only [User.DoesNotExist] and
    [ValueError] are caught. *)
Definition verify_email (key : string) (users : list User.t)
    : Answer * list User.t :=
  match List.filter (awaits key) users with
  | [] =>
      (mkAnswer (Redirect "home") None
         "The verification link is invalid or has expired." None,
       users)
  | [user] =>
      let user := User.set_is_active true user in
      let user := User.set_email_verification_key (Some "") user in
      (mkAnswer (Redirect "shortener:dashboard") (Some (User.id user))
         "Your email has been verified successfully! You are now logged in."
         None,
       User.save user users)
  | _ =>
      (mkAnswer (Uncaught "MultipleObjectsReturned") None "" None, users)
  end.

(** The names the module accounts/views.py binds from [django.urls]:
    its one import is [from django.urls import reverse_lazy]. *)
Definition names_from_django_urls : list string := ["reverse_lazy"].

(** The routes without an argument, by the names [reverse] knows them:
    [home] of urlshortener/urls.py, and the routes of accounts/urls.py,
    shortener/urls.py and shortener/api/urls.py under the namespaces of
    these files.  The login route is [accounts:login].  The routes of
    [allauth.urls], included beside them, are not listed: their names
    begin with [account_] and the views here redirect to none. *)
Definition url_names : list string :=
  [ "home";
    "accounts:profile"; "accounts:register"; "accounts:login";
    "accounts:logout"; "accounts:password_reset";
    "accounts:password_reset_done"; "accounts:password_reset_complete";
    "accounts:verify_email_required"; "accounts:resend_verification_email";
    "accounts:account_settings"; "accounts:email_settings";
    "accounts:notification_settings"; "accounts:security_settings";
    "accounts:api_tokens"; "accounts:create_api_token";
    "shortener:dashboard"; "shortener:create_short_url";
    "shortener:url_list"; "shortener:api_url_list_create";
    "shortener_api:url-list-create" ].

(** [redirect(view_name)]: the response, or the NoReverseMatch of
    [reverse] for a name without a route. *)
Definition redirect_to (view_name : string) : Response :=
  if existsb (String.eqb view_name) url_names then Redirect view_name
  else Uncaught "NoReverseMatch".

(** [@require_http_methods(["POST"]) def resend_verification_email(request)].
    [user] is [request.user] when signed in, and [verification_key] what
    [get_random_string(32)] returns.  The key is saved before the view
    evaluates [reverse('accounts:verify_email', ...)]; [reverse] is no
    name of the module, so that raises NameError, and the lines after
    it, the mail and the redirect, are not reached. *)
Definition resend_verification_email (user : option User.t) (method : string)
    (verification_key : string) (users : list User.t)
    : Answer * list User.t :=
  if negb (String.eqb method "POST")
  then (mkAnswer NotAllowed None "" None, users)
  else
    match user with
    | None => (mkAnswer (redirect_to "login") None "" None, users)
    | Some u =>
        if User.email_confirmed u
        then (mkAnswer (redirect_to "shortener:dashboard") None
                "Your email is already verified." None,
              users)
        else
          let u := User.set_email_verification_key (Some verification_key) u in
          let users := User.save u users in
          if existsb (String.eqb "reverse") names_from_django_urls
          then (mkAnswer (redirect_to "accounts:verify_email_required") None
                  "A new verification email has been sent to your email address."
                  (Some (User.email u, verification_key)),
                users)
          else (mkAnswer (Uncaught "NameError") None "" None, users)
    end.

End Accounts.

Module Sample3.

Definition md5_stand_in (_ : string) : string :=
  "0123456789abcdef0123456789abcdef".

Definition ann : User.t :=
  User.mk 1 "ann@example.org" "Ann" "Lee" true (Some "oldkey").

Definition bob : User.t :=
  User.mk 2 "bob@example.org" " Bob" "" false (Some "bobkey").

Definition users0 : list User.t := [ann; bob].

End Sample3.
(* ------------------------------------------------------------------ *)
(** * Properties *)

Section PyStrFacts.

Example contains_ex : PyStr.contains "ipad" "mozilla (ipad; cpu os)" = true.
Proof. reflexivity. Qed.

Example strip_ex : PyStr.strip "  ab c " = "ab c".
Proof. reflexivity. Qed.

Example str_of_N_ex : PyStr.str_of_N 42 = "42".
Proof. reflexivity. Qed.

Lemma truthy_false s : PyStr.truthy s = false <-> s = "".
Proof. destruct s; simpl; split; congruence. Qed.

Lemma contains_char_cons (a c : ascii) (h : string) :
  PyStr.contains (String a "") (String c h)
  = (if ascii_dec a c then true else false) || PyStr.contains (String a "") h.
Proof.
  cbn [PyStr.contains String.prefix].
  destruct (ascii_dec a c); [|reflexivity]. now destruct h.
Qed.

(** A string in which every character passes a test has none that
    fails it. *)
Lemma all_excludes (p : ascii -> bool) (a : ascii) (s : string) :
  p a = false -> PyStr.all p s = true -> PyStr.contains (String a "") s = false.
Proof.
  intros Ha. induction s as [|c s IH]; [reflexivity|].
  cbn [PyStr.all]. intros H. apply andb_prop in H as [Hc Hs].
  rewrite contains_char_cons, (IH Hs).
  destruct (ascii_dec a c) as [->|_]; [congruence|reflexivity].
Qed.

End PyStrFacts.

Section StripFacts.

Lemma lstrip_head s :
  PyStr.lstrip s = "" \/ exists c t, PyStr.lstrip s = String c t
                                    /\ PyStr.isspace c = false.
Proof.
  induction s as [|c s IH]; [now left|]. cbn [PyStr.lstrip].
  destruct (PyStr.isspace c) eqn:E; [exact IH|]. right. now exists c, s.
Qed.

Lemma rstrip_cons c s :
  PyStr.rstrip (String c s)
  = match PyStr.rstrip s with
    | EmptyString => if PyStr.isspace c then EmptyString else String c EmptyString
    | r => String c r
    end.
Proof. reflexivity. Qed.

Lemma rstrip_rstrip s : PyStr.rstrip (PyStr.rstrip s) = PyStr.rstrip s.
Proof.
  induction s as [|c s IH]; [reflexivity|]. rewrite rstrip_cons.
  destruct (PyStr.rstrip s) as [|d r] eqn:E.
  - destruct (PyStr.isspace c) eqn:Ec; [reflexivity|].
    rewrite rstrip_cons. cbn [PyStr.rstrip]. now rewrite Ec.
  - rewrite rstrip_cons, IH. reflexivity.
Qed.

Lemma rstrip_head c s :
  PyStr.isspace c = false ->
  exists r, PyStr.rstrip (String c s) = String c r.
Proof.
  intros E. rewrite rstrip_cons. destruct (PyStr.rstrip s) as [|d r].
  - rewrite E. now exists "".
  - now exists (String d r).
Qed.

Lemma lstrip_strip s : PyStr.lstrip (PyStr.strip s) = PyStr.strip s.
Proof.
  unfold PyStr.strip. destruct (lstrip_head s) as [->|(c & t & -> & E)];
    [reflexivity|].
  destruct (rstrip_head c t E) as [r ->]. cbn [PyStr.lstrip]. now rewrite E.
Qed.

Lemma strip_strip s : PyStr.strip (PyStr.strip s) = PyStr.strip s.
Proof.
  unfold PyStr.strip at 1. rewrite lstrip_strip. unfold PyStr.strip.
  apply rstrip_rstrip.
Qed.

Lemma rstrip_app_space s : PyStr.rstrip (s +:+ " ") = PyStr.rstrip s.
Proof.
  induction s as [|c s IH]; [reflexivity|].
  change (String c s +:+ " ") with (String c (s +:+ " ")).
  now rewrite !rstrip_cons, IH.
Qed.

Lemma lstrip_app_space s :
  PyStr.lstrip (s +:+ " ")
  = match PyStr.lstrip s with
    | EmptyString => EmptyString
    | t => t +:+ " "
    end.
Proof.
  induction s as [|c s IH]; [reflexivity|].
  change (String c s +:+ " ") with (String c (s +:+ " ")).
  cbn [PyStr.lstrip]. destruct (PyStr.isspace c); [exact IH|reflexivity].
Qed.

Lemma rstrip_app s t :
  PyStr.rstrip t <> "" -> PyStr.rstrip (s +:+ t) = s +:+ PyStr.rstrip t.
Proof.
  intros Ht. induction s as [|c s IH]; [reflexivity|].
  change (String c s +:+ t) with (String c (s +:+ t)).
  rewrite rstrip_cons, IH.
  change (String c s +:+ PyStr.rstrip t) with (String c (s +:+ PyStr.rstrip t)).
  destruct (s +:+ PyStr.rstrip t) as [|d r] eqn:E; [|reflexivity].
  destruct s; [|discriminate]. now destruct Ht.
Qed.

End StripFacts.

(** ** The object manager *)

Section ORMFacts.

Context {A : Type} (cond : A -> bool).

Lemma get_DoesNotExist rows :
  ORM.get cond rows = ORM.DoesNotExist <-> (forall a, In a rows -> cond a = false).
Proof.
  unfold ORM.get. split.
  - intros H a Ha. destruct (cond a) eqn:E; [|reflexivity].
    assert (Hin : In a (List.filter cond rows)) by (apply filter_In; auto).
    destruct (List.filter cond rows) as [|x [|y l]]; [destruct Hin | discriminate ..].
  - intros H.
    assert (E : List.filter cond rows = []).
    { induction rows as [|x l IH]; [reflexivity|]. simpl.
      rewrite (H x) by (left; reflexivity). apply IH.
      intros a Ha. apply H. right. exact Ha. }
    now rewrite E.
Qed.

Lemma get_Found rows a :
  ORM.get cond rows = ORM.Found a -> In a rows /\ cond a = true.
Proof.
  unfold ORM.get. intros H.
  destruct (List.filter cond rows) as [|x [|y l]] eqn:E; try discriminate.
  injection H as ->. apply filter_In. rewrite E. left. reflexivity.
Qed.

End ORMFacts.

(** ** The redirect view *)

Section Resolver.

Variables (env : Env) (request : HttpRequest) (short_code : string) (db : DB).

Let get_url := ORM.get (active_with_code short_code) (urls db).

(** The view's test and the model's method agree. *)
Lemma expires_at_passed_is_expired u :
  expires_at_passed env u = URL.is_expired (now env) u.
Proof.
  unfold expires_at_passed, URL.is_expired.
  destruct (URL.expires_at u); [|reflexivity]. symmetry. apply Z.gtb_ltb.
Qed.

Lemma redirect_not_found :
  get_url = ORM.DoesNotExist ->
  redirect_short_url env request short_code db
  = (db, Raise (Http404 "Short URL not found")).
Proof. unfold redirect_short_url, get_url. now intros ->. Qed.

Lemma redirect_expired u :
  get_url = ORM.Found u -> URL.is_expired (now env) u = true ->
  redirect_short_url env request short_code db
  = (db, Return (render "shortener/url_expired.html" u 410)).
Proof.
  unfold redirect_short_url, get_url. intros -> He.
  now rewrite expires_at_passed_is_expired, He.
Qed.

Lemma redirect_password_required u :
  get_url = ORM.Found u -> URL.is_expired (now env) u = false ->
  PyStr.truthy (URL.password u) = true ->
  session_authenticated request u = false ->
  redirect_short_url env request short_code db
  = (db, Raise (NoReverseMatch "shortener:url_password")).
Proof.
  unfold redirect_short_url, get_url. intros Hg He Hp Hs.
  rewrite Hg, expires_at_passed_is_expired, He, Hp, Hs. reflexivity.
Qed.

Lemma redirect_resolvable u :
  get_url = ORM.Found u -> URL.is_expired (now env) u = false ->
  PyStr.truthy (URL.password u) && negb (session_authenticated request u) = false ->
  redirect_short_url env request short_code db
  = (recorded env request db u, Raise (AttributeError "is_one_time")).
Proof.
  unfold redirect_short_url, get_url. intros Hg He Hp.
  rewrite Hg, expires_at_passed_is_expired, He, Hp. unfold recorded.
  now destruct (ClickRecorder.create_from_request env u request db).
Qed.


End Resolver.

Section ResolverOutcomes.

Variables (env : Env) (request : HttpRequest) (short_code : string) (db : DB).

Lemma no_active_link_iff :
  ORM.get (active_with_code short_code) (urls db) = ORM.DoesNotExist
  <-> (forall u, In u (urls db) -> URL.short_code u = short_code ->
                 URL.is_active u = false).
Proof.
  rewrite get_DoesNotExist. unfold active_with_code.
  split; intros H u Hu.
  - intros Hc. specialize (H u Hu). apply String.eqb_eq in Hc.
    rewrite Hc in H. exact H.
  - destruct (String.eqb_spec (URL.short_code u) short_code) as [Hc|Hc].
    + simpl. now apply H.
    + reflexivity.
Qed.

(** The five ways the view ends, read off its branches. *)
Lemma redirect_cases :
  let r := redirect_short_url env request short_code db in
  (ORM.get (active_with_code short_code) (urls db) = ORM.DoesNotExist
     /\ r = (db, Raise (Http404 "Short URL not found")))
  \/ (ORM.get (active_with_code short_code) (urls db) = ORM.MultipleObjectsReturned
     /\ r = (db, Raise MultipleObjectsReturned))
  \/ (exists u, ORM.get (active_with_code short_code) (urls db) = ORM.Found u
     /\ URL.is_expired (now env) u = true
     /\ r = (db, Return (render "shortener/url_expired.html" u 410)))
  \/ (exists u, ORM.get (active_with_code short_code) (urls db) = ORM.Found u
     /\ URL.is_expired (now env) u = false
     /\ PyStr.truthy (URL.password u) = true
     /\ session_authenticated request u = false
     /\ r = (db, Raise (NoReverseMatch "shortener:url_password")))
  \/ (exists u, ORM.get (active_with_code short_code) (urls db) = ORM.Found u
     /\ URL.is_expired (now env) u = false
     /\ PyStr.truthy (URL.password u) && negb (session_authenticated request u) = false
     /\ r = (recorded env request db u, Raise (AttributeError "is_one_time"))).
Proof.
  intros r. subst r.
  destruct (ORM.get (active_with_code short_code) (urls db)) as [u| |] eqn:Hg.
  - destruct (URL.is_expired (now env) u) eqn:He.
    + do 2 right. left. exists u. repeat split; trivial.
      now apply redirect_expired.
    + destruct (PyStr.truthy (URL.password u)) eqn:Hp;
        destruct (session_authenticated request u) eqn:Hs.
      * do 4 right. exists u.
        assert (Hgate : PyStr.truthy (URL.password u)
                        && negb (session_authenticated request u) = false)
          by now rewrite Hp, Hs.
        repeat split; trivial. now apply redirect_resolvable.
      * do 3 right. left. exists u. repeat split; trivial.
        now apply redirect_password_required with u.
      * do 4 right. exists u.
        assert (Hgate : PyStr.truthy (URL.password u)
                        && negb (session_authenticated request u) = false)
          by now rewrite Hp.
        repeat split; trivial. now apply redirect_resolvable.
      * do 4 right. exists u.
        assert (Hgate : PyStr.truthy (URL.password u)
                        && negb (session_authenticated request u) = false)
          by now rewrite Hp.
        repeat split; trivial. now apply redirect_resolvable.
  - left. split; trivial. now apply redirect_not_found.
  - right. left. split; trivial. unfold redirect_short_url. now rewrite Hg.
Qed.

(** The view never writes [is_active]: after any request every link is
    as active as it was before. *)
Lemma redirect_never_deactivates :
  map URL.is_active (urls (redirect_short_url env request short_code db).1)
  = map URL.is_active (urls db).
Proof.
  destruct redirect_cases
    as [[Hg ->]|[[Hg ->]|[(u & Hg & He & ->)|[(u & Hg & He & Hp & Hs & ->)
       |(u & Hg & He & Hp & ->)]]]]; try reflexivity.
  unfold recorded. simpl.
  destruct (ClickRecorder.create_from_request env u request db) as [db1 c] eqn:E.
  assert (Hu : urls db1 = urls db).
  { unfold ClickRecorder.create_from_request in E.
    destruct (geoip_city env _) as [[? ?]|]; injection E as <- _; reflexivity. }
  simpl. rewrite Hu, map_map. apply map_ext. intros r.
  now destruct (N.eqb (URL.id r) (URL.id u)).
Qed.

End ResolverOutcomes.

(** *** C1 *)

(** C1 (code defect).  Scenario A on the code, for any target and any
    code: the table holds the fresh link (active, no expiry, no
    password, never clicked) and the link is requested once.  The view
    stores the click and raises the counter to 1, and then fails on the
    lookup of [url.is_one_time]: the outcome is the uncaught
    AttributeError (status 500), not the 301 redirect to the target. *)
Theorem fresh_link_click_recorded_without_redirect env request target code :
  let r := redirect_short_url env request code
             (mkDB [Sample.link 1 target code] []) in
  map URL.click_count (urls r.1) = [1%N]
  /\ map URL.last_clicked (urls r.1) = [Some (now env)]
  /\ map Click.url (clicks r.1) = [1%N]
  /\ r.2 = Raise (AttributeError "is_one_time")
  /\ status_code r.2 = 500%N
  /\ r.2 <> Return (HttpResponsePermanentRedirect target).
Proof.
  intros r. subst r.
  set (db := mkDB [Sample.link 1 target code] []).
  assert (Hg : ORM.get (active_with_code code) (urls db)
               = ORM.Found (Sample.link 1 target code)).
  { unfold ORM.get, active_with_code. simpl. now rewrite String.eqb_refl. }
  rewrite (redirect_resolvable env request code db _ Hg eq_refl eq_refl).
  unfold recorded, ClickRecorder.create_from_request.
  destruct (geoip_city env _) as [[country city]|]; simpl;
    repeat split; discriminate.
Qed.

(** Scenario A itself: GET /abc123 at time 50. *)
Example scenario_A :
  redirect_short_url (Sample.env_at 50) Sample.browser_request "abc123" Sample.db0
  = (mkDB [URL.set_clicks 1 (Some 50%Z) Sample.example_link]
          [Click.mk 1 50 (Some "203.0.113.7") ""
                    "Mozilla/5.0 (X11; Linux x86_64)" "" "" "Desktop" "" ""],
     Raise (AttributeError "is_one_time")).
Proof. vm_compute. reflexivity. Qed.

(** *** C2 *)

(** C2 (code defect).  The fresh link of any target and code is
    requested twice in a row.  Both requests store a click and raise the
    counter, both end in the AttributeError, and the link is still
    active afterwards: the deactivation of lines 250-252 is never
    reached, whatever its creator ticked in the form. *)
Theorem one_time_link_is_never_consumed env1 env2 request1 request2 target code :
  let r1 := redirect_short_url env1 request1 code
              (mkDB [Sample.link 1 target code] []) in
  let r2 := redirect_short_url env2 request2 code r1.1 in
  r1.2 = Raise (AttributeError "is_one_time")
  /\ r2.2 = Raise (AttributeError "is_one_time")
  /\ map URL.is_active (urls r2.1) = [true]
  /\ map URL.click_count (urls r2.1) = [2%N]
  /\ length (clicks r2.1) = 2.
Proof.
  intros r1 r2. subst r2 r1.
  set (db := mkDB [Sample.link 1 target code] []).
  assert (Hg : ORM.get (active_with_code code) (urls db)
               = ORM.Found (Sample.link 1 target code)).
  { unfold ORM.get, active_with_code. simpl. now rewrite String.eqb_refl. }
  rewrite (redirect_resolvable env1 request1 code db _ Hg eq_refl eq_refl).
  simpl fst. simpl snd.
  set (db1 := recorded env1 request1 db (Sample.link 1 target code)).
  assert (Hg1 : ORM.get (active_with_code code) (urls db1)
                = ORM.Found (clicked env1 (Sample.link 1 target code))).
  { unfold db1, recorded, ClickRecorder.create_from_request.
    destruct (geoip_city env1 _) as [[? ?]|]; unfold ORM.get, active_with_code;
      simpl; now rewrite String.eqb_refl. }
  rewrite (redirect_resolvable env2 request2 code db1 _ Hg1 eq_refl eq_refl).
  unfold db1, recorded, ClickRecorder.create_from_request.
  destruct (geoip_city env1 _) as [[? ?]|];
    destruct (geoip_city env2 _) as [[? ?]|]; simpl; repeat split.
Qed.

(** *** C3 *)

(** C3 (counterexample).  A link with the requested code exists and is
    inactive; the view answers 404, not 410. *)
Lemma inactive_link_answers_404 :
  let o := (redirect_short_url (Sample.env_at 50) Sample.browser_request
                               "abc123" Sample.db_inactive).2 in
  ORM.code_exists Sample.db_inactive "abc123" = true
  /\ status_code o = 404%N
  /\ ~ (status_code o = 404%N <-> ORM.code_exists Sample.db_inactive "abc123" = false).
Proof.
  vm_compute. split; [reflexivity|]. split; [reflexivity|].
  intros [H _]. specialize (H eq_refl). discriminate.
Qed.

(** C3 (amended).  The view answers 404 exactly when no active link has
    the code (there is none at all, or each one is inactive), and 410
    exactly when the active link with the code has expired. *)
Theorem redirect_status_404_and_410 env request short_code db :
  let o := (redirect_short_url env request short_code db).2 in
  (status_code o = 404%N
   <-> forall u, In u (urls db) -> URL.short_code u = short_code ->
                 URL.is_active u = false)
  /\ (status_code o = 410%N
      <-> exists u, ORM.get (active_with_code short_code) (urls db) = ORM.Found u
                    /\ URL.is_expired (now env) u = true).
Proof.
  intros o. subst o. rewrite <- no_active_link_iff.
  destruct (redirect_cases env request short_code db)
    as [[Hg ->]|[[Hg ->]|[(u & Hg & He & ->)|[(u & Hg & He & Hp & Hs & ->)
       |(u & Hg & He & Hp & ->)]]]]; simpl; rewrite Hg.
  - split; split; try easy. intros (u & Hu & _). discriminate.
  - split; split; try easy. intros (u & Hu & _). discriminate.
  - split; split; try easy. intros _. now exists u.
  - split; split; try easy. intros (v & Hv & Hx). congruence.
  - split; split; try easy. intros (v & Hv & Hx). congruence.
Qed.

(** *** C4 *)

(** [is_expired] reads the expiry date and the clock only. *)
Lemma is_expired_ignores_is_active now_ b u :
  URL.is_expired now_ (URL.set_is_active b u) = URL.is_expired now_ u.
Proof. reflexivity. Qed.

(** C4 (counterexample).  The link expired at time 100 and is inactive;
    at time 200 the view raises Http404: the outcome is NotFound, not
    Expired. *)
Lemma expired_inactive_link_answers_404 :
  URL.is_expired 200 Sample.expired_inactive_link = true
  /\ URL.is_active Sample.expired_inactive_link = false
  /\ redirect_short_url (Sample.env_at 200) Sample.browser_request
                        "gone42" Sample.db_expired_inactive
     = (Sample.db_expired_inactive, Raise (Http404 "Short URL not found")).
Proof. vm_compute. repeat split. Qed.

(** C4 (amended).  When the link the lookup finds (the active link with
    the code) has an expiry date strictly in the past, the view answers
    with the 410 "expired" page and leaves both tables as they were. *)
Theorem expired_active_link_answers_410 env request short_code db u e :
  ORM.get (active_with_code short_code) (urls db) = ORM.Found u ->
  URL.expires_at u = Some e ->
  (e < now env)%Z ->
  redirect_short_url env request short_code db
  = (db, Return (render "shortener/url_expired.html" u 410)).
Proof.
  intros Hg He Hlt. apply redirect_expired; [exact Hg|].
  unfold URL.is_expired. rewrite He. apply Z.gtb_lt. lia.
Qed.

Lemma expired_active_link_answers_410_witness :
  redirect_short_url (Sample.env_at 200) Sample.browser_request "gone42"
                     Sample.db_expired
  = (Sample.db_expired,
     Return (render "shortener/url_expired.html" Sample.expired_link 410)).
Proof.
  apply (expired_active_link_answers_410 (Sample.env_at 200)
           Sample.browser_request "gone42" Sample.db_expired
           Sample.expired_link 100%Z).
  - reflexivity.
  - reflexivity.
  - simpl. lia.
Defined.

(** *** C7 *)

(** The password route has no entry in shortener/urls.py. *)
Lemma url_password_has_no_route code :
  redirect_to_shortener "url_password" code
  = Raise (NoReverseMatch "shortener:url_password").
Proof. reflexivity. Qed.

(** [clean_password] on the value the field hands to it: accepted
    exactly when it equals the stored [password], compared as stored. *)
Lemma clean_password_is_plain_equality (u : URL.t) (submitted : string) :
  (PasswordForm.clean_password (Some u) (Some submitted) = Valid (Some submitted)
   <-> submitted = URL.password u)
  /\ (PasswordForm.clean_password (Some u) (Some submitted)
      = ValidationError "Incorrect password. Please try again."
      <-> submitted <> URL.password u).
Proof.
  unfold PasswordForm.clean_password.
  destruct (decide (Some (URL.password u) ≠ Some submitted)) as [Hne|Heq].
  - rewrite bool_decide_eq_true_2 by exact Hne.
    split; split; try discriminate; try congruence.
  - rewrite bool_decide_eq_false_2 by exact Heq.
    apply dec_stable in Heq.
    split; split; try discriminate; try congruence.
Qed.

(** What the password form makes of a posted text, case by case. *)
Lemma cleaned_password_cases (u : URL.t) (raw : string) :
  let value := PyStr.strip raw in
  PasswordForm.cleaned_password (Some u) raw
  = if negb (PyStr.truthy value) then Rejected ["required"]
    else if PyStr.has_null value then Rejected ["null_characters_not_allowed"]
    else if bool_decide (value = URL.password u) then Accepted (Some value)
    else Rejected ["Incorrect password. Please try again."].
Proof.
  intros value. unfold PasswordForm.cleaned_password, PasswordForm.password_field.
  fold value. destruct (negb (PyStr.truthy value)); [reflexivity|].
  destruct (PyStr.has_null value); [reflexivity|].
  destruct (clean_password_is_plain_equality u value) as [Hv Hr].
  destruct (decide (value = URL.password u)) as [E|E].
  - rewrite bool_decide_eq_true_2 by exact E. now rewrite (proj2 Hv E).
  - rewrite bool_decide_eq_false_2 by exact E. now rewrite (proj2 Hr E).
Qed.




(** *** C10 *)

(** C10 (counterexample).  The stored password is "hunter2" and the
    text submitted is " hunter2 ", with a space before and after: two
    different strings, and the form accepts the submission. *)
Lemma padded_password_is_accepted :
  " hunter2 " <> URL.password Sample.secret_link
  /\ PasswordForm.cleaned_password (Some Sample.secret_link) " hunter2 "
     = Accepted (Some "hunter2").
Proof. split; [discriminate|reflexivity]. Qed.

(** C10 (amended).  On a form bound to a link, the submitted text is
    accepted exactly when, once the field has stripped the white space
    around it, it is not empty, holds no null character, and equals the
    stored [password] character for character; the cleaned value is then
    the stored password itself.  An empty text is refused as missing, a
    null character as such, and every other text as an incorrect
    password.  A stored password with white space at an end is matched
    by no submission, not even by itself.  The comparison is one of
    plain strings. *)
Theorem password_verification_after_strip (u : URL.t) (raw : string) :
  let value := PyStr.strip raw in
  let r := PasswordForm.cleaned_password (Some u) raw in
  (r = Accepted (Some value)
   <-> value <> "" /\ PyStr.has_null value = false /\ value = URL.password u)
  /\ (forall p, r = Accepted p -> p = Some value /\ value = URL.password u)
  /\ (value = "" -> r = Rejected ["required"])
  /\ (value <> "" -> PyStr.has_null value = true ->
      r = Rejected ["null_characters_not_allowed"])
  /\ (value <> "" -> PyStr.has_null value = false -> value <> URL.password u ->
      r = Rejected ["Incorrect password. Please try again."])
  /\ (PyStr.strip (URL.password u) <> URL.password u ->
      exists errors, r = Rejected errors).
Proof.
  intros value r. subst r. rewrite cleaned_password_cases. fold value.
  assert (Hstrip : PyStr.strip value = value) by apply strip_strip.
  clearbody value.
  assert (Hpadded : PyStr.strip (URL.password u) <> URL.password u ->
                    value <> URL.password u) by congruence.
  destruct (PyStr.truthy value) eqn:Ht; cbn [negb].
  2: { apply truthy_false in Ht. intuition (eauto; congruence). }
  assert (Hne : value <> "") by (intros E; rewrite E in Ht; discriminate).
  destruct (PyStr.has_null value) eqn:Hn; [intuition (eauto; congruence)|].
  destruct (decide (value = URL.password u)) as [E|E].
  - rewrite bool_decide_eq_true_2 by exact E. intuition (eauto; congruence).
  - rewrite bool_decide_eq_false_2 by exact E. intuition (eauto; congruence).
Qed.

(** ** Code generation *)

Section Generation.

Lemma choices_length population k g :
  String.length (Random.choices population k g).1 = k.
Proof.
  revert g. induction k as [|k IH]; intros g; simpl; [reflexivity|].
  specialize (IH (Random.mk (Random.draws g) (S (Random.pos g)))).
  destruct (Random.choices population k _) as [s g']. simpl in *. now rewrite IH.
Qed.

Lemma choices_pos population k g :
  Random.pos (Random.choices population k g).2 = Random.pos g + k
  /\ Random.draws (Random.choices population k g).2 = Random.draws g.
Proof.
  revert g. induction k as [|k IH]; intros g; simpl; [split; [lia|reflexivity]|].
  specialize (IH (Random.mk (Random.draws g) (S (Random.pos g)))).
  destruct (Random.choices population k _) as [s g']. simpl in *.
  destruct IH as [-> ->]. split; [lia|reflexivity].
Qed.

Lemma pick_chars_alnum i : PyStr.ascii_alnum (Random.pick chars i) = true.
Proof.
  unfold Random.pick.
  assert (Hlt : i mod String.length chars < 62).
  { apply Nat.mod_upper_bound. discriminate. }
  generalize dependent (i mod String.length chars). intros j Hj.
  do 62 (destruct j as [|j]; [reflexivity|]). lia.
Qed.

Lemma choices_alnum k g :
  PyStr.all PyStr.ascii_alnum (Random.choices chars k g).1 = true.
Proof.
  revert g. induction k as [|k IH]; intros g; simpl; [reflexivity|].
  specialize (IH (Random.mk (Random.draws g) (S (Random.pos g)))).
  destruct (Random.choices chars k _) as [s g']. simpl in *.
  now rewrite pick_chars_alnum, IH.
Qed.

Variable db : DB.

(** The existence test looks at the codes only, whatever the state of
    the links that carry them. *)
Lemma code_exists_iff code :
  ORM.code_exists db code = true
  <-> exists u, In u (urls db) /\ URL.short_code u = code.
Proof.
  unfold ORM.code_exists, ORM.exists_. rewrite existsb_exists.
  split; intros (u & Hu & Hc); exists u; split; trivial;
    now apply String.eqb_eq.
Qed.

Lemma code_exists_length code :
  ORM.code_exists db code = true -> String.length code <= max_code_length db.
Proof.
  rewrite code_exists_iff. intros (u & Hu & <-).
  unfold max_code_length. induction (urls db) as [|r rows IH]; [destruct Hu|].
  simpl. destruct Hu as [->|Hu]; [lia|]. specialize (IH Hu). lia.
Qed.

(** One batch of [n] draws at one length. *)
Lemma attempts_spec n len g :
  match URLForm.attempts n len db g with
  | (Some code, g') =>
      String.length code = len
      /\ ORM.code_exists db code = false
      /\ PyStr.all PyStr.ascii_alnum code = true
      /\ exists i, 1 <= i <= n /\ Random.pos g' = Random.pos g + i * len
  | (None, g') => Random.pos g' = Random.pos g + n * len
  end.
Proof.
  revert g. induction n as [|n IH]; intros g; simpl; [lia|].
  pose proof (choices_length chars len g) as Hl.
  pose proof (choices_pos chars len g) as [Hp _].
  pose proof (choices_alnum len g) as Ha.
  destruct (Random.choices chars len g) as [code g1]. simpl in *.
  destruct (ORM.code_exists db code) eqn:Hex; simpl.
  - specialize (IH g1). destruct (URLForm.attempts n len db g1) as [[c|] g2].
    + destruct IH as (H1 & H2 & H3 & i & Hi & Hpos).
      repeat split; trivial. exists (S i). split; [lia|]. rewrite Hpos, Hp. lia.
    + rewrite IH, Hp. lia.
  - repeat split; trivial. exists 1. split; [lia|]. rewrite Hp. lia.
Qed.

(** A batch at a length no stored code has succeeds at its first draw. *)
Lemma attempts_fresh n len g :
  max_code_length db < len ->
  exists code g', URLForm.attempts (S n) len db g = (Some code, g').
Proof.
  intros Hlen. simpl.
  pose proof (choices_length chars len g) as Hl.
  destruct (Random.choices chars len g) as [code g1]. simpl in *.
  destruct (ORM.code_exists db code) eqn:Hex; simpl; [|eauto].
  apply code_exists_length in Hex. lia.
Qed.

(** The recursion, one level at a time. *)
Lemma _generate_short_code_unfold fuel len g :
  URLForm._generate_short_code (S fuel) len db g
  = match URLForm.attempts 10 len db g with
    | (Some code, g') => Some (code, g')
    | (None, g') => URLForm._generate_short_code fuel (len + 1) db g'
    end.
Proof. reflexivity. Qed.

Lemma _generate_short_code_spec fuel len g :
  0 < len ->
  max_code_length db + 1 - len < fuel ->
  exists code g' k,
    URLForm._generate_short_code fuel len db g = Some (code, g')
    /\ ORM.code_exists db code = false
    /\ PyStr.all PyStr.ascii_alnum code = true
    /\ String.length code = len + k
    /\ len + k <= Nat.max len (max_code_length db + 1)
    /\ Random.pos g + batch_chars k len < Random.pos g'
       <= Random.pos g + batch_chars (S k) len.
Proof.
  revert len g. induction fuel as [|fuel IH]; intros len g Hpos Hfuel; [lia|].
  rewrite _generate_short_code_unfold.
  pose proof (attempts_spec 10 len g) as Hspec.
  destruct (URLForm.attempts 10 len db g) as [[code|] g1] eqn:Hatt.
  - destruct Hspec as (H1 & H2 & H3 & i & Hi & Hp).
    exists code, g1, 0.
    assert (Hlo : 1 * len <= i * len) by (apply Nat.mul_le_mono_r; lia).
    assert (Hhi : i * len <= 10 * len) by (apply Nat.mul_le_mono_r; lia).
    change (batch_chars 0 len) with 0.
    change (batch_chars 1 len) with (10 * len + 0).
    repeat split; trivial; lia.
  - assert (Hle : len <= max_code_length db).
    { destruct (Nat.le_gt_cases len (max_code_length db)) as [H|H]; [exact H|].
      destruct (attempts_fresh 9 len g H) as (c & g' & Hc). congruence. }
    destruct (IH (len + 1) g1 ltac:(lia) ltac:(lia))
      as (code & g' & k & Hgen & H2 & H3 & H4 & H5 & H6).
    exists code, g', (S k). rewrite Nat.add_1_r in H6.
    change (batch_chars (S k) len) with (10 * len + batch_chars k (S len)).
    change (batch_chars (S (S k)) len)
      with (10 * len + batch_chars (S k) (S len)).
    repeat split; trivial; lia.
Qed.

End Generation.

(** *** C5 *)

(** The loop of [URL.generate_short_code] has no exit but a free code:
    on a generator that keeps drawing a taken code it runs for ever. *)
Lemma model_generate_short_code_can_loop fuel :
  URLMethods.generate_short_code fuel 6 Sample.crowded_db Sample.zero_generator
  = None.
Proof.
  enough (H : forall p, URLMethods.generate_short_code fuel 6 Sample.crowded_db
                         (Random.mk (fun _ => 0) p) = None) by apply H.
  induction fuel as [|fuel IH]; intros p; [reflexivity|].
  cbn -[URLMethods.generate_short_code Sample.crowded_db ORM.code_exists].
  change (ORM.code_exists Sample.crowded_db "aaaaaa") with true.
  apply IH.
Qed.

(** C5 (counterexample).  The codes "aaaaaa" to "aaaaaaaaaa" are taken
    and the generator keeps drawing the letter a.  Fifty draws collide,
    at the lengths 6 to 10; the specified allocation stops there with
    AllocationExhausted, the code goes on and returns a code of length
    11. *)
Lemma generation_goes_past_length_10 :
  let r := URLForm._generate_short_code 7 6 Sample.crowded_db
                                        Sample.zero_generator in
  option_map fst r = Some "aaaaaaaaaaa"
  /\ option_map (fun x => String.length x.1) r = Some 11
  /\ option_map (fun x => Random.pos x.2) r = Some (batch_chars 5 6 + 11)
  /\ SpecAllocate.Allocate Sample.crowded_db Sample.zero_generator
     = SpecAllocate.AllocationExhausted.
Proof. vm_compute. repeat split. Qed.

(** C5 (amended).  Whatever the table and the random source, once the
    recursion may go deeper than the longest stored code is long beyond
    5, [_generate_short_code] returns: a code over [A-Za-z0-9] that no
    link carries, of length [6 + k], where [k] batches of ten draws were
    used up (lengths 6 to [5 + k]) and between one and ten draws were
    made at the last length.  The length is at most one more than the
    longest stored code, and is not otherwise bounded; no failure is
    returned. *)
Theorem form_generate_short_code_returns db g fuel :
  max_code_length db - 5 < fuel ->
  exists code g' k,
    URLForm._generate_short_code fuel 6 db g = Some (code, g')
    /\ ORM.code_exists db code = false
    /\ PyStr.all PyStr.ascii_alnum code = true
    /\ String.length code = 6 + k
    /\ 6 + k <= Nat.max 6 (max_code_length db + 1)
    /\ Random.pos g + batch_chars k 6 < Random.pos g'
       <= Random.pos g + batch_chars (S k) 6.
Proof.
  intros Hfuel. apply _generate_short_code_spec; lia.
Qed.

Lemma form_generate_short_code_returns_witness :
  max_code_length Sample.crowded_db - 5 < 7
  /\ exists code g' k,
       URLForm._generate_short_code 7 6 Sample.crowded_db Sample.zero_generator
       = Some (code, g')
       /\ ORM.code_exists Sample.crowded_db code = false
       /\ PyStr.all PyStr.ascii_alnum code = true
       /\ String.length code = 6 + k
       /\ 6 + k <= Nat.max 6 (max_code_length Sample.crowded_db + 1)
       /\ Random.pos Sample.zero_generator + batch_chars k 6 < Random.pos g'
          <= Random.pos Sample.zero_generator + batch_chars (S k) 6.
Proof.
  assert (H : max_code_length Sample.crowded_db - 5 < 7) by (vm_compute; lia).
  split; [exact H|].
  exact (form_generate_short_code_returns Sample.crowded_db Sample.zero_generator 7 H).
Defined.

(** *** C6 *)

Section RequestedCode.

Variables (db : DB) (raw : string).

Let code := PyStr.strip raw.
Let r := URLForm.cleaned_custom_short_code db raw.

(** A code made of code characters holds no null character. *)
Lemma code_chars_hold_no_null s :
  PyStr.all URLForm.code_char s = true -> PyStr.has_null s = false.
Proof. apply all_excludes. reflexivity. Qed.

Lemma custom_short_code_errors_spec value :
  (In "max_length" (URLForm.custom_short_code_errors value)
   <-> 20 < String.length value)
  /\ (In "null_characters_not_allowed" (URLForm.custom_short_code_errors value)
      <-> PyStr.has_null value = true)
  /\ (URLForm.custom_short_code_errors value = []
      <-> String.length value <= 20 /\ PyStr.has_null value = false).
Proof.
  unfold URLForm.custom_short_code_errors.
  destruct (Nat.ltb_spec 20 (String.length value));
    destruct (PyStr.has_null value); cbn [app In];
    (split; [|split]); split; intros; try discriminate; try lia; auto;
    repeat match goal with
           | H : _ \/ _ |- _ => destruct H
           | H : _ /\ _ |- _ => destruct H
           | H : False |- _ => destruct H
           end; try discriminate; try lia.
Qed.

Lemma cleaned_refused_by_field :
  URLForm.custom_short_code_errors code <> [] ->
  r = Rejected (URLForm.custom_short_code_errors code).
Proof.
  intros H. unfold r, URLForm.cleaned_custom_short_code,
    URLForm.custom_short_code_field. fold code.
  now destruct (URLForm.custom_short_code_errors code).
Qed.

Lemma cleaned_passed_by_field :
  URLForm.custom_short_code_errors code = [] ->
  r = match URLForm.clean_custom_short_code db code with
      | Valid c => Accepted c
      | ValidationError message => Rejected [message]
      end.
Proof.
  intros H. unfold r, URLForm.cleaned_custom_short_code,
    URLForm.custom_short_code_field. fold code. now rewrite H.
Qed.

End RequestedCode.

(** C6 (counterexample).  "abc" has three characters, fewer than six,
    and is accepted. *)
Lemma three_character_code_is_accepted :
  String.length "abc" < 6
  /\ URLForm.cleaned_custom_short_code Sample.db0 "abc" = Accepted (Some "abc").
Proof. vm_compute. split; [lia|reflexivity]. Qed.

(** The character test is [str.isalnum], wider than [A-Za-z0-9]: a code
    made of six letters e-acute (code point 233) is accepted. *)
Lemma latin1_letter_is_accepted :
  let e_acute := ascii_of_N 233 in
  let code := string_of_list_ascii (repeat e_acute 6) in
  PyStr.ascii_alnum e_acute = false
  /\ URLForm.cleaned_custom_short_code Sample.db0 code = Accepted (Some code).
Proof. vm_compute. split; reflexivity. Qed.

(** A null character is refused by the field, before
    [clean_custom_short_code] is called; a value that is also too long
    gets both errors. *)
Example null_character_is_refused_by_the_field :
  URLForm.cleaned_custom_short_code Sample.db0 (String "a" (String zero "b"))
  = Rejected ["null_characters_not_allowed"]
  /\ URLForm.cleaned_custom_short_code Sample.db0
       (String zero "aaaaaaaaaaaaaaaaaaaaaaaaa")
     = Rejected ["max_length"; "null_characters_not_allowed"].
Proof. vm_compute. split; reflexivity. Qed.

(** C6 (amended).  With [code] the requested value after stripping: a
    code of more than 20 characters, or with a null character, fails at
    the field with the errors of its validators, the length error in the
    first case and the null-character error in the second; the empty
    value is "no request"; a code the field lets through fails with the
    format error when some character is neither alphanumeric
    ([str.isalnum]) nor a hyphen nor an underscore, and with the
    conflict error when some link carries it, active or not; and a code
    is accepted exactly when it passes all of these. *)
Theorem requested_code_validation db raw :
  let code := PyStr.strip raw in
  let r := URLForm.cleaned_custom_short_code db raw in
  (20 < String.length code \/ PyStr.has_null code = true ->
   r = Rejected (URLForm.custom_short_code_errors code)
   /\ (In "max_length" (URLForm.custom_short_code_errors code)
       <-> 20 < String.length code)
   /\ (In "null_characters_not_allowed" (URLForm.custom_short_code_errors code)
       <-> PyStr.has_null code = true))
  /\ (code = "" -> r = Accepted None)
  /\ (code <> "" -> String.length code <= 20 -> PyStr.has_null code = false ->
      PyStr.all URLForm.code_char code = false ->
      r = Rejected
            ["Short code can only contain letters, numbers, hyphens, and underscores."])
  /\ (code <> "" -> String.length code <= 20 ->
      PyStr.all URLForm.code_char code = true ->
      (exists u, In u (urls db) /\ URL.short_code u = code) ->
      r = Rejected
            ["This short code is already in use. Please choose another one."])
  /\ (forall c, r = Accepted (Some c)
        <-> c = code /\ code <> "" /\ String.length code <= 20
            /\ PyStr.all URLForm.code_char code = true
            /\ ~ (exists u, In u (urls db) /\ URL.short_code u = code)).
Proof.
  intros code r.
  pose proof (cleaned_refused_by_field db raw) as Hfield.
  pose proof (cleaned_passed_by_field db raw) as Hpass.
  pose proof (code_exists_iff db code) as Hex.
  pose proof (code_chars_hold_no_null code) as Hnull.
  destruct (custom_short_code_errors_spec code) as (Hmax & Hnul & Hnil).
  fold code r in Hfield, Hpass. clearbody r code.
  unfold URLForm.clean_custom_short_code in Hpass.
  destruct (decide (URLForm.custom_short_code_errors code = [])) as [Hok|Hbad].
  2: { specialize (Hfield Hbad). clear Hpass.
       assert (Hwhy : 20 < String.length code \/ PyStr.has_null code = true).
       { destruct (Nat.le_gt_cases (String.length code) 20) as [Hl|Hl]; [|now left].
         destruct (PyStr.has_null code) eqn:Hn; [now right|].
         destruct Hbad. apply Hnil. now split. }
       split; [intros _; now split|].
       split.
       { intros ->. destruct Hbad. reflexivity. }
       split.
       { intros _ Hl Hn. destruct Hbad. apply Hnil. now split. }
       split.
       { intros _ Hl Hall. destruct Hbad. apply Hnil. split; [exact Hl|].
         now apply Hnull. }
       intros c. rewrite Hfield. split; [discriminate|].
       intros (_ & _ & Hl & Hall & _). destruct Hbad. apply Hnil.
       split; [exact Hl|]. now apply Hnull. }
  specialize (Hpass Hok). clear Hfield.
  apply Hnil in Hok as [Hlen Hnonull].
  split; [intros [Hl|Hn]; [lia|congruence]|].
  destruct (PyStr.truthy code) eqn:Ht; cbn [negb] in Hpass.
  2: { apply truthy_false in Ht.
       split; [intros _; exact Hpass|].
       split; [congruence|]. split; [congruence|].
       intros c. rewrite Hpass. split; [discriminate|]. intros (_ & ? & _).
       congruence. }
  assert (Hne : code <> "") by (intros E; rewrite E in Ht; discriminate).
  split; [congruence|].
  destruct (PyStr.all URLForm.code_char code) eqn:Hall; cbn [negb] in Hpass.
  2: { split; [intros; exact Hpass|]. split; [discriminate|].
       intros c. rewrite Hpass. split; [discriminate|].
       intros (_ & _ & _ & ? & _). congruence. }
  split; [discriminate|].
  destruct (ORM.code_exists db code) eqn:Hcode.
  - pose proof (proj1 Hex eq_refl) as Hu.
    split; [intros; exact Hpass|].
    intros c. rewrite Hpass. split; [discriminate|]. tauto.
  - assert (Hnu : ~ (exists u, In u (urls db) /\ URL.short_code u = code)).
    { intros Hu. apply Hex in Hu. congruence. }
    split; [tauto|].
    intros c. rewrite Hpass. split.
    + intros E. injection E as <-. tauto.
    + intros (-> & _). reflexivity.
Qed.

(** *** C8 *)

Section UserAgent.

Import SpecUserAgent.

(** On a string that is not empty, each field follows its table; the
    device type falls back to "desktop". *)
Lemma get_user_agent_info_tables ua :
  ua <> "" ->
  Utils.get_user_agent_info ua
  = Utils.mkInfo
      (Some (default "desktop" (first_match device_table (PyStr.lower ua))))
      (first_match browser_table (PyStr.lower ua))
      (first_match os_table (PyStr.lower ua)).
Proof.
  intros Hne. unfold Utils.get_user_agent_info.
  destruct (PyStr.truthy ua) eqn:Ht; [|now apply truthy_false in Ht].
  simpl negb. cbv iota. generalize (PyStr.lower ua) as l. intros l.
  cbv [first_match device_table browser_table os_table has].
  f_equal.
  destruct (PyStr.contains "mobile" l); [reflexivity|].
  now destruct (PyStr.contains "tablet" l || PyStr.contains "ipad" l).
Qed.

Lemma recorder_device_by_table ua :
  ClickRecorder.device_type_of ua
  = default "Desktop" (first_match recorder_device_table ua).
Proof.
  unfold ClickRecorder.device_type_of.
  cbv [first_match recorder_device_table has].
  destruct (PyStr.contains "Mobile" ua); [reflexivity|].
  now destruct (PyStr.contains "Tablet" ua || PyStr.contains "iPad" ua).
Qed.

End UserAgent.

(** C8 (counterexample).  No device rule matches "curl/8.4.0", and the
    derived device type is "desktop", not unset. *)
Lemma unmatched_device_defaults_to_desktop :
  SpecUserAgent.first_match SpecUserAgent.device_table (PyStr.lower "curl/8.4.0")
  = None
  /\ Utils.device_type (Utils.get_user_agent_info "curl/8.4.0") = Some "desktop"
  /\ Utils.get_user_agent_info "curl/8.4.0" <> SpecUserAgent.derive "curl/8.4.0".
Proof. vm_compute. repeat split. discriminate. Qed.

(** C8 (amended).  [get_user_agent_info] is a function of the string.
    On the empty string the three fields are unset.  On any other string
    each field is the value of the first matching rule of its table,
    tried in order on the lower-cased string; [browser] and [os] are
    unset when no rule matches, and [device_type] is then "desktop".
    The click the recorder stores has its device type from the
    recorder's own two rules, "Desktop" when neither matches, and an
    empty [browser] and [os]. *)
Theorem user_agent_derivation (ua : string) :
  (ua = "" -> Utils.get_user_agent_info ua = Utils.mkInfo None None None)
  /\ (ua <> "" ->
      Utils.get_user_agent_info ua
      = Utils.mkInfo
          (Some (default "desktop"
                   (SpecUserAgent.first_match SpecUserAgent.device_table
                                              (PyStr.lower ua))))
          (SpecUserAgent.first_match SpecUserAgent.browser_table (PyStr.lower ua))
          (SpecUserAgent.first_match SpecUserAgent.os_table (PyStr.lower ua)))
  /\ (forall ua', ua' = ua ->
      Utils.get_user_agent_info ua' = Utils.get_user_agent_info ua)
  /\ (forall env u request db,
      META request !! "HTTP_USER_AGENT" = Some ua ->
      let click := (ClickRecorder.create_from_request env u request db).2 in
      Click.user_agent click = ua
      /\ Click.device_type click
         = default "Desktop"
             (SpecUserAgent.first_match SpecUserAgent.recorder_device_table ua)
      /\ Click.browser click = ""
      /\ Click.os click = "").
Proof.
  split; [intros ->; reflexivity|].
  split; [apply get_user_agent_info_tables|].
  split; [intros ua' ->; reflexivity|].
  intros env u request db Hua. unfold ClickRecorder.create_from_request.
  rewrite Hua. destruct (geoip_city env _) as [[country city]|]; simpl;
    rewrite recorder_device_by_table; repeat split.
Qed.

(** ** The statistics endpoint *)

Section Aggregation.

Context {A : Type} `{EqDecision A}.

Lemma count_of_pos (values : list A) v : v ∈ values <-> 0 < Stats.count_of values v.
Proof.
  unfold Stats.count_of. rewrite list_elem_of_In. apply count_occ_In.
Qed.

Lemma annotate_count_fst (values : list A) :
  map fst (Stats.annotate_count values) = remove_dups values.
Proof.
  unfold Stats.annotate_count. rewrite map_map. simpl. apply map_id.
Qed.

Lemma elem_of_annotate_count (values : list A) v k :
  (v, k) ∈ Stats.annotate_count values
  <-> v ∈ values /\ k = Stats.count_of values v.
Proof.
  unfold Stats.annotate_count. rewrite list_elem_of_In, in_map_iff. split.
  - intros (w & Hw & Hin). injection Hw as -> <-.
    rewrite <- list_elem_of_In, elem_of_remove_dups in Hin. now split.
  - intros [Hin ->]. exists v. split; [reflexivity|].
    rewrite <- list_elem_of_In, elem_of_remove_dups. exact Hin.
Qed.

(** The database has an answer to [order_by('-count')]. *)
Lemma order_by_count_desc_exists (rows : list (A * nat)) :
  exists ordered, Stats.order_by_count_desc rows ordered.
Proof.
  set (R := fun a b : A * nat => b.2 <= a.2).
  assert (HT : Transitive R) by (intros x y z; unfold R; lia).
  assert (Htot : Total R) by (intros x y; unfold R; lia).
  assert (Hdec : forall x y, Decision (R x y))
    by (intros x y; unfold R; apply _).
  exists (merge_sort R rows). split.
  - symmetry. apply merge_sort_Permutation.
  - apply (StronglySorted_merge_sort R).
Qed.

Lemma distinct_count_spec (values : list A) :
  exists distinct,
    NoDup distinct
    /\ (forall v, v ∈ distinct <-> v ∈ values)
    /\ Stats.distinct_count values = length distinct.
Proof.
  exists (remove_dups values). split; [apply NoDup_remove_dups|].
  split; [intros v; apply elem_of_remove_dups|reflexivity].
Qed.

End Aggregation.

Section TopValues.

Variables (n : nat) (values : list string).

Lemma top_by_count_exists : exists result, Stats.top_by_count n values result.
Proof.
  destruct (order_by_count_desc_exists (Stats.annotate_count values))
    as [ordered Ho].
  exists (take n ordered), ordered. now split.
Qed.

Lemma top_by_count_most_frequent result :
  Stats.top_by_count n values result -> most_frequent n values result.
Proof.
  intros (ordered & [Hperm Hsorted] & ->).
  assert (Hfst : map fst ordered ≡ₚ remove_dups values).
  { rewrite <- annotate_count_fst. symmetry. now apply Permutation_map. }
  rewrite <- (take_drop n ordered) in Hsorted.
  apply StronglySorted_app in Hsorted as (Hcut & Htake & _).
  split; [|split; [|split; [|split]]].
  - rewrite length_take. rewrite <- (Permutation_length Hfst), length_map. lia.
  - assert (Hnd : NoDup (map fst ordered)).
    { rewrite Hfst. apply NoDup_remove_dups. }
    rewrite <- (take_drop n ordered), map_app in Hnd.
    now apply NoDup_app in Hnd as [Hnd _].
  - exact Htake.
  - intros v k Hin. apply elem_of_annotate_count. rewrite Hperm.
    rewrite <- (take_drop n ordered). apply elem_of_app. now left.
  - intros v Hv Hout w k Hw.
    assert (Hin : (v, Stats.count_of values v) ∈ ordered).
    { rewrite <- Hperm. now apply elem_of_annotate_count. }
    rewrite <- (take_drop n ordered) in Hin.
    apply elem_of_app in Hin as [Hin|Hin].
    + exfalso. apply Hout. apply list_elem_of_In, in_map_iff.
      exists (v, Stats.count_of values v). split; [reflexivity|].
      now apply list_elem_of_In.
    + apply (Hcut (w, k) (v, Stats.count_of values v) Hw Hin).
Qed.

End TopValues.

Section ByDate.

Lemma strictly_ascending (l : list Z) :
  StronglySorted Z.le l -> NoDup l -> StronglySorted Z.lt l.
Proof.
  induction l as [|x l IH]; intros Hs Hn; [constructor|].
  apply StronglySorted_cons in Hs as [Hle Hs].
  apply NoDup_cons in Hn as [Hx Hn].
  apply StronglySorted_cons. split; [|now apply IH].
  rewrite Forall_forall in Hle |- *. intros y Hy.
  specialize (Hle y Hy).
  assert (x <> y) by (intros ->; contradiction). lia.
Qed.

Variable cs : list Click.t.

Let dates := map (fun c => Stats.date_of (Click.clicked_at c)) cs.

Lemma by_date_fst :
  map fst (Stats.by_date cs) = merge_sort Z.le (remove_dups dates).
Proof. unfold Stats.by_date. rewrite map_map. simpl. apply map_id. Qed.

Lemma by_date_ascending : StronglySorted Z.lt (map fst (Stats.by_date cs)).
Proof.
  rewrite by_date_fst. apply strictly_ascending.
  - apply (StronglySorted_merge_sort Z.le).
  - rewrite merge_sort_Permutation. apply NoDup_remove_dups.
Qed.

Lemma elem_of_by_date d k :
  (d, k) ∈ Stats.by_date cs <-> d ∈ dates /\ k = Stats.count_of dates d.
Proof.
  unfold Stats.by_date. fold dates. rewrite list_elem_of_In, in_map_iff. split.
  - intros (w & Hw & Hin). injection Hw as -> <-.
    rewrite <- list_elem_of_In, merge_sort_Permutation, elem_of_remove_dups in Hin.
    now split.
  - intros [Hin ->]. exists d. split; [reflexivity|].
    rewrite <- list_elem_of_In, merge_sort_Permutation, elem_of_remove_dups.
    exact Hin.
Qed.

End ByDate.

(** *** C9 *)

(** C9 (counterexample).  Two clicks, the first referred by a.test and
    the second by b.test, once each.  The response that lists b.test
    before a.test is by descending count, so it is one the statistics
    query can return; the order of first appearance puts a.test first. *)
Lemma tied_referrers_in_any_order :
  Stats.url_stats Sample.example_link Sample.db_two_referrers
                  Sample.stats_b_before_a
  /\ Stats.top_referrers Sample.stats_b_before_a
     <> SpecStats.top_n 10
          (Stats.non_empty Click.referrer
             (Stats.clicks_of Sample.example_link Sample.db_two_referrers)).
Proof.
  split; [|vm_compute; discriminate].
  unfold Stats.url_stats.
  split; [reflexivity|]. split; [vm_compute; reflexivity|].
  split; [vm_compute; reflexivity|]. split.
  - exists [("https://b.test/", 1); ("https://a.test/", 1)].
    split; [|reflexivity]. split.
    + replace (Stats.annotate_count _)
        with [("https://a.test/", 1); ("https://b.test/", 1)]
        by (vm_compute; reflexivity).
      apply perm_swap.
    + repeat constructor.
  - exists [("curl/8.4.0", 2)].
    split; [|reflexivity]. split.
    + replace (Stats.annotate_count _) with [("curl/8.4.0", 2)]
        by (vm_compute; reflexivity).
      reflexivity.
    + repeat constructor.
Qed.

(** C9 (amended).  For every link the statistics query has an answer,
    and in every answer: the total is the number of the link's clicks;
    the visitors are the distinct [ip_address] values, the absent
    address being one of them; the clicks by date have one row for each
    day with a click, with the number of that day's clicks, by strictly
    ascending date; and the top referrers and user agents are the up to
    ten most frequent non-empty values with their counts, by descending
    count (the order of values with equal counts is not determined). *)
Theorem url_stats_aggregates url db :
  let cs := Stats.clicks_of url db in
  let dates := map (fun c => Stats.date_of (Click.clicked_at c)) cs in
  (exists response, Stats.url_stats url db response)
  /\ forall response,
       Stats.url_stats url db response ->
       Stats.total_clicks response = length cs
       /\ (exists ips : list (option string),
             NoDup ips
             /\ (forall ip, ip ∈ ips <-> ip ∈ map Click.ip_address cs)
             /\ Stats.unique_visitors response = length ips)
       /\ StronglySorted Z.lt (map fst (Stats.clicks_by_date response))
       /\ (forall d k, (d, k) ∈ Stats.clicks_by_date response
                       <-> d ∈ dates /\ k = Stats.count_of dates d)
       /\ most_frequent 10 (Stats.non_empty Click.referrer cs)
                        (Stats.top_referrers response)
       /\ most_frequent 10 (Stats.non_empty Click.user_agent cs)
                        (Stats.top_user_agents response).
Proof.
  intros cs dates. split.
  - destruct (top_by_count_exists 10 (Stats.non_empty Click.referrer cs))
      as [referrers Hr].
    destruct (top_by_count_exists 10 (Stats.non_empty Click.user_agent cs))
      as [agents Ha].
    exists (Stats.mkResponse (length cs)
              (Stats.distinct_count (map Click.ip_address cs))
              (Stats.by_date cs) referrers agents).
    unfold Stats.url_stats. fold cs. simpl. auto.
  - intros response (Htotal & Hunique & Hdate & Hr & Ha).
    fold cs in Htotal, Hunique, Hdate, Hr, Ha.
    split; [exact Htotal|].
    split; [rewrite Hunique; apply distinct_count_spec|].
    rewrite Hdate.
    split; [apply by_date_ascending|].
    split; [apply elem_of_by_date|].
    split; now apply top_by_count_most_frequent.
Qed.

(** The analytics page is a different query: its chart covers the last
    thirty days only, and its total is the link's stored counter.  On
    the sample history, read forty days later, the chart is empty and
    the total is 0, while the statistics endpoint reports two days and
    five clicks. *)
Example analytics_page_window :
  let env := Sample.env_at (40 * 86400) in
  Analytics.click_dates env Sample.example_link Sample.db_history = []
  /\ Analytics.total_clicks Sample.example_link = 0%N
  /\ Stats.by_date (Stats.clicks_of Sample.example_link Sample.db_history)
     = [(0%Z, 3); (1%Z, 2)]
  /\ length (Stats.clicks_of Sample.example_link Sample.db_history) = 5.
Proof. vm_compute. repeat split. Qed.

Example analytics_page_chart :
  Analytics.click_dates (Sample.env_at 100000) Sample.example_link
                        Sample.db_history
  = [(0%Z, 3); (1%Z, 2)].
Proof. vm_compute. reflexivity. Qed.

(* ------------------------------------------------------------------ *)
(** * Further properties of the code *)

(** ** The redirect view and the tables *)

Section Recording.

Variables (env : Env) (request : HttpRequest).

Lemma create_from_request_effect u db :
  exists c,
    ClickRecorder.create_from_request env u request db
    = (ORM.create_click
         (Click.set_ip_address
            (ClickRecorder.stored_ip_address env (Click.ip_address c)) c) db,
       c)
    /\ Click.url c = URL.id u
    /\ Click.clicked_at c = now env
    /\ Click.ip_address c = ClickRecorder.client_ip request.
Proof.
  exists (ClickRecorder.create_from_request env u request db).2.
  unfold ClickRecorder.create_from_request.
  destruct (geoip_city env _) as [[country city]|]; repeat split.
Qed.

Lemma recorded_effect u db :
  exists c,
    Click.url c = URL.id u
    /\ urls (recorded env request db u)
       = map (fun r => if N.eqb (URL.id r) (URL.id u)
                       then URL.set_clicks (URL.click_count u + 1)
                                           (Some (now env)) r
                       else r) (urls db)
    /\ clicks (recorded env request db u) = clicks db ++ [c].
Proof.
  destruct (create_from_request_effect u db) as (c & E & Hc & _).
  exists (Click.set_ip_address
            (ClickRecorder.stored_ip_address env (Click.ip_address c)) c).
  unfold recorded. rewrite E. simpl. auto.
Qed.

End Recording.

Lemma unique_ids_eq db r u :
  unique_ids db -> In r (urls db) -> In u (urls db) ->
  URL.id r = URL.id u -> r = u.
Proof.
  unfold unique_ids. induction (urls db) as [|x l IH]; simpl; [tauto|].
  intros Hnd Hr Hu Hid. apply NoDup_cons in Hnd as [Hx Hnd].
  destruct Hr as [->|Hr], Hu as [->|Hu]; trivial.
  - exfalso. apply Hx. rewrite Hid. apply list_elem_of_In, in_map, Hu.
  - exfalso. apply Hx. rewrite <- Hid. apply list_elem_of_In, in_map, Hr.
  - now apply IH.
Qed.

(** X1.  The redirect view keeps the counters in step with the click
    table: when the keys are distinct and every link's [click_count] is
    the number of its click rows, the same holds after any request. *)
Theorem redirect_keeps_counters_consistent env request short_code db :
  unique_ids db ->
  counters_consistent db ->
  let db' := (redirect_short_url env request short_code db).1 in
  unique_ids db' /\ counters_consistent db'.
Proof.
  intros Hids Hcons db'. subst db'.
  destruct (redirect_cases env request short_code db)
    as [[Hg ->]|[[Hg ->]|[(u & Hg & He & ->)|[(u & Hg & He & Hp & Hs & ->)
       |(u & Hg & He & Hp & ->)]]]]; simpl; auto.
  destruct (recorded_effect env request u db) as (c & Hc & Hurls & Hclicks).
  apply get_Found in Hg as [Hu _].
  split.
  - unfold unique_ids. rewrite Hurls, map_map.
    erewrite map_ext; [exact Hids|]. intros r. simpl.
    now destruct (N.eqb (URL.id r) (URL.id u)).
  - intros u' Hu'. rewrite Hurls in Hu'. apply in_map_iff in Hu' as (r & <- & Hr).
    unfold Stats.clicks_of. rewrite Hclicks, List.filter_app. simpl.
    rewrite length_app, Hc.
    destruct (N.eqb_spec (URL.id r) (URL.id u)) as [Hid|Hid].
    + assert (r = u) as -> by (now apply (unique_ids_eq db)).
      simpl. rewrite N.eqb_refl. simpl. rewrite (Hcons u Hu).
      unfold Stats.clicks_of. lia.
    + destruct (N.eqb_spec (URL.id u) (URL.id r)) as [Hid'|_]; [congruence|].
      simpl. rewrite (Hcons r Hr). unfold Stats.clicks_of. lia.
Qed.

Lemma redirect_keeps_counters_consistent_witness :
  let db' := (redirect_short_url (Sample.env_at 50) Sample.browser_request
                                 "abc123" Sample.db0).1 in
  unique_ids db' /\ counters_consistent db'.
Proof.
  apply (redirect_keeps_counters_consistent (Sample.env_at 50)
           Sample.browser_request "abc123" Sample.db0).
  - unfold unique_ids. simpl. repeat constructor. intros H. inversion H.
  - intros u [<-|[]]. reflexivity.
Defined.

(** X2.  What a request can change.  Whatever the request, every column
    of every link other than [click_count] and [last_clicked] is as it
    was, and the click table is the old one with at most one row added
    at its end; when the keys are distinct, no counter has gone down. *)
Theorem redirect_frame env request short_code db :
  let db' := (redirect_short_url env request short_code db).1 in
  map other_columns (urls db') = map other_columns (urls db)
  /\ (exists added, clicks db' = clicks db ++ added /\ length added <= 1)
  /\ (unique_ids db ->
      Forall2 (fun r r' => (URL.click_count r <= URL.click_count r')%N)
              (urls db) (urls db')).
Proof.
  intros db'. subst db'.
  assert (Hrefl : forall l : list URL.t,
    Forall2 (fun r r' => (URL.click_count r <= URL.click_count r')%N) l l).
  { induction l; constructor; [lia|assumption]. }
  assert (Hnil : exists added, clicks db = clicks db ++ added /\ length added <= 1).
  { exists []. rewrite app_nil_r. split; [reflexivity|simpl; lia]. }
  destruct (redirect_cases env request short_code db)
    as [[Hg ->]|[[Hg ->]|[(u & Hg & He & ->)|[(u & Hg & He & Hp & Hs & ->)
       |(u & Hg & He & Hp & ->)]]]]; cbn [fst]; auto.
  destruct (recorded_effect env request u db) as (c & Hc & Hurls & Hclicks).
  apply get_Found in Hg as [Hu _].
  rewrite Hurls, Hclicks. split; [|split].
  - rewrite map_map. apply map_ext. intros r.
    now destruct (N.eqb (URL.id r) (URL.id u)).
  - exists [c]. split; [reflexivity|simpl; lia].
  - intros Hids.
    assert (Hall : forall r, In r (urls db) ->
      (URL.click_count r
       <= URL.click_count (if N.eqb (URL.id r) (URL.id u)
                           then URL.set_clicks (URL.click_count u + 1)
                                               (Some (now env)) r
                           else r))%N).
    { intros r Hr. destruct (N.eqb_spec (URL.id r) (URL.id u)) as [Hid|Hid];
        [|lia].
      rewrite (unique_ids_eq db r u Hids Hr Hu Hid). simpl. lia. }
    clear Hurls Hclicks Hu Hids. induction (urls db) as [|r l IH]; simpl;
      constructor.
    + apply Hall. now left.
    + apply IH. intros r' Hr'. apply Hall. now right.
Qed.

Lemma redirect_frame_witness :
  let db' := (redirect_short_url (Sample.env_at 50) Sample.browser_request
                                 "abc123" Sample.db0).1 in
  map other_columns (urls db') = map other_columns (urls Sample.db0)
  /\ Forall2 (fun r r' => (URL.click_count r <= URL.click_count r')%N)
             (urls Sample.db0) (urls db').
Proof.
  destruct (redirect_frame (Sample.env_at 50) Sample.browser_request
              "abc123" Sample.db0) as (H1 & _ & H3).
  split; [exact H1|]. apply H3.
  unfold unique_ids. simpl. repeat constructor. intros H. inversion H.
Defined.

(** X3.  [increment_click_count] writes the instance's own counter plus
    one.  A second increment through an instance read before the first
    one (a stale instance) leaves the stored counter one above the value
    read, so one of the two clicks is lost; through the instance the
    first increment returned, the counter is two above. *)
Theorem stale_increment_loses_a_click env1 env2 u db :
  let first := increment_click_count env1 u db in
  let stale := (increment_click_count env2 u first.1).1 in
  let fresh := (increment_click_count env2 first.2 first.1).1 in
  (In u (urls db) ->
   In (URL.set_clicks (URL.click_count u + 1) (Some (now env2)) u) (urls stale)
   /\ In (URL.set_clicks (URL.click_count u + 2) (Some (now env2)) u) (urls fresh))
  /\ (forall r, In r (urls stale) -> URL.id r = URL.id u ->
                URL.click_count r = (URL.click_count u + 1)%N)
  /\ (forall r, In r (urls fresh) -> URL.id r = URL.id u ->
                URL.click_count r = (URL.click_count u + 2)%N).
Proof.
  intros first stale fresh. subst stale fresh first.
  unfold increment_click_count, ORM.save_clicks. cbn [fst snd urls clicks].
  rewrite !map_map. cbn [URL.id URL.set_clicks URL.click_count URL.last_clicked].
  split; [|split].
  - intros Hu. split; apply in_map_iff; exists u; (split; [|exact Hu]);
      rewrite N.eqb_refl; cbn; rewrite N.eqb_refl; cbn;
      unfold URL.set_clicks; cbn; f_equal; lia.
  - intros r Hr Hid. apply in_map_iff in Hr as (x & <- & _).
    destruct (N.eqb_spec (URL.id x) (URL.id u)) as [E|E]; cbn in *.
    + rewrite E, N.eqb_refl. reflexivity.
    + destruct (N.eqb_spec (URL.id x) (URL.id u)); cbn in *; congruence.
  - intros r Hr Hid. apply in_map_iff in Hr as (x & <- & _).
    destruct (N.eqb_spec (URL.id x) (URL.id u)) as [E|E]; cbn in *.
    + rewrite E, N.eqb_refl. cbn. lia.
    + destruct (N.eqb_spec (URL.id x) (URL.id u)); cbn in *; congruence.
Qed.

(** ** The session marker *)

Section Marker.

Lemma string_length_append (a t : string) :
  String.length (a +:+ t) = String.length a + String.length t.
Proof. induction a as [|c a IH]; simpl; [reflexivity|now rewrite IH]. Qed.

Lemma append_cancel_r (a b t : string) : a +:+ t = b +:+ t -> a = b.
Proof.
  intros H.
  assert (Hlen : String.length a = String.length b).
  { apply (f_equal String.length) in H. rewrite !string_length_append in H. lia. }
  revert b H Hlen. induction a as [|c a IH]; intros [|d b] H Hlen;
    try discriminate; [reflexivity|].
  simpl in H. injection H as -> H. f_equal. apply IH; [exact H|].
  simpl in Hlen. lia.
Qed.

Lemma str_of_N_inj n m : PyStr.str_of_N n = PyStr.str_of_N m -> n = m.
Proof.
  unfold PyStr.str_of_N. intros H.
  apply DecimalN.Unsigned.to_uint_inj.
  apply (f_equal NilEmpty.uint_of_string) in H.
  rewrite !NilEmpty.usu in H. congruence.
Qed.

(** The key names the link: two links share a key only if they share
    their primary key. *)
Lemma session_key_inj u v : session_key u = session_key v -> URL.id u = URL.id v.
Proof.
  unfold session_key. intros H. simpl in H.
  injection H as H.
  exact (str_of_N_inj _ _ (append_cancel_r _ _ "_authenticated" H)).
Qed.

End Marker.

(** X4.  A marker opens one link only.  When every marker in the
    session is the key of a link with another primary key than the
    password-protected link the lookup finds, the request is stopped at
    the gate: nothing is written, and the answer is the NoReverseMatch
    of the redirect to the password route, for which shortener/urls.py
    has no entry. *)
Theorem marker_opens_one_link_only env request short_code db v :
  ORM.get (active_with_code short_code) (urls db) = ORM.Found v ->
  URL.is_expired (now env) v = false ->
  URL.password v <> "" ->
  (forall key, session request !! key = Some true ->
               exists u, key = session_key u /\ URL.id u <> URL.id v) ->
  redirect_short_url env request short_code db
  = (db, Raise (NoReverseMatch "shortener:url_password")).
Proof.
  intros Hg He Hp Hs. apply redirect_password_required with v; trivial.
  - destruct (URL.password v); [congruence|reflexivity].
  - unfold session_authenticated.
    destruct (session request !! session_key v) as [[|]|] eqn:Hk; trivial.
    destruct (Hs _ Hk) as (u & Hkey & Hid). exfalso. apply Hid.
    symmetry. now apply session_key_inj.
Qed.

Lemma marker_opens_one_link_only_witness :
  let request := mkRequest ∅ {[ session_key Sample.example_link := true ]} in
  redirect_short_url (Sample.env_at 50) request "s3cret" Sample.db_secret
  = (Sample.db_secret, Raise (NoReverseMatch "shortener:url_password")).
Proof.
  apply (marker_opens_one_link_only (Sample.env_at 50) _ "s3cret"
           Sample.db_secret Sample.secret_link).
  - reflexivity.
  - reflexivity.
  - discriminate.
  - intros key Hkey. exists Sample.example_link. cbn [session] in Hkey.
    apply lookup_singleton_Some in Hkey as [<- _].
    split; [reflexivity|discriminate].
Defined.

(** ** The client address *)

Section ClientAddress.


End ClientAddress.


Example recorded_client_address_example :
  let request :=
    mkRequest (<["HTTP_X_FORWARDED_FOR" := ",198.51.100.2"]>
               (<["REMOTE_ADDR" := "203.0.113.7"]> ∅)) ∅ in
  let r := ClickRecorder.create_from_request (Sample.env_at 50)
             Sample.example_link request Sample.db0 in
  Click.ip_address r.2 = Some ""
  /\ map Click.ip_address (clicks r.1) = [None].
Proof. vm_compute. split; reflexivity. Qed.

(** ** Saving a new link *)

Section ModelGeneration.

Variable db : DB.

Lemma choices_rest population k g :
  (Random.choices population k g).2 = skip k g.
Proof.
  pose proof (choices_pos population k g) as [Hp Hd].
  destruct (Random.choices population k g) as [s [d p]]. simpl in *.
  unfold skip. now rewrite Hp, Hd.
Qed.

Lemma skip_skip a b g : skip a (skip b g) = skip (b + a) g.
Proof. unfold skip. simpl. f_equal. lia. Qed.

Lemma skip_0 g : skip 0 g = g.
Proof. destruct g as [d p]. unfold skip. simpl. f_equal. lia. Qed.

Lemma nth_code_0 len g : nth_code len g 0 = (Random.choices chars len g).1.
Proof. unfold nth_code. simpl. now rewrite skip_0. Qed.

Lemma nth_code_S len g i : nth_code len g (S i) = nth_code len (skip len g) i.
Proof.
  unfold nth_code. rewrite skip_skip.
  replace (S i * len) with (len + i * len) by (simpl; lia). reflexivity.
Qed.

Lemma generate_short_code_first_free len n :
  forall g fuel,
    (forall i, i < n -> ORM.code_exists db (nth_code len g i) = true) ->
    ORM.code_exists db (nth_code len g n) = false ->
    n < fuel ->
    URLMethods.generate_short_code fuel len db g
    = Some (nth_code len g n, skip (S n * len) g).
Proof.
  induction n as [|n IH]; intros g fuel Htaken Hfree Hfuel;
    (destruct fuel as [|fuel]; [lia|]); cbn [URLMethods.generate_short_code];
    pose proof (choices_rest chars len g) as Hrest;
    destruct (Random.choices chars len g) as [code g1] eqn:E; simpl in Hrest;
    subst g1.
  - rewrite nth_code_0, E in Hfree. simpl in Hfree. rewrite Hfree. simpl.
    rewrite nth_code_0, E. simpl. do 2 f_equal. unfold skip. f_equal. lia.
  - assert (Hc : ORM.code_exists db code = true).
    { specialize (Htaken 0 ltac:(lia)). now rewrite nth_code_0, E in Htaken. }
    rewrite Hc. simpl. rewrite (IH (skip len g) fuel).
    + rewrite <- nth_code_S, skip_skip. reflexivity.
    + intros i Hi. rewrite <- nth_code_S. apply Htaken. lia.
    + now rewrite <- nth_code_S.
    + lia.
Qed.

End ModelGeneration.

(** X6.  [URL.generate_short_code] returns the first code of the random
    source that no link carries: when the first [n] draws collide and
    the next one is free, any loop allowed more than [n] turns returns
    that draw, a code over [A-Za-z0-9] of the length asked for, having
    consumed [n + 1] codes. *)
Theorem model_generate_short_code_returns_first_free db len n g fuel :
  (forall i, i < n -> ORM.code_exists db (nth_code len g i) = true) ->
  ORM.code_exists db (nth_code len g n) = false ->
  n < fuel ->
  URLMethods.generate_short_code fuel len db g
  = Some (nth_code len g n, skip (S n * len) g)
  /\ String.length (nth_code len g n) = len
  /\ PyStr.all PyStr.ascii_alnum (nth_code len g n) = true.
Proof.
  intros Htaken Hfree Hfuel. split; [|split].
  - now apply generate_short_code_first_free.
  - apply choices_length.
  - apply choices_alnum.
Qed.

Lemma model_generate_short_code_returns_first_free_witness :
  URLMethods.generate_short_code 2 6 Sample2.db_abcdef Sample2.counting_generator
  = Some ("ghijkl", skip 12 Sample2.counting_generator).
Proof.
  refine (proj1 (model_generate_short_code_returns_first_free
                   Sample2.db_abcdef 6 1 Sample2.counting_generator 2 _ _ _)).
  - intros i Hi. assert (i = 0) as -> by lia. reflexivity.
  - reflexivity.
  - lia.
Defined.

Section Saving.

Variables (env : Env) (db : DB).

Lemma id_below_next u : In u (urls db) -> (URL.id u < URLSave.next_id env db)%N.
Proof.
  unfold URLSave.next_id. generalize (url_id_sequence env) as k.
  induction (urls db) as [|r l IH]; simpl; [tauto|].
  intros k [->|Hu]; [lia|]. specialize (IH k Hu). lia.
Qed.

Lemma generate_short_code_sound fuel len g code g' :
  URLMethods.generate_short_code fuel len db g = Some (code, g') ->
  String.length code = len
  /\ PyStr.all PyStr.ascii_alnum code = true
  /\ ORM.code_exists db code = false.
Proof.
  revert g. induction fuel as [|fuel IH]; intros g; [discriminate|].
  cbn [URLMethods.generate_short_code].
  pose proof (choices_length chars len g) as Hl.
  pose proof (choices_alnum len g) as Ha.
  destruct (Random.choices chars len g) as [c g1]. simpl in Hl, Ha.
  destruct (ORM.code_exists db c) eqn:Hex; simpl.
  - apply IH.
  - intros H. injection H as <- <-. auto.
Qed.

End Saving.

(** X7.  Saving a new link keeps the codes and the keys distinct.  When
    [URL.save] stores the instance, the table is the old one with the
    new row at its end and the click table is untouched; distinct codes
    and distinct keys stay distinct; an instance without a code gets a
    fresh code of six characters over [A-Za-z0-9], and an instance with
    a code keeps it.  An instance whose code some link already carries
    is refused with IntegrityError. *)
Theorem save_keeps_codes_unique env fuel instance db g :
  unique_codes db ->
  unique_ids db ->
  match URLSave.save env fuel instance db g with
  | URLSave.Saved db' row g' =>
      urls db' = urls db ++ [row]
      /\ clicks db' = clicks db
      /\ unique_codes db' /\ unique_ids db'
      /\ ORM.code_exists db (URL.short_code row) = false
      /\ (URL.short_code instance = "" ->
          String.length (URL.short_code row) = 6
          /\ PyStr.all PyStr.ascii_alnum (URL.short_code row) = true)
      /\ (URL.short_code instance <> "" ->
          URL.short_code row = URL.short_code instance /\ g' = g)
  | URLSave.IntegrityError =>
      URL.short_code instance <> ""
      /\ ORM.code_exists db (URL.short_code instance) = true
  | URLSave.StillDrawing => URL.short_code instance = ""
  end.
Proof.
  intros Hcodes Hids. unfold URLSave.save.
  destruct (PyStr.truthy (URL.short_code instance)) eqn:Ht; simpl.
  - assert (Hne : URL.short_code instance <> "")
      by (intros E; rewrite E in Ht; discriminate).
    destruct (ORM.code_exists db (URL.short_code instance)) eqn:Hex; [auto|].
    simpl. repeat split; trivial; try congruence.
    + unfold unique_codes. simpl. rewrite map_app. simpl.
      apply NoDup_app. split; [exact Hcodes|]. split; [|repeat constructor; inversion 1].
      intros c Hc Hin. apply list_elem_of_In in Hin as [<-|[]].
      apply list_elem_of_In, in_map_iff in Hc as (u & Hu & Hin).
      assert (ORM.code_exists db (URL.short_code instance) = true)
        by (apply code_exists_iff; eauto). congruence.
    + unfold unique_ids. simpl. rewrite map_app. simpl.
      apply NoDup_app. split; [exact Hids|]. split; [|repeat constructor; inversion 1].
      intros i Hi Hin. apply list_elem_of_In in Hin as [<-|[]].
      apply list_elem_of_In, in_map_iff in Hi as (u & Hu & Hin).
      pose proof (id_below_next env db u Hin). lia.
  - apply truthy_false in Ht.
    destruct (URLMethods.generate_short_code fuel 6 db g) as [[code g']|] eqn:Hgen;
      [|exact Ht].
    destruct (generate_short_code_sound db fuel 6 g code g' Hgen) as (Hl & Ha & Hfree).
    rewrite Hfree. simpl. repeat split; trivial; try congruence.
    + unfold unique_codes. simpl. rewrite map_app. simpl.
      apply NoDup_app. split; [exact Hcodes|]. split; [|repeat constructor; inversion 1].
      intros c Hc Hin. apply list_elem_of_In in Hin as [<-|[]].
      apply list_elem_of_In, in_map_iff in Hc as (u & Hu & Hin).
      assert (ORM.code_exists db code = true)
        by (apply code_exists_iff; eauto). congruence.
    + unfold unique_ids. simpl. rewrite map_app. simpl.
      apply NoDup_app. split; [exact Hids|]. split; [|repeat constructor; inversion 1].
      intros i Hi Hin. apply list_elem_of_In in Hin as [<-|[]].
      apply list_elem_of_In, in_map_iff in Hi as (u & Hu & Hin).
      pose proof (id_below_next env db u Hin). lia.
Qed.

Lemma save_keeps_codes_unique_witness :
  unique_codes Sample2.db_abcdef
  /\ unique_ids Sample2.db_abcdef
  /\ match URLSave.save (Sample.env_at 50) 2
             (Sample.link 0 "https://example.org" "") Sample2.db_abcdef
             Sample2.counting_generator with
     | URLSave.Saved db' row g' =>
         urls db' = urls Sample2.db_abcdef ++ [row]
         /\ clicks db' = clicks Sample2.db_abcdef
         /\ unique_codes db' /\ unique_ids db'
         /\ ORM.code_exists Sample2.db_abcdef (URL.short_code row) = false
         /\ (URL.short_code (Sample.link 0 "https://example.org" "") = "" ->
             String.length (URL.short_code row) = 6
             /\ PyStr.all PyStr.ascii_alnum (URL.short_code row) = true)
         /\ (URL.short_code (Sample.link 0 "https://example.org" "") <> "" ->
             URL.short_code row
             = URL.short_code (Sample.link 0 "https://example.org" "")
             /\ g' = Sample2.counting_generator)
     | URLSave.IntegrityError =>
         URL.short_code (Sample.link 0 "https://example.org" "") <> ""
         /\ ORM.code_exists Sample2.db_abcdef
              (URL.short_code (Sample.link 0 "https://example.org" "")) = true
     | URLSave.StillDrawing =>
         URL.short_code (Sample.link 0 "https://example.org" "") = ""
     end.
Proof.
  assert (Hc : unique_codes Sample2.db_abcdef).
  { unfold unique_codes. simpl. repeat constructor. inversion 1. }
  assert (Hi : unique_ids Sample2.db_abcdef).
  { unfold unique_ids. simpl. repeat constructor. inversion 1. }
  split; [exact Hc|]. split; [exact Hi|].
  exact (save_keeps_codes_unique (Sample.env_at 50) 2
           (Sample.link 0 "https://example.org" "") Sample2.db_abcdef
           Sample2.counting_generator Hc Hi).
Defined.

Example save_example :
  match URLSave.save (Sample.env_at 50) 2
          (Sample.link 0 "https://example.org" "") Sample2.db_abcdef
          Sample2.counting_generator with
  | URLSave.Saved db' row _ =>
      URL.short_code row = "ghijkl" /\ URL.id row = 2%N /\ length (urls db') = 2
  | _ => False
  end.
Proof. vm_compute. repeat split. Qed.

(** ** [URLForm.clean] *)

(** X8.  What [URLForm.clean] puts in [cleaned_data].  Once the recursion
    of the generator may go deep enough for the table, [clean] returns
    with a short code that is never empty: the requested code, with the
    random source untouched, when one was given, and otherwise a
    generated code that no link carries.  [created_by] is the
    authenticated user.  For a number of days the form field lets
    through (1 to 365), [expires_at] is that many days after the clock
    reading; without one it is not set. *)
Theorem clean_sets_code_owner_and_expiry
    env user custom raw_days days fuel db g :
  URLFormClean.expiration_days_field raw_days = Valid days ->
  max_code_length db - 5 < fuel ->
  exists data g',
    URLFormClean.clean env user custom days fuel db g = Some (data, g')
    /\ URLFormClean.short_code data <> ""
    /\ URLFormClean.created_by data = user
    /\ (forall c, custom = Some c -> c <> "" ->
                  URLFormClean.short_code data = c /\ g' = g)
    /\ (custom = None \/ custom = Some "" ->
        ORM.code_exists db (URLFormClean.short_code data) = false
        /\ 6 <= String.length (URLFormClean.short_code data))
    /\ match days with
       | None => URLFormClean.expires_at data = None
       | Some d =>
           (1 <= d <= 365)%Z
           /\ URLFormClean.expires_at data = Some (now env + d * 86400)%Z
       end.
Proof.
  intros Hfield Hfuel.
  assert (Hdays : match days with
                  | None => True
                  | Some d => (1 <= d <= 365)%Z
                  end).
  { unfold URLFormClean.expiration_days_field in Hfield.
    destruct raw_days as [d|]; [|injection Hfield as <-; exact I].
    destruct (Z.ltb_spec d 1); [discriminate|].
    destruct (Z.ltb_spec 365 d); [discriminate|].
    injection Hfield as <-. lia. }
  destruct (_generate_short_code_spec db fuel 6 g ltac:(lia) ltac:(lia))
    as (code & g1 & k & Hgen & Hfree & _ & Hlen & _).
  assert (Hexp :
    let e := match days with
             | Some d => if (d =? 0)%Z then None else Some (now env + d * 86400)%Z
             | None => None
             end in
    match days with
    | None => e = None
    | Some d => (1 <= d <= 365)%Z /\ e = Some (now env + d * 86400)%Z
    end).
  { destruct days as [d|]; [|reflexivity]. simpl.
    split; [exact Hdays|]. destruct (Z.eqb_spec d 0); [lia|reflexivity]. }
  assert (Hcode : code <> "").
  { intros ->. simpl in Hlen. lia. }
  unfold URLFormClean.clean.
  destruct custom as [[|a c]|]; cbn [PyStr.truthy negb]; try rewrite Hgen;
    eexists _, _; (split; [reflexivity|]);
    cbn [URLFormClean.short_code URLFormClean.created_by
         URLFormClean.expires_at];
    (split; [|split; [reflexivity|split; [|split; [|exact Hexp]]]]).
  - exact Hcode.
  - intros c' E Hne. congruence.
  - intros _. split; [exact Hfree|lia].
  - discriminate.
  - intros c' E _. injection E as <-. split; reflexivity.
  - intros [E|E]; discriminate.
  - exact Hcode.
  - discriminate.
  - intros _. split; [exact Hfree|lia].
Qed.

Lemma clean_sets_code_owner_and_expiry_witness :
  exists data g',
    URLFormClean.clean (Sample.env_at 1000) (Some 1%N) (Some "my-link")
                       (Some 2%Z) 2 Sample.db0 Sample2.counting_generator
    = Some (data, g')
    /\ URLFormClean.short_code data = "my-link"
    /\ URLFormClean.expires_at data = Some 173800%Z.
Proof.
  destruct (clean_sets_code_owner_and_expiry (Sample.env_at 1000) (Some 1%N)
              (Some "my-link") (Some 2%Z) (Some 2%Z) 2 Sample.db0
              Sample2.counting_generator eq_refl)
    as (data & g' & Hclean & _ & _ & Hcode & _ & _ & Hexp).
  { vm_compute. lia. }
  exists data, g'. split; [exact Hclean|].
  split; [apply (Hcode "my-link"); [reflexivity|discriminate]|exact Hexp].
Defined.

(** X9.  The expiry [clean] computes and the expiry test agree on the
    window.  A link that carries the [expires_at] computed at clock
    reading [t] for [d] days, [d] at least 1, is not expired at [t], and
    at any later reading it is expired exactly when more than [d] days
    have passed; the test of the redirect view gives the same answer. *)
Theorem expiry_window env env' user custom d fuel db g data g' u :
  (1 <= d)%Z ->
  URLFormClean.clean env user custom (Some d) fuel db g = Some (data, g') ->
  URL.expires_at u = URLFormClean.expires_at data ->
  URL.is_expired (now env) u = false
  /\ (URL.is_expired (now env') u = true
      <-> (now env + d * 86400 < now env')%Z)
  /\ expires_at_passed env' u = URL.is_expired (now env') u.
Proof.
  intros Hd Hclean Hu.
  assert (He : URL.expires_at u = Some (now env + d * 86400)%Z).
  { rewrite Hu. unfold URLFormClean.clean in Hclean.
    destruct (match custom with Some _ => _ | None => _ end) as [[c g1]|];
      [|discriminate].
    injection Hclean as <- _. simpl.
    destruct (Z.eqb_spec d 0); [lia|reflexivity]. }
  split; [|split].
  - unfold URL.is_expired. rewrite He, Z.gtb_ltb. apply Z.ltb_ge. lia.
  - unfold URL.is_expired. rewrite He. rewrite Z.gtb_ltb. apply Z.ltb_lt.
  - apply expires_at_passed_is_expired.
Qed.

Lemma expiry_window_witness :
  URL.is_expired (-86300) Sample.expired_link = false
  /\ (URL.is_expired 200 Sample.expired_link = true
      <-> (-86300 + 1 * 86400 < 200)%Z).
Proof.
  destruct (expiry_window (Sample.env_at (-86300)) (Sample.env_at 200)
              None (Some "gone42") 1 1 Sample.db0 Sample2.counting_generator
              (URLFormClean.mkData "gone42" (Some 100%Z) None)
              Sample2.counting_generator Sample.expired_link)
    as (H1 & H2 & _).
  - lia.
  - reflexivity.
  - reflexivity.
  - exact (conj H1 H2).
Defined.

(** ** The management views *)

Section Lookups.

Context {A : Type} (cond : A -> bool).

Lemma get_Found_filter rows a :
  ORM.get cond rows = ORM.Found a <-> List.filter cond rows = [a].
Proof.
  unfold ORM.get. destruct (List.filter cond rows) as [|x [|y l]];
    split; intros H; try discriminate; congruence.
Qed.

End Lookups.

Section UniqueCodes.

Variable db : DB.
Hypothesis Hcodes : unique_codes db.

Lemma unique_codes_eq r u :
  In r (urls db) -> In u (urls db) -> URL.short_code r = URL.short_code u -> r = u.
Proof.
  unfold unique_codes in Hcodes. revert Hcodes.
  induction (urls db) as [|x l IH]; simpl; [tauto|].
  intros Hnd Hr Hu Hc. apply NoDup_cons in Hnd as [Hx Hnd].
  destruct Hr as [->|Hr], Hu as [->|Hu]; trivial.
  - exfalso. apply Hx. rewrite Hc. apply list_elem_of_In, in_map, Hu.
  - exfalso. apply Hx. rewrite <- Hc. apply list_elem_of_In, in_map, Hr.
  - now apply IH.
Qed.

(** With distinct codes a lookup by code never finds two rows. *)
Lemma filter_code_at_most_one (extra : URL.t -> bool) code :
  List.filter (fun u => String.eqb (URL.short_code u) code && extra u) (urls db)
  = [] \/
  exists u, In u (urls db) /\ URL.short_code u = code /\ extra u = true
            /\ List.filter (fun u => String.eqb (URL.short_code u) code && extra u)
                           (urls db) = [u].
Proof.
  unfold unique_codes in Hcodes. revert Hcodes.
  induction (urls db) as [|x l IH]; simpl; [now left|].
  intros Hnd. apply NoDup_cons in Hnd as [Hx Hnd]. specialize (IH Hnd).
  destruct (String.eqb_spec (URL.short_code x) code) as [Hc|Hc]; simpl.
  - assert (Hnone : List.filter
      (fun u => String.eqb (URL.short_code u) code && extra u) l = []).
    { destruct IH as [E|(u & Hu & Hcu & _)]; [exact E|].
      exfalso. apply Hx. rewrite Hc, <- Hcu. apply list_elem_of_In, in_map, Hu. }
    destruct (extra x) eqn:Hex.
    + right. exists x. rewrite Hnone. auto.
    + left. exact Hnone.
  - destruct IH as [E|(u & Hu & Hcu & Hex & E)]; [now left|].
    right. exists u. auto.
Qed.

End UniqueCodes.

(** X10.  [delete_short_url] changes something only for a POST of the
    link's owner.  Then the row with that key and the clicks that point
    to it are gone, every other row and click is still there, and one
    'url_deleted' activity is logged; in every other case the tables and
    the log are as they were. *)
Theorem delete_short_url_effect request pk site :
  let r := Manage.delete_short_url request pk site in
  (r.1 = site /\ r.2 <> RedirectTo "shortener:dashboard")
  \/ (exists uid url,
        user request = Some uid /\ method request = "POST"
        /\ In url (urls (tables site)) /\ URL.id url = pk
        /\ URL.created_by url = Some uid
        /\ r.2 = RedirectTo "shortener:dashboard"
        /\ (forall x, In x (urls (tables r.1))
                      <-> In x (urls (tables site)) /\ URL.id x <> pk)
        /\ (forall c, In c (clicks (tables r.1))
                      <-> In c (clicks (tables site)) /\ Click.url c <> pk)
        /\ activities r.1
           = activities site
             ++ [mkActivity uid "url_deleted" (URL.original_url url)
                            (URL.short_code url)]).
Proof.
  intros r. subst r. unfold Manage.delete_short_url.
  destruct (user request) as [uid|]; [|left; split; [reflexivity|discriminate]].
  destruct (ORM.get _ _) as [url| |] eqn:Hg;
    try (left; split; [reflexivity|discriminate]).
  destruct (String.eqb_spec (method request) "POST") as [Hm|Hm];
    [|left; split; [reflexivity|discriminate]].
  right. exists uid, url. apply get_Found in Hg as [Hin Hc].
  unfold Manage.owned_with_pk in Hc. apply andb_prop in Hc as [Hid Hown].
  apply N.eqb_eq in Hid. apply bool_decide_eq_true in Hown.
  cbn [fst snd tables urls clicks activities Manage.delete].
  split; [reflexivity|]. split; [exact Hm|]. split; [exact Hin|].
  split; [exact Hid|]. split; [exact Hown|]. split; [reflexivity|].
  split; [|split; [|reflexivity]].
  - intros x. rewrite filter_In, Hid.
    destruct (N.eqb_spec (URL.id x) pk); simpl; split; intros [? ?];
      split; trivial; congruence.
  - intros c. rewrite filter_In, Hid.
    destruct (N.eqb_spec (Click.url c) pk); simpl; split; intros [? ?];
      split; trivial; congruence.
Qed.

(** X11.  A deleted link's code is free again.  After the owner's POST
    to [delete_short_url], in a table with distinct codes, no link
    carries the code, so a GET for it raises Http404 and
    [clean_custom_short_code] accepts it for a new link whenever its
    characters pass. *)
Theorem deleted_code_is_free_again request pk site uid url env http_request :
  user request = Some uid ->
  method request = "POST" ->
  ORM.get (Manage.owned_with_pk uid pk) (urls (tables site)) = ORM.Found url ->
  unique_codes (tables site) ->
  let db' := tables (Manage.delete_short_url request pk site).1 in
  ORM.code_exists db' (URL.short_code url) = false
  /\ redirect_short_url env http_request (URL.short_code url) db'
     = (db', Raise (Http404 "Short URL not found"))
  /\ (URL.short_code url <> "" ->
      PyStr.all URLForm.code_char (URL.short_code url) = true ->
      URLForm.clean_custom_short_code db' (URL.short_code url)
      = Valid (Some (URL.short_code url))).
Proof.
  intros Hu Hm Hg Hcodes db'. subst db'.
  unfold Manage.delete_short_url. rewrite Hu, Hg, Hm.
  replace (String.eqb "POST" "POST") with true by reflexivity.
  cbn [fst tables].
  apply get_Found in Hg as [Hin Hc].
  assert (Hfree : ORM.code_exists (Manage.delete url (tables site))
                                  (URL.short_code url) = false).
  { destruct (ORM.code_exists _ _) eqn:Hex; [|reflexivity]. exfalso.
    apply code_exists_iff in Hex as (x & Hx & Hcx).
    cbn [Manage.delete urls] in Hx. apply filter_In in Hx as [Hx Hne].
    rewrite (unique_codes_eq (tables site) Hcodes x url Hx Hin Hcx) in Hne.
    rewrite N.eqb_refl in Hne. discriminate. }
  split; [exact Hfree|]. split.
  - apply redirect_not_found. apply get_DoesNotExist. intros x Hx.
    unfold active_with_code.
    destruct (String.eqb_spec (URL.short_code x) (URL.short_code url)) as [E|E];
      [|reflexivity].
    exfalso. assert (ORM.code_exists (Manage.delete url (tables site))
                                     (URL.short_code url) = true)
      by (apply code_exists_iff; eauto). congruence.
  - intros Hne Hchars. unfold URLForm.clean_custom_short_code.
    rewrite Hchars, Hfree. destruct (URL.short_code url); [congruence|reflexivity].
Qed.

Lemma deleted_code_is_free_again_witness :
  let site := mkSite Sample.db0 [] in
  let db' := tables (Manage.delete_short_url (mkManage (Some 1%N) "POST") 1 site).1 in
  ORM.code_exists db' "abc123" = false
  /\ URLForm.clean_custom_short_code db' "abc123" = Valid (Some "abc123").
Proof.
  destruct (deleted_code_is_free_again (mkManage (Some 1%N) "POST") 1
              (mkSite Sample.db0 []) 1%N Sample.example_link
              (Sample.env_at 50) Sample.browser_request)
    as (H1 & _ & H3).
  - reflexivity.
  - reflexivity.
  - reflexivity.
  - unfold unique_codes. simpl. repeat constructor. inversion 1.
  - split; [exact H1|]. apply H3; [discriminate|reflexivity].
Defined.

(** X12.  [is_active] can be switched both ways.  After a valid POST of
    the owner to [edit_short_url], in tables with distinct keys and
    codes, the lookup of the redirect view finds the link exactly when
    the box was ticked: an inactive link is active again, an active one
    answers 404 from then on.  The clicks are untouched and one
    'url_updated' activity is logged. *)
Theorem edit_switches_is_active request post pk site uid url :
  user request = Some uid ->
  method request = "POST" ->
  Manage.edit_form_is_valid post = true ->
  ORM.get (Manage.owned_with_pk uid pk) (urls (tables site)) = ORM.Found url ->
  unique_ids (tables site) ->
  unique_codes (tables site) ->
  let r := Manage.edit_short_url request post pk site in
  r.2 = RedirectTo "shortener:url_analytics"
  /\ ORM.get (active_with_code (URL.short_code url)) (urls (tables r.1))
     = (if Manage.post_is_active post
        then ORM.Found (URL.set_is_active true url)
        else ORM.DoesNotExist)
  /\ clicks (tables r.1) = clicks (tables site)
  /\ activities r.1
     = activities site
       ++ [mkActivity uid "url_updated" (URL.original_url url)
                      (URL.short_code url)].
Proof.
  intros Hu Hm Hvalid Hg Hids Hcodes r. subst r.
  unfold Manage.edit_short_url. rewrite Hu, Hg, Hm, Hvalid.
  replace (String.eqb "POST" "POST") with true by reflexivity.
  cbn [andb fst snd tables activities]. apply get_Found in Hg as [Hin _].
  split; [reflexivity|]. split; [|split; reflexivity].
  set (b := Manage.post_is_active post).
  set (upd := fun r => if N.eqb (URL.id r) (URL.id (URL.set_is_active b url))
                       then URL.set_is_active b url else r).
  assert (Hrows : forall x, In x (urls (tables site)) ->
    active_with_code (URL.short_code url) (upd x)
    = N.eqb (URL.id x) (URL.id url) && b).
  { intros x Hx. unfold upd. cbn [URL.id URL.set_is_active].
    destruct (N.eqb_spec (URL.id x) (URL.id url)) as [E|E].
    - unfold active_with_code. cbn. now rewrite String.eqb_refl.
    - unfold active_with_code.
      destruct (String.eqb_spec (URL.short_code x) (URL.short_code url)) as [C|C];
        [|reflexivity].
      exfalso. apply E. f_equal.
      exact (unique_codes_eq _ Hcodes x url Hx Hin C). }
  assert (Hf : List.filter (active_with_code (URL.short_code url))
                 (urls (ORM.save (URL.set_is_active b url) (tables site)))
               = if b then [URL.set_is_active b url] else []).
  { cbn [ORM.save urls]. fold upd. unfold unique_ids in Hids.
    revert Hin Hrows Hids. generalize (urls (tables site)) as rows.
    induction rows as [|x rows IH]; intros Hin Hrows Hnd; [destruct Hin|].
    cbn [map] in Hnd. apply NoDup_cons in Hnd as [Hx Hnd].
    cbn [map List.filter]. rewrite (Hrows x (or_introl eq_refl)).
    destruct (N.eqb_spec (URL.id x) (URL.id url)) as [E|E]; cbn [andb].
    - assert (Hnone : List.filter (active_with_code (URL.short_code url))
                                  (map upd rows) = []).
      { assert (Hall : forall y, In y rows ->
                  active_with_code (URL.short_code url) (upd y) = false).
        { intros y Hy. rewrite (Hrows y (or_intror Hy)).
          destruct (N.eqb_spec (URL.id y) (URL.id url)) as [E'|_]; [|reflexivity].
          exfalso. apply Hx. rewrite E, <- E'.
          apply list_elem_of_In, in_map, Hy. }
        clear IH Hin Hrows Hnd Hx. induction rows as [|y rows IH'];
          [reflexivity|].
        cbn [map List.filter]. rewrite (Hall y (or_introl eq_refl)).
        apply IH'. intros z Hz. apply Hall. now right. }
      rewrite Hnone. unfold upd. cbn [URL.id URL.set_is_active].
      rewrite E, N.eqb_refl. now destruct b.
    - apply IH; trivial.
      + destruct Hin as [->|Hin]; [congruence|exact Hin].
      + intros y Hy. apply Hrows. now right. }
  unfold ORM.get. rewrite Hf. unfold b. now destruct (Manage.post_is_active post).
Qed.

Lemma edit_switches_is_active_witness :
  let site := mkSite Sample.db_inactive [] in
  let r := Manage.edit_short_url (mkManage (Some 1%N) "POST")
             (Manage.mkEditPost "My link" true) 1 site in
  ORM.get (active_with_code "abc123") (urls (tables r.1))
  = ORM.Found Sample.example_link.
Proof.
  destruct (edit_switches_is_active (mkManage (Some 1%N) "POST")
              (Manage.mkEditPost "My link" true) 1
              (mkSite Sample.db_inactive []) 1%N
              (URL.set_is_active false Sample.example_link))
    as (_ & H & _).
  - reflexivity.
  - reflexivity.
  - reflexivity.
  - reflexivity.
  - unfold unique_ids. simpl. repeat constructor. inversion 1.
  - unfold unique_codes. simpl. repeat constructor. inversion 1.
  - exact H.
Defined.

(** X13.  Who learns that a code exists.  For a logged-in user who owns
    no link with the code, in a table with distinct codes, the gate of
    [url_analytics], [url_clicks] and [export_clicks] answers 404
    whether or not the code is in use; [generate_qr_code_view] answers
    403 exactly when some link carries the code and 404 exactly when
    none does. *)
Theorem stranger_gets_404_but_qr_tells base_url request short_code db uid :
  user request = Some uid ->
  unique_codes db ->
  (forall u, In u (urls db) -> URL.short_code u = short_code ->
             URL.created_by u <> Some uid) ->
  Manage.owner_gate request short_code db = inl NotFound
  /\ (Manage.generate_qr_code_view base_url request short_code db = Forbidden
      <-> ORM.code_exists db short_code = true)
  /\ (Manage.generate_qr_code_view base_url request short_code db = NotFound
      <-> ORM.code_exists db short_code = false).
Proof.
  intros Hu Hcodes Hstranger. split.
  - unfold Manage.owner_gate. rewrite Hu.
    assert (Hg : ORM.get (Manage.owned_with_code uid short_code) (urls db)
                 = ORM.DoesNotExist).
    { apply get_DoesNotExist. intros u Hin. unfold Manage.owned_with_code.
      destruct (String.eqb_spec (URL.short_code u) short_code) as [E|E];
        [|reflexivity].
      simpl. apply bool_decide_eq_false_2. now apply Hstranger. }
    now rewrite Hg.
  - unfold Manage.generate_qr_code_view, ORM.get. rewrite Hu.
    destruct (filter_code_at_most_one db Hcodes (fun _ => true) short_code)
      as [E|(u & Hin & Hc & _ & E)].
    + assert (E' : List.filter (fun u => String.eqb (URL.short_code u) short_code)
                               (urls db) = []).
      { rewrite <- E. apply filter_ext. intros a. now rewrite andb_true_r. }
      rewrite E'.
      assert (Hex : ORM.code_exists db short_code = false).
      { destruct (ORM.code_exists db short_code) eqn:Hex; [|reflexivity].
        apply code_exists_iff in Hex as (x & Hx & Hcx).
        assert (Hf : In x (List.filter
                   (fun u => String.eqb (URL.short_code u) short_code) (urls db))).
        { apply filter_In. split; [exact Hx|]. now apply String.eqb_eq. }
        rewrite E' in Hf. destruct Hf. }
      rewrite Hex. split; split; congruence.
    + assert (E' : List.filter (fun u => String.eqb (URL.short_code u) short_code)
                               (urls db) = [u]).
      { rewrite <- E. apply filter_ext. intros a. now rewrite andb_true_r. }
      rewrite E'.
      assert (Hex : ORM.code_exists db short_code = true)
        by (apply code_exists_iff; eauto).
      rewrite Hex, bool_decide_eq_true_2 by (now apply Hstranger).
      split; split; congruence.
Qed.

Lemma stranger_gets_404_but_qr_tells_witness :
  Manage.owner_gate (mkManage (Some 7%N) "GET") "abc123" Sample.db0 = inl NotFound
  /\ Manage.generate_qr_code_view "https://sho.rt" (mkManage (Some 7%N) "GET")
       "abc123" Sample.db0 = Forbidden.
Proof.
  destruct (stranger_gets_404_but_qr_tells "https://sho.rt"
              (mkManage (Some 7%N) "GET") "abc123" Sample.db0 7%N)
    as (H1 & H2 & _).
  - reflexivity.
  - unfold unique_codes. simpl. repeat constructor. inversion 1.
  - intros u [<-|[]] _. discriminate.
  - split; [exact H1|]. apply H2. reflexivity.
Defined.

(** X14.  DELETE on the API detail view never removes a link.  Whoever
    asks and whatever the code, the tables after the request are the
    tables before it: for the owner of the link the view fails on
    [instance.log_activity], which [URL] does not define, before it
    reaches [instance.delete()]. *)
Theorem api_destroy_never_deletes request short_code db :
  let r := Api.destroy request short_code db in
  r.1 = db
  /\ (forall uid instance,
        user request = Some uid ->
        ORM.get (Manage.owned_with_code uid short_code) (urls db)
        = ORM.Found instance ->
        r.2 = ServerError "AttributeError" /\ In instance (urls r.1)).
Proof.
  intros r. subst r. unfold Api.destroy. split.
  - destruct (user request) as [uid|]; [|reflexivity].
    now destruct (ORM.get _ _).
  - intros uid instance Hu Hg. rewrite Hu, Hg. simpl.
    split; [reflexivity|]. now apply get_Found in Hg.
Qed.

(** ** The analytics page and the statistics endpoint *)

Section Chart.

Let loop (ds : list Z) : list (Z * nat) :=
  fold_left (fun acc d => Analytics.bump d acc) ds [].

Lemma bump_present (f : Z -> nat) keys d :
  NoDup keys -> d ∈ keys ->
  Analytics.bump d (map (fun x => (x, f x)) keys)
  = map (fun x => (x, if decide (x = d) then S (f x) else f x)) keys.
Proof.
  induction keys as [|k keys IH]; intros Hnd Hin; [inversion Hin|].
  apply NoDup_cons in Hnd as [Hk Hnd]. cbn [map Analytics.bump].
  destruct (Z.eqb_spec k d) as [->|Hne].
  - rewrite decide_True by reflexivity. f_equal.
    apply map_ext_in. intros x Hx. rewrite decide_False; [reflexivity|].
    intros ->. apply Hk. now apply list_elem_of_In.
  - rewrite decide_False by exact Hne. f_equal. apply IH; [exact Hnd|].
    apply elem_of_cons in Hin as [E|Hin]; [congruence|exact Hin].
Qed.

Lemma bump_absent (f : Z -> nat) keys d :
  d ∉ keys ->
  Analytics.bump d (map (fun x => (x, f x)) keys)
  = map (fun x => (x, f x)) keys ++ [(d, 1)].
Proof.
  induction keys as [|k keys IH]; intros Hout; [reflexivity|].
  cbn [map Analytics.bump app].
  destruct (Z.eqb_spec k d) as [->|Hne].
  - exfalso. apply Hout. now left.
  - f_equal. apply IH. intros Hin. apply Hout. now right.
Qed.

Lemma count_of_snoc (ds : list Z) d x :
  Stats.count_of (ds ++ [d]) x
  = Stats.count_of ds x + (if decide (x = d) then 1 else 0).
Proof.
  unfold Stats.count_of. rewrite count_occ_app. f_equal.
  cbn [count_occ]. unfold decide_rel, decide.
  destruct (Z.eq_dec d x) as [E1|E1], (Z.eq_dec x d) as [E2|E2];
    congruence.
Qed.

(** The dictionary after the loop: one item for each date met, in the
    order in which the dates were first met, with the number of times
    the date was met. *)
Lemma loop_items ds :
  exists keys,
    loop ds = map (fun x => (x, Stats.count_of ds x)) keys
    /\ NoDup keys
    /\ (forall x, x ∈ keys <-> x ∈ ds)
    /\ (StronglySorted Z.le ds -> StronglySorted Z.lt keys).
Proof.
  induction ds as [|d ds IH] using rev_ind.
  - exists []. repeat split; try constructor; intros H; inversion H.
  - destruct IH as (keys & Hloop & Hnd & Hmem & Hsorted).
    unfold loop in *. rewrite fold_left_app. cbn [fold_left]. rewrite Hloop.
    destruct (decide (d ∈ keys)) as [Hin|Hout].
    + exists keys. rewrite (bump_present _ keys d Hnd Hin).
      split; [|split; [exact Hnd|split]].
      * apply map_ext. intros x. rewrite count_of_snoc.
        destruct (decide (x = d)); f_equal; lia.
      * intros x. rewrite elem_of_app, list_elem_of_singleton, Hmem.
        split; [tauto|]. intros [H|E]; [exact H|]. rewrite E. now apply Hmem.
      * intros Hs. apply StronglySorted_app_1_l in Hs. auto.
    + exists (keys ++ [d]). rewrite (bump_absent _ keys d Hout).
      split; [|split; [|split]].
      * rewrite map_app. cbn [map]. f_equal.
        -- apply map_ext_in. intros x Hx. rewrite count_of_snoc.
           rewrite decide_False; [f_equal; lia|]. intros ->. apply Hout.
           now apply list_elem_of_In.
        -- rewrite count_of_snoc, decide_True by reflexivity.
           assert (Hz : Stats.count_of ds d = 0).
           { apply count_occ_not_In. rewrite <- list_elem_of_In, <- Hmem.
             exact Hout. }
           now rewrite Hz.
      * apply NoDup_app. split; [exact Hnd|]. split.
        -- intros x Hx Hd. apply list_elem_of_singleton in Hd. congruence.
        -- apply NoDup_singleton.
      * intros x. rewrite !elem_of_app, !list_elem_of_singleton, Hmem. tauto.
      * intros Hs. apply StronglySorted_app in Hs as (Hle & Hs & _).
        apply StronglySorted_app_2; [|auto|repeat constructor].
        intros x1 x2 Hx1 Hx2. apply list_elem_of_singleton in Hx2 as ->.
        assert (x1 <> d) by (intros ->; contradiction).
        assert ((x1 <= d)%Z).
        { apply Hle; [now apply Hmem|]. now apply list_elem_of_singleton. }
        lia.
Qed.

Lemma loop_of_sorted ds :
  StronglySorted Z.le ds ->
  loop ds
  = map (fun d => (d, Stats.count_of ds d)) (merge_sort Z.le (remove_dups ds)).
Proof.
  intros Hs. destruct (loop_items ds) as (keys & -> & Hnd & Hmem & Hsorted).
  f_equal. apply (StronglySorted_unique Z.le).
  - specialize (Hsorted Hs). clear -Hsorted.
    induction Hsorted as [|x l Hl IH Hx]; constructor; [exact IH|].
    eapply Forall_impl; [exact Hx|]. intros y. simpl. lia.
  - apply (StronglySorted_merge_sort Z.le).
  - rewrite merge_sort_Permutation. apply NoDup_Permutation;
      [exact Hnd|apply NoDup_remove_dups|].
    intros x. now rewrite Hmem, elem_of_remove_dups.
Qed.

Lemma fold_left_dates (cs : list Click.t) acc :
  fold_left (fun acc c => Analytics.bump (Stats.date_of (Click.clicked_at c)) acc)
            cs acc
  = fold_left (fun acc d => Analytics.bump d acc)
              (map (fun c => Stats.date_of (Click.clicked_at c)) cs) acc.
Proof. revert acc. induction cs as [|c cs IH]; intros acc; simpl; auto. Qed.

Lemma recent_clicks_sorted env url db :
  StronglySorted Z.le
    (map (fun c => Stats.date_of (Click.clicked_at c))
         (Analytics.recent_clicks env url db)).
Proof.
  unfold Analytics.recent_clicks.
  assert (HT : Transitive Analytics.earlier)
    by (intros x y z; unfold Analytics.earlier; lia).
  assert (Htot : Total Analytics.earlier)
    by (intros x y; unfold Analytics.earlier; lia).
  apply (StronglySorted_fmap _ Analytics.earlier Z.le).
  - intros x y Hxy. unfold Stats.date_of. apply Z.div_le_mono; [lia|exact Hxy].
  - apply (StronglySorted_merge_sort Analytics.earlier).
Qed.

End Chart.

(** X15.  The chart of the analytics page is the by-date table of the
    statistics endpoint taken over the clicks of the last thirty days:
    the dictionary the loop of [url_analytics] builds has the same
    dates, in the same (ascending) order, with the same counts, as the
    GROUP BY of [url_stats] has on those clicks. *)
Theorem analytics_chart_is_by_date_of_window env url db :
  Analytics.click_dates env url db
  = Stats.by_date (Analytics.recent_clicks env url db).
Proof.
  unfold Analytics.click_dates, Stats.by_date.
  rewrite fold_left_dates. apply loop_of_sorted, recent_clicks_sorted.
Qed.

Section Sums.

Context {A : Type} `{EqDecision A}.

Lemma indicator_sum (keys : list A) x :
  NoDup keys ->
  list_sum (map (fun k => if decide (x = k) then 1 else 0) keys)
  = if decide (x ∈ keys) then 1 else 0.
Proof.
  induction keys as [|k keys IH]; intros Hnd; [reflexivity|].
  apply NoDup_cons in Hnd as [Hk Hnd]. cbn [map list_sum fold_right].
  change (fold_right Nat.add 0 ?l) with (list_sum l). rewrite (IH Hnd).
  destruct (decide (x = k)) as [E|Hne];
    destruct (decide (x ∈ keys)) as [Hin|Hout];
    destruct (decide (x ∈ k :: keys)) as [Hin'|Hout']; trivial.
  - subst. contradiction.
  - subst. contradiction.
  - exfalso. apply Hout'. subst. now left.
  - exfalso. apply Hout'. now right.
  - exfalso. apply elem_of_cons in Hin' as [?|?]; contradiction.
Qed.

(** The counts of distinct keys add up to the number of values that are
    among the keys. *)
Lemma sum_of_counts (values keys : list A) :
  NoDup keys ->
  list_sum (map (Stats.count_of values) keys)
  = length (List.filter (fun x => bool_decide (x ∈ keys)) values).
Proof.
  intros Hnd. induction values as [|x values IH].
  - simpl. induction keys; [reflexivity|]. simpl.
    apply NoDup_cons in Hnd as [_ Hnd]. now rewrite (IHkeys Hnd).
  - cbn [List.filter].
    assert (Hstep : list_sum (map (Stats.count_of (x :: values)) keys)
                    = list_sum (map (Stats.count_of values) keys)
                      + list_sum (map (fun k => if decide (x = k) then 1 else 0)
                                      keys)).
    { clear. unfold Stats.count_of, decide_rel, decide.
      induction keys as [|k keys IHk]; [reflexivity|].
      cbn [map list_sum fold_right].
      change (fold_right Nat.add 0 ?l) with (list_sum l). rewrite IHk.
      cbn [count_occ]. destruct (EqDecision0 x k); lia. }
    rewrite Hstep, IH, (indicator_sum keys x Hnd).
    destruct (decide (x ∈ keys)) as [Hin|Hout].
    + rewrite bool_decide_eq_true_2 by exact Hin. simpl. lia.
    + rewrite bool_decide_eq_false_2 by exact Hout. lia.
Qed.

Lemma length_filter_le (p : A -> bool) (l : list A) :
  length (List.filter p l) <= length l.
Proof. induction l as [|x l IH]; simpl; [lia|]. destruct (p x); simpl; lia. Qed.

Lemma length_filter_all (p : A -> bool) (l : list A) :
  (forall x, In x l -> p x = true) -> length (List.filter p l) = length l.
Proof.
  induction l as [|x l IH]; intros Hall; simpl; [reflexivity|].
  rewrite (Hall x (or_introl eq_refl)). simpl. f_equal. apply IH.
  intros y Hy. apply Hall. now right.
Qed.

Lemma length_remove_dups_le (l : list A) : length (remove_dups l) <= length l.
Proof.
  induction l as [|x l IH]; simpl; [lia|].
  destruct (decide_rel elem_of x l); simpl; lia.
Qed.

End Sums.

Lemma top_counts_bounded n values result :
  most_frequent n values result ->
  list_sum (map snd result) <= length values.
Proof.
  intros (_ & Hnd & _ & Hcount & _).
  assert (E : map snd result = map (Stats.count_of values) (map fst result)).
  { rewrite map_map. apply map_ext_in. intros [v k] Hin. simpl.
    apply list_elem_of_In, Hcount in Hin. tauto. }
  rewrite E, (sum_of_counts values (map fst result) Hnd).
  apply length_filter_le.
Qed.

Lemma sample_stats_response :
  Stats.url_stats Sample.example_link Sample.db_two_referrers
                  Sample.stats_b_before_a.
Proof.
  unfold Stats.url_stats.
  split; [reflexivity|]. split; [vm_compute; reflexivity|].
  split; [vm_compute; reflexivity|]. split.
  - exists [("https://b.test/", 1); ("https://a.test/", 1)].
    split; [|reflexivity]. split; [|repeat constructor].
    replace (Stats.annotate_count _)
      with [("https://a.test/", 1); ("https://b.test/", 1)]
      by (vm_compute; reflexivity).
    apply perm_swap.
  - exists [("curl/8.4.0", 2)].
    split; [|reflexivity]. split; [|repeat constructor].
    replace (Stats.annotate_count _) with [("curl/8.4.0", 2)]
      by (vm_compute; reflexivity).
    reflexivity.
Qed.

(** X16.  The figures of one statistics response fit together: the
    counts of [clicks_by_date] add up to [total_clicks]; the counts of
    the top referrers, and of the top user agents, add up to at most
    [total_clicks]; and [unique_visitors] is at most [total_clicks] and
    is 0 only when there is no click. *)
Theorem url_stats_figures_fit url db response :
  Stats.url_stats url db response ->
  list_sum (map snd (Stats.clicks_by_date response)) = Stats.total_clicks response
  /\ list_sum (map snd (Stats.top_referrers response)) <= Stats.total_clicks response
  /\ list_sum (map snd (Stats.top_user_agents response)) <= Stats.total_clicks response
  /\ Stats.unique_visitors response <= Stats.total_clicks response
  /\ (Stats.unique_visitors response = 0 <-> Stats.total_clicks response = 0).
Proof.
  intros (Htotal & Hunique & Hdate & Hr & Ha).
  set (cs := Stats.clicks_of url db) in *.
  rewrite Htotal, Hunique, Hdate.
  assert (Hne : forall field,
    length (Stats.non_empty field cs) <= length cs).
  { intros field. unfold Stats.non_empty.
    etransitivity; [apply length_filter_le|]. now rewrite length_map. }
  split; [|split; [|split; [|split]]].
  - unfold Stats.by_date.
    set (dates := map (fun c => Stats.date_of (Click.clicked_at c)) cs).
    rewrite map_map. cbn [snd].
    change (map (fun x => Stats.count_of dates x) ?l)
      with (map (Stats.count_of dates) l).
    rewrite sum_of_counts.
    + rewrite length_filter_all; [unfold dates; apply length_map|].
      intros x Hx. apply bool_decide_eq_true_2.
      rewrite merge_sort_Permutation, elem_of_remove_dups.
      now apply list_elem_of_In.
    + rewrite merge_sort_Permutation. apply NoDup_remove_dups.
  - apply top_by_count_most_frequent, top_counts_bounded in Hr.
    specialize (Hne Click.referrer). lia.
  - apply top_by_count_most_frequent, top_counts_bounded in Ha.
    specialize (Hne Click.user_agent). lia.
  - unfold Stats.distinct_count.
    etransitivity; [apply length_remove_dups_le|]. now rewrite length_map.
  - unfold Stats.distinct_count. destruct cs as [|c cs']; [easy|].
    cbn [map remove_dups length]. split; [|discriminate].
    destruct (decide_rel elem_of _ _) as [Hin|Hout]; [|discriminate].
    intros Hz. apply length_zero_iff_nil in Hz.
    apply elem_of_remove_dups in Hin. rewrite Hz in Hin. inversion Hin.
Qed.

Lemma url_stats_figures_fit_witness :
  list_sum (map snd (Stats.clicks_by_date Sample.stats_b_before_a))
  = Stats.total_clicks Sample.stats_b_before_a
  /\ list_sum (map snd (Stats.top_referrers Sample.stats_b_before_a))
     <= Stats.total_clicks Sample.stats_b_before_a.
Proof.
  destruct (url_stats_figures_fit Sample.example_link Sample.db_two_referrers
              Sample.stats_b_before_a sample_stats_response)
    as (H1 & H2 & _).
  exact (conj H1 H2).
Defined.

(** ** The user-agent parser *)

Section LowerCase.

Lemma lower_char_idempotent c : PyStr.lower_char (PyStr.lower_char c) = PyStr.lower_char c.
Proof.
  destruct c as [[] [] [] [] [] [] [] []]; vm_compute; reflexivity.
Qed.

Lemma lower_idempotent s : PyStr.lower (PyStr.lower s) = PyStr.lower s.
Proof.
  induction s as [|c s IH]; simpl; [reflexivity|].
  now rewrite lower_char_idempotent, IH.
Qed.

Lemma truthy_lower s : PyStr.truthy (PyStr.lower s) = PyStr.truthy s.
Proof. now destruct s. Qed.

Lemma get_user_agent_info_by_lower a b :
  PyStr.lower a = PyStr.lower b ->
  Utils.get_user_agent_info a = Utils.get_user_agent_info b.
Proof.
  intros E. unfold Utils.get_user_agent_info.
  rewrite <- (truthy_lower a), <- (truthy_lower b), E. reflexivity.
Qed.

Lemma prefix_lower n s :
  String.prefix n s = true -> String.prefix (PyStr.lower n) (PyStr.lower s) = true.
Proof.
  revert s. induction n as [|a n IH]; intros s H; [now destruct s|].
  destruct s as [|b s]; [discriminate|]. simpl in *.
  destruct (ascii_dec a b) as [->|]; [|discriminate].
  destruct (ascii_dec (PyStr.lower_char b) (PyStr.lower_char b)); [|congruence].
  now apply IH.
Qed.

Lemma contains_lower n s :
  PyStr.contains n s = true ->
  PyStr.contains (PyStr.lower n) (PyStr.lower s) = true.
Proof.
  induction s as [|b s IH]; intros H.
  - cbn [PyStr.contains] in H. rewrite orb_false_r in H.
    apply prefix_lower in H. cbn [PyStr.contains PyStr.lower] in *.
    now rewrite H.
  - cbn [PyStr.contains] in H. apply orb_true_iff in H as [H|H].
    + apply prefix_lower in H. cbn [PyStr.contains]. cbn [PyStr.lower] in *.
      cbn [PyStr.contains]. now rewrite H.
    + cbn [PyStr.lower PyStr.contains]. rewrite (IH H). apply orb_true_r.
Qed.

End LowerCase.

(** X17.  [get_user_agent_info] does not look at the case of the
    letters: two strings with the same lower-case form get the same
    three values, and a string gets the values of its lower-case
    form. *)
Theorem get_user_agent_info_ignores_case (a b : string) :
  (PyStr.lower a = PyStr.lower b ->
   Utils.get_user_agent_info a = Utils.get_user_agent_info b)
  /\ Utils.get_user_agent_info (PyStr.lower a) = Utils.get_user_agent_info a.
Proof.
  split; [apply get_user_agent_info_by_lower|].
  apply get_user_agent_info_by_lower, lower_idempotent.
Qed.

(** X18.  The device type the recorder stores and the one the parser
    derives.  A user agent the recorder files as 'Mobile' is 'mobile'
    for [get_user_agent_info]; one it files as 'Tablet' is 'tablet' or
    'mobile' there.  The converse fails: the recorder's rules are
    case-sensitive, and "mobile safari" is 'Desktop' for it. *)
Theorem recorder_device_agrees_with_parser (ua : string) :
  (ClickRecorder.device_type_of ua = "Mobile" ->
   Utils.device_type (Utils.get_user_agent_info ua) = Some "mobile")
  /\ (ClickRecorder.device_type_of ua = "Tablet" ->
      Utils.device_type (Utils.get_user_agent_info ua) = Some "tablet"
      \/ Utils.device_type (Utils.get_user_agent_info ua) = Some "mobile")
  /\ (ClickRecorder.device_type_of "mobile safari" = "Desktop"
      /\ Utils.device_type (Utils.get_user_agent_info "mobile safari")
         = Some "mobile").
Proof.
  assert (Hne : forall n, n <> "" -> PyStr.contains n ua = true ->
                          PyStr.truthy ua = true).
  { intros n Hn H. destruct ua; [|reflexivity].
    destruct n; [congruence|discriminate]. }
  unfold ClickRecorder.device_type_of, Utils.get_user_agent_info.
  split; [|split; [|split; reflexivity]].
  - destruct (PyStr.contains "Mobile" ua) eqn:Hm.
    + intros _. rewrite (Hne "Mobile" ltac:(discriminate) Hm). cbn [negb].
      apply contains_lower in Hm. change (PyStr.lower "Mobile") with "mobile" in Hm.
      cbn [Utils.device_type]. now rewrite Hm.
    + destruct (PyStr.contains "Tablet" ua || PyStr.contains "iPad" ua);
        discriminate.
  - destruct (PyStr.contains "Mobile" ua) eqn:Hm; [discriminate|].
    destruct (PyStr.contains "Tablet" ua) eqn:Ht;
      [|destruct (PyStr.contains "iPad" ua) eqn:Hi; [|discriminate]];
      intros _; cbn [orb].
    + rewrite (Hne "Tablet" ltac:(discriminate) Ht). cbn [negb Utils.device_type].
      apply contains_lower in Ht. change (PyStr.lower "Tablet") with "tablet" in Ht.
      rewrite Ht. destruct (PyStr.contains "mobile" (PyStr.lower ua)); auto.
    + rewrite (Hne "iPad" ltac:(discriminate) Hi). cbn [negb Utils.device_type].
      apply contains_lower in Hi. change (PyStr.lower "iPad") with "ipad" in Hi.
      rewrite Hi, orb_true_r.
      destruct (PyStr.contains "mobile" (PyStr.lower ua)); auto.
Qed.

(** ** The validator of the serializer *)

Section Validator.

Lemma all_impl (p q : ascii -> bool) s :
  (forall c, p c = true -> q c = true) ->
  PyStr.all p s = true -> PyStr.all q s = true.
Proof.
  intros Hpq. induction s as [|c s IH]; simpl; [reflexivity|].
  intros H. apply andb_prop in H as [Hc Hs]. now rewrite (Hpq c Hc), IH.
Qed.

End Validator.

(** X19.  What [validate_short_code] lets through: the empty string,
    the strings that are alphanumeric throughout, and the strings made
    of hyphens and underscores only.  A code that mixes the two kinds,
    which the form's [clean_custom_short_code] accepts when it is free,
    is rejected, with the message that allows hyphens. *)
Theorem validate_short_code_rejects_mixed_codes (value : string) :
  (Serializers.validate_short_code value = Valid value
   <-> value = ""
       \/ PyStr.all PyStr.isalnum value = true
       \/ PyStr.all Serializers.dash_char value = true)
  /\ (Serializers.validate_short_code value = Valid value ->
      PyStr.all URLForm.code_char value = true)
  /\ (forall db,
        PyStr.all URLForm.code_char value = true ->
        PyStr.all PyStr.isalnum value = false ->
        PyStr.all Serializers.dash_char value = false ->
        ORM.code_exists db value = false ->
        URLForm.clean_custom_short_code db value = Valid (Some value)
        /\ Serializers.validate_short_code value
           = ValidationError
               "Short code can only contain letters, numbers, hyphens, and underscores.").
Proof.
  unfold Serializers.validate_short_code, Serializers.str_isalnum.
  assert (Hcc1 : PyStr.all PyStr.isalnum value = true ->
                 PyStr.all URLForm.code_char value = true).
  { apply all_impl. intros c Hc. unfold URLForm.code_char. now rewrite Hc. }
  assert (Hcc2 : PyStr.all Serializers.dash_char value = true ->
                 PyStr.all URLForm.code_char value = true).
  { apply all_impl. intros c. unfold URLForm.code_char, Serializers.dash_char.
    rewrite <- orb_assoc. intros ->. apply orb_true_r. }
  destruct value as [|a v]; [repeat split; auto; discriminate|].
  cbn [PyStr.truthy andb].
  destruct (PyStr.all PyStr.isalnum (String a v)) eqn:Ha;
    destruct (PyStr.all Serializers.dash_char (String a v)) eqn:Hd;
    cbn [negb andb].
  - repeat split; auto; discriminate.
  - repeat split; auto; discriminate.
  - repeat split; auto; discriminate.
  - split; [|split].
    + split; [discriminate|]. intros [H|[H|H]]; discriminate.
    + discriminate.
    + intros db Hc _ _ Hfree. unfold URLForm.clean_custom_short_code.
      cbn [PyStr.truthy negb]. rewrite Hc, Hfree. split; reflexivity.
Qed.

Example validate_short_code_example :
  Serializers.validate_short_code "my-code"
  = ValidationError
      "Short code can only contain letters, numbers, hyphens, and underscores."
  /\ URLForm.clean_custom_short_code Sample.db0 "my-code" = Valid (Some "my-code")
  /\ Serializers.validate_short_code "---" = Valid "---".
Proof. vm_compute. repeat split. Qed.

(** ** Ordered querysets, the class methods and the dashboard *)

Section Ordered.

Context {A : Type}.
Variable key : A -> Z.

(** The database has an answer to [order_by('-<key>')]. *)
Lemma ordered_desc_exists (rows : list A) :
  exists ordered, ordered_desc key rows ordered.
Proof.
  set (R := fun a b : A => (key b <= key a)%Z).
  assert (HT : Transitive R) by (intros x y z; unfold R; lia).
  assert (Htot : Total R) by (intros x y; unfold R; lia).
  assert (Hdec : forall x y, Decision (R x y))
    by (intros x y; unfold R; apply _).
  exists (merge_sort R rows). split.
  - symmetry. apply merge_sort_Permutation.
  - apply (StronglySorted_merge_sort R).
Qed.

Lemma ordered_desc_In rows ordered x :
  ordered_desc key rows ordered -> (In x ordered <-> In x rows).
Proof.
  intros [Hp _]. split; intros H.
  - apply (Permutation_in x (Permutation_sym Hp) H).
  - apply (Permutation_in x Hp H).
Qed.

Lemma ordered_desc_length rows ordered :
  ordered_desc key rows ordered -> length ordered = length rows.
Proof. intros [Hp _]. symmetry. apply (Permutation_length Hp). Qed.

(** Once sorted, every row of a front part is above every row behind it. *)
Lemma sorted_take_drop n (l : list A) x y :
  StronglySorted (fun a b => (key b <= key a)%Z) l ->
  In x (take n l) -> In y (drop n l) -> (key y <= key x)%Z.
Proof.
  intros Hs Hx Hy. rewrite <- (take_drop n l) in Hs.
  apply (StronglySorted_app_1_elem_of _ _ _ x y Hs); now apply list_elem_of_In.
Qed.

Lemma In_take n (l : list A) x : In x (take n l) -> In x l.
Proof.
  intros H. rewrite <- (take_drop n l). apply in_or_app. now left.
Qed.

Lemma sorted_take n (l : list A) :
  StronglySorted (fun a b => (key b <= key a)%Z) l ->
  StronglySorted (fun a b => (key b <= key a)%Z) (take n l).
Proof.
  intros Hs. rewrite <- (take_drop n l) in Hs.
  now apply StronglySorted_app_1_l in Hs.
Qed.

End Ordered.

(** X20.  [URL.get_top_urls(limit)] has an answer, and every answer has
    [limit] links, or all the active ones when there are fewer; holds
    rows of the table that are active, by descending counter; and
    leaves out no active link with more clicks than one it holds. *)
Theorem get_top_urls_are_the_most_clicked (limit : nat) (db : DB) :
  (exists result, URLQueries.get_top_urls limit db result)
  /\ forall result,
       URLQueries.get_top_urls limit db result ->
       length result = Nat.min limit (length (List.filter URL.is_active (urls db)))
       /\ (forall u, In u result -> In u (urls db) /\ URL.is_active u = true)
       /\ StronglySorted
            (fun a b => (URL.click_count b <= URL.click_count a)%N) result
       /\ (forall u v,
             In u result -> In v (urls db) -> URL.is_active v = true ->
             ~ In v result ->
             (URL.click_count v <= URL.click_count u)%N).
Proof.
  split.
  - destruct (ordered_desc_exists (fun u => Z.of_N (URL.click_count u))
                (List.filter URL.is_active (urls db))) as [ordered Ho].
    exists (take limit ordered), ordered. now split.
  - intros result (ordered & Ho & ->).
    split; [|split; [|split]].
    + rewrite length_take, (ordered_desc_length _ _ _ Ho). lia.
    + intros u Hu. apply In_take in Hu.
      apply (ordered_desc_In _ _ _ _ Ho), filter_In in Hu. exact Hu.
    + destruct Ho as [_ Hs].
      apply (sorted_take _ limit) in Hs.
      induction Hs as [|a l Hs IH Hall]; constructor; [exact IH|].
      eapply Forall_impl; [exact Hall|]. simpl. intros b Hb. lia.
    + intros u v Hu Hv Hact Hnot.
      assert (Hin : In v ordered).
      { apply (ordered_desc_In _ _ _ _ Ho), filter_In. now split. }
      rewrite <- (take_drop limit ordered) in Hin.
      apply in_app_or in Hin as [Hin|Hin]; [contradiction|].
      destruct Ho as [_ Hs].
      pose proof (sorted_take_drop _ limit ordered u v Hs Hu Hin) as Hk.
      cbv beta in Hk. lia.
Qed.

Section Cutoff.

Variables (env : Env) (days : Z).

Lemma cutoff_date_Some c :
  URLQueries.cutoff_date env days = Some c
  <-> ((Z.abs days <= 999999999)%Z
       /\ (URLQueries.datetime_min <= now env - days * 86400
           <= URLQueries.datetime_max)%Z)
      /\ c = (now env - days * 86400)%Z.
Proof.
  unfold URLQueries.cutoff_date, URLQueries.timedelta_days.
  destruct (Z.leb_spec (Z.abs days) 999999999);
    [|split; [discriminate|intros [[? _] _]; lia]].
  destruct (Z.leb_spec URLQueries.datetime_min (now env - days * 86400));
    destruct (Z.leb_spec (now env - days * 86400) URLQueries.datetime_max);
    cbn [andb]; split;
    try discriminate; try (intros [[_ ?] _]; lia).
  - intros E. injection E as <-. auto.
  - intros [_ ->]. reflexivity.
Qed.

Lemma cutoff_date_None :
  URLQueries.cutoff_date env days = None
  <-> ~ ((Z.abs days <= 999999999)%Z
       /\ (URLQueries.datetime_min <= now env - days * 86400
           <= URLQueries.datetime_max)%Z).
Proof.
  destruct (URLQueries.cutoff_date env days) as [c|] eqn:E.
  - apply cutoff_date_Some in E as [Hr _]. split; [discriminate|tauto].
  - split; [|reflexivity]. intros _ Hr.
    assert (H : URLQueries.cutoff_date env days
                = Some (now env - days * 86400)%Z)
      by (apply cutoff_date_Some; auto).
    congruence.
Qed.

End Cutoff.

(** X21.  [URL.get_recent_urls(days)], for a whole number of days.  It
    raises OverflowError exactly when [days] is beyond 999999999 either
    way or the cutoff, [days] days before now, is no date of the years 1
    to 9999.  Otherwise it has an answer; an answer holds exactly the
    active links created at or after the cutoff, newest first, and a
    longer window that has an answer loses none of them. *)
Theorem get_recent_urls_window (env : Env) (days : Z) (db : DB) :
  (exists result, URLQueries.get_recent_urls env days db result)
  /\ (URLQueries.get_recent_urls env days db None
      <-> ~ ((Z.abs days <= 999999999)%Z
             /\ (URLQueries.datetime_min <= now env - days * 86400
                 <= URLQueries.datetime_max)%Z))
  /\ forall rows,
       URLQueries.get_recent_urls env days db (Some rows) ->
       ((Z.abs days <= 999999999)%Z
        /\ (URLQueries.datetime_min <= now env - days * 86400
            <= URLQueries.datetime_max)%Z)
       /\ (forall u, In u rows
                     <-> In u (urls db) /\ URL.is_active u = true
                         /\ (now env - days * 86400 <= URL.created_at u)%Z)
       /\ StronglySorted
            (fun a b => (URL.created_at b <= URL.created_at a)%Z) rows
       /\ (forall more wider,
             (days <= more)%Z ->
             URLQueries.get_recent_urls env more db (Some wider) ->
             length rows <= length wider
             /\ forall u, In u rows -> In u wider).
Proof.
  assert (Hrows : forall d rows,
            URLQueries.get_recent_urls env d db (Some rows) ->
            ((Z.abs d <= 999999999)%Z
             /\ (URLQueries.datetime_min <= now env - d * 86400
                 <= URLQueries.datetime_max)%Z)
            /\ ordered_desc URL.created_at
                 (List.filter (fun u => (now env - d * 86400 <=? URL.created_at u)%Z
                                        && URL.is_active u) (urls db))
                 rows).
  { intros d rows H. unfold URLQueries.get_recent_urls in H.
    destruct (URLQueries.cutoff_date env d) as [c|] eqn:E; [|discriminate].
    apply cutoff_date_Some in E as [Hr ->].
    destruct H as (rows' & Hrows' & Ho). injection Hrows' as ->. auto. }
  split; [|split].
  - unfold URLQueries.get_recent_urls.
    destruct (URLQueries.cutoff_date env days) as [c|]; [|now exists None].
    destruct (ordered_desc_exists URL.created_at
                (List.filter (fun u => (c <=? URL.created_at u)%Z
                                       && URL.is_active u) (urls db)))
      as [rows Ho].
    exists (Some rows), rows. auto.
  - rewrite <- (cutoff_date_None env days). unfold URLQueries.get_recent_urls.
    destruct (URLQueries.cutoff_date env days) as [c|].
    + split; [intros (rows & H & _); discriminate|discriminate].
    + split; reflexivity.
  - intros rows H. apply Hrows in H as [Hrange Ho].
    split; [exact Hrange|].
    assert (Hmem : forall d r u,
               ordered_desc URL.created_at
                 (List.filter (fun u => (now env - d * 86400 <=? URL.created_at u)%Z
                                        && URL.is_active u) (urls db)) r ->
               In u r <-> In u (urls db) /\ URL.is_active u = true
                          /\ (now env - d * 86400 <= URL.created_at u)%Z).
    { intros d r u Hd. rewrite (ordered_desc_In _ _ _ u Hd), filter_In.
      rewrite andb_true_iff, Z.leb_le. tauto. }
    split; [intros u; now apply Hmem|].
    split; [apply Ho|].
    intros more wider Hle Hw. apply Hrows in Hw as [_ Hw]. split.
    + rewrite (ordered_desc_length _ _ _ Ho), (ordered_desc_length _ _ _ Hw).
      clear Hmem Ho Hw Hrows Hrange.
      induction (urls db) as [|u l IH]; [reflexivity|]. cbn [List.filter].
      destruct (URL.is_active u); rewrite ?andb_false_r; [|exact IH].
      rewrite !andb_true_r.
      destruct (Z.leb_spec (now env - days * 86400) (URL.created_at u));
        destruct (Z.leb_spec (now env - more * 86400) (URL.created_at u));
        cbn [length]; lia.
    + intros u Hu. apply (Hmem _ _ _ Ho) in Hu as (Hin & Hact & Hc).
      apply (Hmem _ _ _ Hw). split; [exact Hin|]. split; [exact Hact|]. lia.
Qed.

Example get_recent_urls_overflow :
  URLQueries.get_recent_urls (Sample.env_at 50) 740000 Sample.db0 None
  /\ exists rows, URLQueries.get_recent_urls (Sample.env_at 50) 7 Sample.db0
                    (Some rows).
Proof.
  split; [reflexivity|]. exists [Sample.example_link], [Sample.example_link].
  split; [reflexivity|]. split; [reflexivity|]. repeat constructor.
Qed.

Section DashboardFacts.

Lemma existsb_id_false x (us : list URL.t) :
  ~ In x (map URL.id us) ->
  existsb (fun u => N.eqb x (URL.id u)) us = false.
Proof.
  induction us as [|u us IH]; intros H; [reflexivity|]. simpl in *.
  destruct (N.eqb_spec x (URL.id u)) as [->|_]; [tauto|]. apply IH. tauto.
Qed.

(** The clicks on a set of links with distinct keys: link by link. *)
Lemma clicks_on_sum (us : list URL.t) (db : DB) :
  NoDup (map URL.id us) ->
  length (Dashboard.clicks_on us db)
  = list_sum (map (fun u => length (Stats.clicks_of u db)) us).
Proof.
  unfold Dashboard.clicks_on, Stats.clicks_of.
  induction us as [|u us IH]; intros Hnd.
  - cbn [existsb map list_sum fold_right]. induction (clicks db); auto.
  - apply NoDup_cons in Hnd as [Hu Hnd]. specialize (IH Hnd).
    cbn [map list_sum fold_right].
    change (fold_right Nat.add 0 ?l) with (list_sum l). rewrite <- IH.
    clear IH. induction (clicks db) as [|c cs IHc]; [reflexivity|].
    cbn [List.filter].
    replace (existsb (fun v => N.eqb (Click.url c) (URL.id v)) (u :: us))
      with (N.eqb (Click.url c) (URL.id u)
            || existsb (fun v => N.eqb (Click.url c) (URL.id v)) us)
      by reflexivity.
    destruct (N.eqb_spec (Click.url c) (URL.id u)) as [E|_]; cbn [orb].
    + assert (Hno : existsb (fun v => N.eqb (Click.url c) (URL.id v)) us = false)
        by (rewrite E; apply existsb_id_false;
            rewrite <- list_elem_of_In; exact Hu).
      rewrite Hno. cbn [length]. rewrite IHc. lia.
    + destruct (existsb _ us); cbn [length]; rewrite IHc; lia.
Qed.

Lemma sum_click_count_consistent (us : list URL.t) (db : DB) :
  (forall u, In u us ->
             URL.click_count u = N.of_nat (length (Stats.clicks_of u db))) ->
  Dashboard.sum_click_count us
  = N.of_nat (list_sum (map (fun u => length (Stats.clicks_of u db)) us)).
Proof.
  induction us as [|u us IH]; intros H; [reflexivity|].
  cbn [Dashboard.sum_click_count fold_right map list_sum].
  change (fold_right Nat.add 0 ?l) with (list_sum l).
  change (fold_right _ 0%N us) with (Dashboard.sum_click_count us).
  rewrite IH by (intros v Hv; apply H; now right).
  rewrite (H u) by now left. lia.
Qed.

Lemma existsb_Permutation {B : Type} (p : B -> bool) (l l' : list B) :
  l ≡ₚ l' -> existsb p l = existsb p l'.
Proof.
  induction 1; simpl; try congruence.
  - now rewrite !orb_assoc, (orb_comm (p y)).
Qed.

Lemma clicks_on_Permutation (us us' : list URL.t) (db : DB) :
  us ≡ₚ us' -> Dashboard.clicks_on us db = Dashboard.clicks_on us' db.
Proof.
  intros Hp. unfold Dashboard.clicks_on. apply filter_ext.
  intros c. now apply existsb_Permutation.
Qed.

Lemma user_urls_In uid db u :
  In u (Dashboard.user_urls uid db)
  <-> In u (urls db) /\ URL.created_by u = Some uid.
Proof.
  unfold Dashboard.user_urls. rewrite filter_In, bool_decide_eq_true. tauto.
Qed.

Lemma NoDup_map_filter {B C : Type} (f : B -> C) (p : B -> bool) (l : list B) :
  NoDup (map f l) -> NoDup (map f (List.filter p l)).
Proof.
  induction l as [|x l IH]; intros H; [constructor|].
  simpl in H. apply NoDup_cons in H as [Hx Hl]. cbn [List.filter].
  destruct (p x); [|now apply IH]. simpl. apply NoDup_cons. split; [|now apply IH].
  intros Hin. apply Hx. apply list_elem_of_In in Hin. apply list_elem_of_In.
  apply in_map_iff in Hin as (y & Hy & Hin). apply in_map_iff.
  exists y. split; [exact Hy|]. now apply filter_In in Hin as [Hin _].
Qed.

End DashboardFacts.

(** X22.  The dashboard.  A signed-in user gets the page, an anonymous
    visitor is sent to the login page.  On the page, the links shown are
    at most five links of the user, the clicks shown at most ten clicks
    on links of the user, and [total_urls] is the number of the user's
    links.  When keys are unique and every counter is the number of its
    link's click rows, [total_clicks] is the number of click rows on the
    user's links, and the clicks shown are ten of them, or all when
    there are fewer. *)
Theorem dashboard_totals (request : ManageRequest) (db : DB) :
  (user request = None ->
   forall result context,
     Dashboard.dashboard request db result context ->
     result = RedirectToLogin /\ context = None)
  /\ forall uid,
       user request = Some uid ->
       (exists context,
          Dashboard.dashboard request db
            (Page "shortener/dashboard.html") (Some context))
       /\ forall result context,
            Dashboard.dashboard request db result context ->
            exists page,
              result = Page "shortener/dashboard.html"
              /\ context = Some page
              /\ Dashboard.total_urls page = length (Dashboard.user_urls uid db)
              /\ length (Dashboard.urls_shown page) <= 5
              /\ (forall u, In u (Dashboard.urls_shown page) ->
                            In u (urls db) /\ URL.created_by u = Some uid)
              /\ length (Dashboard.recent_clicks page) <= 10
              /\ (forall c, In c (Dashboard.recent_clicks page) ->
                            In c (clicks db)
                            /\ exists u, In u (urls db)
                                         /\ URL.created_by u = Some uid
                                         /\ Click.url c = URL.id u)
              /\ (unique_ids db -> counters_consistent db ->
                  N.to_nat (Dashboard.total_clicks page)
                  = length (Dashboard.clicks_on (Dashboard.user_urls uid db) db)
                  /\ length (Dashboard.recent_clicks page)
                     = Nat.min 10 (N.to_nat (Dashboard.total_clicks page))).
Proof.
  split.
  - intros Hu result context H. unfold Dashboard.dashboard in H.
    now rewrite Hu in H.
  - intros uid Hu. split.
    + destruct (ordered_desc_exists URL.created_at (Dashboard.user_urls uid db))
        as [us Hus].
      destruct (ordered_desc_exists Click.clicked_at (Dashboard.clicks_on us db))
        as [cs Hcs].
      eexists. unfold Dashboard.dashboard. rewrite Hu.
      exists us, cs. split; [exact Hus|]. split; [exact Hcs|].
      split; reflexivity.
    + intros result context H. unfold Dashboard.dashboard in H.
      rewrite Hu in H. destruct H as (us & cs & Hus & Hcs & -> & ->).
      eexists. split; [reflexivity|]. split; [reflexivity|].
      cbn [Dashboard.total_urls Dashboard.urls_shown Dashboard.recent_clicks
           Dashboard.total_clicks].
      assert (Hown : forall u, In u us ->
                               In u (urls db) /\ URL.created_by u = Some uid).
      { intros u Hin. apply (ordered_desc_In _ _ _ _ Hus) in Hin.
        now apply user_urls_In. }
      split; [apply (ordered_desc_length _ _ _ Hus)|].
      split; [rewrite length_take; lia|].
      split; [intros u Hin; apply Hown; now apply In_take in Hin|].
      split; [rewrite length_take; lia|].
      split.
      * intros c Hin. apply In_take in Hin.
        apply (ordered_desc_In _ _ _ _ Hcs) in Hin.
        unfold Dashboard.clicks_on in Hin. apply filter_In in Hin as [Hc Hex].
        split; [exact Hc|]. apply existsb_exists in Hex as (u & Hin & E).
        apply N.eqb_eq in E. destruct (Hown u Hin) as [H1 H2].
        exists u. auto.
      * intros Hids Hcons.
        assert (Hnd : NoDup (map URL.id us)).
        { destruct Hus as [Hp _].
          change (NoDup (URL.id <$> us)).
          rewrite <- (fmap_Permutation URL.id _ _ Hp).
          now apply NoDup_map_filter. }
        assert (Htot : Dashboard.sum_click_count us
                       = N.of_nat (length (Dashboard.clicks_on us db))).
        { rewrite (clicks_on_sum us db Hnd).
          apply sum_click_count_consistent.
          intros u Hin. apply Hcons. now apply Hown. }
        destruct Hus as [Hp _].
        rewrite <- (clicks_on_Permutation _ _ db (Permutation_sym Hp)) at 1.
        rewrite Htot, Nat2N.id. split; [reflexivity|].
        rewrite length_take, (ordered_desc_length _ _ _ Hcs). lia.
Qed.

(** ** The hashed short code *)

Section Slices.

Lemma length_substring_0 n s :
  String.length (String.substring 0 n s) = Nat.min n (String.length s).
Proof.
  revert s. induction n as [|n IH]; intros [|c s]; simpl; auto.
Qed.

Lemma prefix_substring_0 n s :
  String.prefix (String.substring 0 n s) s = true.
Proof.
  revert s. induction n as [|n IH]; intros [|c s]; simpl; auto.
  destruct (ascii_dec c c); [apply IH|congruence].
Qed.

End Slices.

(** X23.  [utils.generate_short_code]: the code is the beginning of the
    digest, so a [length] above 32 gives 32 characters and not
    [length]; a negative [length] gives the digest without its last
    [-length] characters. *)
Theorem hashed_code_is_a_digest_prefix (md5_hexdigest : string -> string)
    (stamp url : string) (length : Z) :
  (forall s, String.length (md5_hexdigest s) = 32) ->
  let code := HashedCode.generate_short_code md5_hexdigest stamp url length in
  String.prefix code (md5_hexdigest (url +:+ stamp)) = true
  /\ Z.of_nat (String.length code)
     = (if 0 <=? length then Z.min length 32 else Z.max 0 (32 + length))%Z.
Proof.
  intros Hlen code. subst code.
  unfold HashedCode.generate_short_code, HashedCode.slice_to.
  destruct (Z.leb_spec 0 length).
  - split; [apply prefix_substring_0|].
    rewrite length_substring_0, Hlen. lia.
  - split; [apply prefix_substring_0|].
    rewrite length_substring_0, Hlen. lia.
Qed.

Lemma hashed_code_is_a_digest_prefix_witness :
  String.prefix
    (HashedCode.generate_short_code Sample3.md5_stand_in "1.5" "http://a.example" 40)
    (Sample3.md5_stand_in ("http://a.example" +:+ "1.5")) = true
  /\ Z.of_nat (String.length
       (HashedCode.generate_short_code Sample3.md5_stand_in "1.5"
          "http://a.example" 40))
     = (if 0 <=? 40 then Z.min 40 32 else Z.max 0 (32 + 40))%Z.
Proof.
  apply (hashed_code_is_a_digest_prefix Sample3.md5_stand_in "1.5"
           "http://a.example" 40).
  intros s. reflexivity.
Defined.

(** ** The list of a user's links *)

Section UrlListFacts.

Lemma filter_filter_same {B : Type} (p : B -> bool) (l : list B) :
  List.filter p (List.filter p l) = List.filter p l.
Proof.
  induction l as [|x l IH]; [reflexivity|]. cbn [List.filter].
  destruct (p x) eqn:E; [|exact IH]. cbn [List.filter]. now rewrite E, IH.
Qed.

Lemma filter_filter_neg {B : Type} (p : B -> bool) (l : list B) :
  List.filter p (List.filter (fun x => negb (p x)) l) = [].
Proof.
  induction l as [|x l IH]; [reflexivity|]. cbn [List.filter].
  destruct (p x) eqn:E; cbn [negb]; [exact IH|].
  cbn [List.filter]. now rewrite E.
Qed.

End UrlListFacts.

(** X24.  The counters of [url_list].  [active_urls] is counted on the
    list after the status filter: it is [total_urls] under
    [status=active], 0 under [status=inactive], whatever the user has,
    and at most [total_urls] otherwise; [total_urls] is at most the
    number of the user's links.  A status other than the two words, in
    other letters for one, filters nothing. *)
Theorem url_list_counters (search : string -> URL.t -> bool)
    (request : ManageRequest) (q status : string) (db : DB) :
  match UrlList.url_list search request q status db with
  | (result, None) => user request = None /\ result = RedirectTo "account_login"
  | (result, Some c) =>
      exists uid,
        user request = Some uid
        /\ result = Page "shortener/url_list.html"
        /\ UrlList.active_urls c <= UrlList.total_urls c
        /\ UrlList.total_urls c <= length (Dashboard.user_urls uid db)
        /\ (status = "active" -> UrlList.active_urls c = UrlList.total_urls c)
        /\ (status = "inactive" -> UrlList.active_urls c = 0)
        /\ (status <> "active" -> status <> "inactive" ->
            UrlList.url_list search request q status db
            = UrlList.url_list search request q "" db)
  end.
Proof.
  unfold UrlList.url_list. destruct (user request) as [uid|]; [|now split].
  exists uid. split; [reflexivity|]. split; [reflexivity|].
  cbn [UrlList.active_urls UrlList.total_urls].
  split; [apply length_filter_le|].
  assert (Hq : length (if PyStr.truthy q
                       then List.filter (search q) (Dashboard.user_urls uid db)
                       else Dashboard.user_urls uid db)
               <= length (Dashboard.user_urls uid db)).
  { destruct (PyStr.truthy q); [apply length_filter_le|lia]. }
  split; [|split; [|split]].
  - unfold UrlList.filtered.
    destruct (String.eqb status "active");
      [|destruct (String.eqb status "inactive")];
      try (etransitivity; [apply length_filter_le|]); exact Hq.
  - intros ->. unfold UrlList.filtered.
    replace (String.eqb "active" "active") with true by reflexivity.
    now rewrite filter_filter_same.
  - intros ->. unfold UrlList.filtered.
    replace (String.eqb "inactive" "active") with false by reflexivity.
    replace (String.eqb "inactive" "inactive") with true by reflexivity.
    now rewrite filter_filter_neg.
  - intros H1 H2. unfold UrlList.filtered.
    apply String.eqb_neq in H1, H2. rewrite H1, H2. reflexivity.
Qed.

(** ** The user manager *)

Section ManagerFacts.

Lemma setdefault_lookup k v d j :
  UserManager.setdefault k v d !! j
  = if decide (j = k) then Some (default v (d !! k)) else d !! j.
Proof.
  unfold UserManager.setdefault. destruct (d !! k) as [w|] eqn:E.
  - destruct (decide (j = k)) as [->|]; [now rewrite E|reflexivity].
  - destruct (decide (j = k)) as [->|].
    + now rewrite lookup_insert_eq.
    + now rewrite lookup_insert_ne.
Qed.

End ManagerFacts.

(** X25.  [create_superuser] never builds a user whose [is_staff] or
    [is_superuser] is not [True]: the defaults do not replace a value
    the caller gave, and a given value other than [True] is refused, the
    staff flag first, the address last.  [is_active] is not checked: it
    is the caller's value when there is one.  The other keyword
    arguments and the password go through as they are. *)
Theorem create_superuser_flags (normalize_email : string -> string)
    (email password : option string) (extra_fields : gmap string PyVal) :
  match UserManager.create_superuser normalize_email email password extra_fields with
  | UserManager.NewUser e p fields =>
      fields !! "is_staff" = Some (PyBool true)
      /\ fields !! "is_superuser" = Some (PyBool true)
      /\ fields !! "is_active"
         = Some (default (PyBool true) (extra_fields !! "is_active"))
      /\ (forall k, k <> "is_staff" -> k <> "is_superuser" -> k <> "is_active" ->
                    fields !! k = extra_fields !! k)
      /\ (exists address, email = Some address /\ address <> ""
                          /\ e = normalize_email address)
      /\ p = password
      /\ UserManager.is_not_True (Some (default (PyBool true) (extra_fields !! "is_staff"))) = false
      /\ UserManager.is_not_True (Some (default (PyBool true) (extra_fields !! "is_superuser"))) = false
  | UserManager.ValueError message =>
      if UserManager.is_not_True (Some (default (PyBool true) (extra_fields !! "is_staff")))
      then message = "Superuser must have is_staff=True."
      else if UserManager.is_not_True
                (Some (default (PyBool true) (extra_fields !! "is_superuser")))
      then message = "Superuser must have is_superuser=True."
      else message = "The Email must be set" /\ UserManager.falsy email = true
  end.
Proof.
  unfold UserManager.create_superuser.
  set (d1 := UserManager.setdefault "is_staff" (PyBool true) extra_fields).
  set (d2 := UserManager.setdefault "is_superuser" (PyBool true) d1).
  set (d3 := UserManager.setdefault "is_active" (PyBool true) d2).
  assert (Hstaff : d3 !! "is_staff"
                   = Some (default (PyBool true) (extra_fields !! "is_staff"))).
  { subst d3 d2 d1.
    repeat first [rewrite setdefault_lookup
                 | destruct (decide _) as [?|?]; try discriminate; try congruence]. }
  assert (Hsuper : d3 !! "is_superuser"
                   = Some (default (PyBool true) (extra_fields !! "is_superuser"))).
  { subst d3 d2 d1.
    repeat first [rewrite setdefault_lookup
                 | destruct (decide _) as [?|?]; try discriminate; try congruence]. }
  assert (Hactive : d3 !! "is_active"
                    = Some (default (PyBool true) (extra_fields !! "is_active"))).
  { subst d3 d2 d1.
    repeat first [rewrite setdefault_lookup
                 | destruct (decide _) as [?|?]; try discriminate; try congruence]. }
  assert (Hother : forall k, k <> "is_staff" -> k <> "is_superuser" ->
                             k <> "is_active" -> d3 !! k = extra_fields !! k).
  { intros k H1 H2 H3. subst d3 d2 d1.
    now rewrite !setdefault_lookup, !decide_False by assumption. }
  rewrite Hstaff, Hsuper.
  destruct (UserManager.is_not_True
              (Some (default (PyBool true) (extra_fields !! "is_staff")))) eqn:E1;
    [reflexivity|].
  destruct (UserManager.is_not_True
              (Some (default (PyBool true) (extra_fields !! "is_superuser")))) eqn:E2;
    [reflexivity|].
  unfold UserManager.create_user.
  destruct (UserManager.falsy email) eqn:Ef; [now split|].
  assert (H1 : d3 !! "is_staff" = Some (PyBool true)).
  { rewrite Hstaff. unfold UserManager.is_not_True in E1.
    destruct (default (PyBool true) (extra_fields !! "is_staff")) as [|[]| |];
      congruence. }
  assert (H2 : d3 !! "is_superuser" = Some (PyBool true)).
  { rewrite Hsuper. unfold UserManager.is_not_True in E2.
    destruct (default (PyBool true) (extra_fields !! "is_superuser")) as [|[]| |];
      congruence. }
  split; [exact H1|]. split; [exact H2|]. split; [exact Hactive|].
  split; [exact Hother|]. split; [|auto].
  destruct email as [[|c s]|]; try discriminate.
  exists (String c s). split; [reflexivity|]. split; [discriminate|reflexivity].
Qed.

Example create_superuser_example :
  UserManager.create_superuser id (Some "root@example.org") None
    {[ "is_staff" := PyInt 1 ]}
  = UserManager.ValueError "Superuser must have is_staff=True."
  /\ UserManager.create_superuser id (Some "") None ∅
     = UserManager.ValueError "The Email must be set".
Proof. split; reflexivity. Qed.

(** ** The verification of the address *)

Section VerificationFacts.

Lemma save_rows (u : User.t) (users : list User.t) r :
  In r (User.save u users) ->
  r = u \/ (In r users /\ User.id r <> User.id u).
Proof.
  unfold User.save.
  destruct (existsb (fun r0 => N.eqb (User.id r0) (User.id u)) users) eqn:Hex.
  - intros H. apply in_map_iff in H as (x & Hx & Hin).
    destruct (N.eqb_spec (User.id x) (User.id u)); subst; auto.
  - intros H. apply in_app_or in H as [H|[H|[]]]; auto.
    right. split; [exact H|]. intros E.
    assert (Ht : existsb (fun r0 => N.eqb (User.id r0) (User.id u)) users = true).
    { apply existsb_exists. exists r. split; [exact H|]. now apply N.eqb_eq. }
    congruence.
Qed.



(** A row [save] left alone, or wrote as an active one, awaits nothing
    it did not await before. *)
Lemma save_active_awaits key (u : User.t) (users : list User.t) r :
  User.is_active u = true ->
  In r (User.save u users) -> Accounts.awaits key r = true ->
  In r users /\ User.id r <> User.id u.
Proof.
  intros Hact Hin Haw. apply save_rows in Hin as [->|H]; [|exact H].
  unfold Accounts.awaits in Haw. rewrite Hact, andb_false_r in Haw.
  discriminate.
Qed.

End VerificationFacts.


(** X27.  [resend_verification_email] mails nothing, whatever the
    request, and never answers with the redirect to the page that says
    a mail was sent.  For the POST of a signed-in user whose address is
    not confirmed it stores the new key in the place of the old one and
    then fails with NameError, on [reverse], which the module does not
    import: the link mailed before matches no more, and no mail carries
    the new key.  The user, being active as every signed-in user is,
    is signed in by no verification link afterwards and stays
    unconfirmed. *)
Theorem resend_stores_key_and_mails_nothing (user : option User.t)
    (method verification_key : string) (users : list User.t) :
  let r := Accounts.resend_verification_email user method verification_key users in
  Accounts.mailed r.1 = None
  /\ Accounts.response r.1 <> Accounts.Redirect "accounts:verify_email_required"
  /\ (user = None -> method = "POST" ->
      Accounts.response r.1 = Accounts.Uncaught "NoReverseMatch" /\ r.2 = users)
  /\ (forall u,
        user = Some u -> method = "POST" -> User.email_confirmed u = false ->
        Accounts.response r.1 = Accounts.Uncaught "NameError"
        /\ r.2 = User.save (User.set_email_verification_key
                              (Some verification_key) u) users
        /\ (forall row, In row r.2 -> User.id row = User.id u ->
                        User.email_verification_key row = Some verification_key)
        /\ (User.is_active u = true -> verification_key <> "" ->
            forall key,
              let v := Accounts.verify_email key r.2 in
              Accounts.logged_in v.1 <> Some (User.id u)
              /\ forall row, In row v.2 -> User.id row = User.id u ->
                             User.email_confirmed row = false)).
Proof.
  intros r. subst r. unfold Accounts.resend_verification_email.
  destruct (String.eqb_spec method "POST") as [->|Hm]; cbn [negb].
  2: { cbn. split; [reflexivity|]. split; [discriminate|].
       split; [congruence|]. intros; congruence. }
  destruct user as [u|].
  2: { cbn. split; [reflexivity|]. split; [discriminate|].
       split; [auto|]. intros; congruence. }
  destruct (User.email_confirmed u) eqn:Hconf.
  { cbn. split; [reflexivity|]. split; [discriminate|].
    split; [discriminate|]. intros u0 E. injection E as <-. congruence. }
  replace (existsb (String.eqb "reverse") Accounts.names_from_django_urls)
    with false by reflexivity.
  cbn [fst snd Accounts.mailed Accounts.response].
  split; [reflexivity|]. split; [discriminate|]. split; [discriminate|].
  intros u0 E _ _. injection E as <-.
  set (u' := User.set_email_verification_key (Some verification_key) u).
  assert (Hrows : forall row, In row (User.save u' users) ->
                              User.id row = User.id u -> row = u').
  { intros row Hr E. apply save_rows in Hr as [Hr|[_ Hne]]; [exact Hr|].
    now destruct Hne. }
  split; [reflexivity|]. split; [reflexivity|]. split.
  { intros row Hr E. now rewrite (Hrows row Hr E). }
  intros Hact Hkey key.
  assert (Hact' : User.is_active u' = true) by exact Hact.
  assert (Hconf' : User.email_confirmed u' = false).
  { unfold User.email_confirmed. cbn. rewrite Hact.
    destruct verification_key; [congruence|reflexivity]. }
  unfold Accounts.verify_email.
  destruct (List.filter (Accounts.awaits key) (User.save u' users))
    as [|w [|w' rest]] eqn:Hf; cbn [fst snd Accounts.logged_in].
  - split; [discriminate|]. intros row Hr E. now rewrite (Hrows row Hr E).
  - assert (Hw : In w (User.save u' users) /\ Accounts.awaits key w = true).
    { apply filter_In. rewrite Hf. now left. }
    destruct Hw as [Hw Haw].
    apply (save_active_awaits _ u' users w Hact') in Haw as [_ Hne]; [|exact Hw].
    split; [intros Heq; injection Heq as Heq; exact (Hne Heq)|].
    intros row Hr E. apply save_rows in Hr as [->|[Hr Hne']].
    + destruct (Hne E).
    + now rewrite (Hrows row Hr E).
  - split; [discriminate|]. intros row Hr E. now rewrite (Hrows row Hr E).
Qed.

Example resend_example :
  let r := Accounts.resend_verification_email (Some Sample3.ann) "POST" "newkey"
             Sample3.users0 in
  User.is_active Sample3.ann = true
  /\ User.email_confirmed Sample3.ann = false
  /\ r.1 = Accounts.mkAnswer (Accounts.Uncaught "NameError") None "" None
  /\ map User.email_verification_key r.2 = [Some "newkey"; Some "bobkey"]
  /\ (Accounts.verify_email "newkey" r.2).1
     = Accounts.mkAnswer (Accounts.Redirect "home") None
         "The verification link is invalid or has expired." None.
Proof. vm_compute. repeat split. Qed.

(** ** The name of a user *)

(** X28.  [full_name].  It has no white space at either end.  With one
    of the two names empty it is the other one, stripped; with two names
    that have no white space around them it is the two with one space
    between. *)
Theorem full_name_of_parts (u : User.t) :
  PyStr.strip (User.full_name u) = User.full_name u
  /\ (User.last_name u = "" ->
      User.full_name u = PyStr.strip (User.first_name u))
  /\ (User.first_name u = "" ->
      User.full_name u = PyStr.strip (User.last_name u))
  /\ (User.first_name u <> "" -> User.last_name u <> "" ->
      PyStr.strip (User.first_name u) = User.first_name u ->
      PyStr.strip (User.last_name u) = User.last_name u ->
      User.full_name u = User.first_name u +:+ " " +:+ User.last_name u).
Proof.
  unfold User.full_name. split; [apply strip_strip|].
  split; [|split].
  - intros ->. unfold PyStr.strip. rewrite lstrip_app_space.
    destruct (PyStr.lstrip (User.first_name u)) as [|c t] eqn:E;
      [reflexivity|].
    apply rstrip_app_space.
  - intros ->. reflexivity.
  - intros Hf Hl Hsf Hsl.
    assert (Hlf : PyStr.lstrip (User.first_name u) = User.first_name u)
      by (rewrite <- Hsf at 1; rewrite lstrip_strip; exact Hsf).
    assert (Hrl : PyStr.rstrip (User.last_name u) = User.last_name u)
      by (rewrite <- Hsl at 1; unfold PyStr.strip;
          rewrite rstrip_rstrip; exact Hsl).
    destruct (lstrip_head (User.first_name u)) as [E|(c & t & E & Hc)];
      [congruence|].
    rewrite Hlf in E. rewrite E in *.
    unfold PyStr.strip.
    change (String c t +:+ " " +:+ User.last_name u)
      with (String c (t +:+ " " +:+ User.last_name u)).
    cbn [PyStr.lstrip]. rewrite Hc.
    change (String c (t +:+ " " +:+ User.last_name u))
      with (String c t +:+ String " " (User.last_name u)).
    assert (Hr : PyStr.rstrip (String " " (User.last_name u))
                 = String " " (User.last_name u)).
    { rewrite rstrip_cons, Hrl.
      destruct (User.last_name u); [congruence|reflexivity]. }
    rewrite rstrip_app; rewrite Hr; [reflexivity|discriminate].
Qed.

Lemma accounts_examples :
  User.full_name Sample3.ann = "Ann Lee"
  /\ User.full_name Sample3.bob = "Bob"
  /\ (Accounts.verify_email "bobkey" Sample3.users0).1
     = Accounts.mkAnswer (Accounts.Redirect "shortener:dashboard") (Some 2%N)
         "Your email has been verified successfully! You are now logged in."
         None.
Proof. repeat split. Qed.
